(** * go-multi-chat-api: the multi-provider message dispatch core

    A shallow embedding of the dispatch core of go-multi-chat-api:

    - the domain records of [domain/provider] (providers, user-provider
      bindings, message transactions and their history);
    - the MySQL repositories of [infrastructure/repository/mysql/provider]
      ([Create], [GetByID], [Update], [GetFailedMessagesForRetry],
      [GetPendingMessages], [GetUndeliveredMessages], [MoveToHistory],
      [CountUserMessagesForToday], [GetUserProviders],
      [GetUserProvidersByPriority]);
    - the message processor of [infrastructure/messaging]
      ([EnqueueMessage], [worker], [processMessage], [updateMessageStatus],
      [sendWebhookNotification], [checkPendingMessages],
      [checkUndeliveredMessages]);
    - the use case of [application/usecases/message] ([SendMessage],
      [GetMessageStatus], [RetryFailedMessages]);
    - the handlers of [infrastructure/rest/controllers/send] ([Message],
      [GetMessageStatus], [RetryFailedMessages]), from the point where the
      request has been bound.

    Modelling conventions.

    - The relational store is an in-memory value [DB]: one list of rows per
      table, in insertion order.  Database connection faults are outside the
      model; the errors that remain are the logical ones (row not found,
      duplicate primary key, unknown column).
    - Go's [int] is a 64-bit two's complement integer: arithmetic on it is
      written with [wrap_int].
    - An instant is the number of nanoseconds since the Unix epoch, a
      duration a number of nanoseconds.  Every operation reads the clock
      once: its [now] argument.
    - Go's [(value, error)] results are pairs whose second component is an
      [option error]; [None] is Go's [nil].
    - The worker pool's channel is a list bounded by its capacity; a
      [select] with a [default] branch is a test on the length.
    - The operations (a call of the use case, a pass of the watcher, a
      turn of a worker) run one after the other; what goroutines do in
      between the steps of one operation is outside the model.
    - [map[string]interface{}] values are [gmap string Value].
    - What lives outside the repository (encoding/json, the Signal client,
      the process environment, the text of application errors) is collected
      in the record [Externals]. *)

From Stdlib Require Import ZArith String List Bool Lia.
From stdpp Require Import base option list gmap strings.

Local Open Scope string_scope.
Local Open Scope list_scope.
Local Open Scope Z_scope.

(** ** Go primitives *)


(** Wrap-around of Go's 64-bit [int]. *)
Definition wrap_int (z : Z) : Z := (z + 2 ^ 63) mod 2 ^ 64 - 2 ^ 63.

Module time.
Definition Time := Z.
Definition Duration := Z.
Definition Nanosecond : Duration := 1.
Definition Second : Duration := 1000000000.
Definition Minute : Duration := 60 * Second.
Definition Hour : Duration := 60 * Minute.
Definition Add (t : Time) (d : Duration) : Time := t + d.
(** [t.Unix()]: whole seconds since the epoch. *)
Definition Unix (t : Time) : Z := t / Second.
(** [time.Date(now.Year(), now.Month(), now.Day(), 0, 0, 0, 0, time.UTC)]
    for a [now] already in UTC. *)
Definition startOfDay (now : Time) : Time := now - now mod (24 * Hour).
End time.
Export time.

(** Application error categories of [domain/errors]. *)
Inductive ErrorType := NotFound | UnknownError | ResourceAlreadyExists.

Inductive error :=
| AppError (t : ErrorType)      (* domainErrors.NewAppErrorWithType t *)
| ErrRecordNotFound             (* gorm.ErrRecordNotFound *)
| errors_New (s : string).      (* errors.New s *)

(** Values stored in a [map[string]interface{}]. *)
Inductive Value :=
| VString (s : string)
| VBool (b : bool)
| VInt (n : Z)
| VTime (t : Time).

Inductive Level := Debug | Info | Warn | Error.
Definition LogEntry : Type := Level * string.

(** ** Domain records ([domain/provider]) *)

Record Provider := {
  p_ID : Z;
  p_Name : string;
  p_Type : string;
  p_Description : string;
  p_Config : string;
  p_Status : bool;
  p_CreatedAt : Time;
  p_UpdatedAt : Time
}.

Record UserProvider := {
  up_ID : Z;
  up_UserID : Z;
  up_ProviderID : Z;
  up_Priority : Z;
  up_Config : string;
  up_Status : bool;
  up_CreatedAt : Time;
  up_UpdatedAt : Time
}.

Record MessageTransaction := {
  ID : Z;
  UserID : Z;
  ProviderID : Z;
  Recipients : string;
  Message : string;
  RequestData : string;
  ResponseData : string;
  Status : string;
  ErrorMessage : string;
  RetryCount : Z;
  NextRetryAt : option Time;
  Processing : bool;
  ProcessedAt : option Time;
  CreatedAt : Time;
  UpdatedAt : Time
}.

Record MessageTransactionHistory := {
  h_ID : Z;
  h_MessageID : Z;
  h_UserID : Z;
  h_ProviderID : Z;
  h_Recipients : string;
  h_Message : string;
  h_RequestData : string;
  h_ResponseData : string;
  h_Status : string;
  h_ErrorMessage : string;
  h_RetryCount : Z;
  h_ProcessedAt : Time;
  h_CreatedAt : Time;
  h_UpdatedAt : Time
}.

(** Modelled from the spec: the [User] record of [domain/user], which is not
    part of the sources at hand.  Only the two fields the dispatcher reads
    are kept: the identity and the daily message limit. *)
Record User := {
  u_ID : Z;
  MessageRateLimit : Z
}.

(** Go zero values, as returned next to a non-nil error. *)
Definition zeroTime : Time := 0.

Definition zeroProvider : Provider :=
  {| p_ID := 0; p_Name := ""; p_Type := ""; p_Description := "";
     p_Config := ""; p_Status := false;
     p_CreatedAt := zeroTime; p_UpdatedAt := zeroTime |}.

Definition zeroUserProvider : UserProvider :=
  {| up_ID := 0; up_UserID := 0; up_ProviderID := 0; up_Priority := 0;
     up_Config := ""; up_Status := false;
     up_CreatedAt := zeroTime; up_UpdatedAt := zeroTime |}.

Definition zeroMessageTransaction : MessageTransaction :=
  {| ID := 0; UserID := 0; ProviderID := 0; Recipients := ""; Message := "";
     RequestData := ""; ResponseData := ""; Status := ""; ErrorMessage := "";
     RetryCount := 0; NextRetryAt := None; Processing := false;
     ProcessedAt := None; CreatedAt := zeroTime; UpdatedAt := zeroTime |}.

Definition zeroUser : User := {| u_ID := 0; MessageRateLimit := 0 |}.

(** ** The store *)

Record DB := {
  users : list User;
  providers : list Provider;
  user_providers : list UserProvider;
  message_transactions : list MessageTransaction;
  message_transaction_history : list MessageTransactionHistory
}.

Definition set_message_transactions (rows : list MessageTransaction) (d : DB) : DB :=
  {| users := users d; providers := providers d;
     user_providers := user_providers d;
     message_transactions := rows;
     message_transaction_history := message_transaction_history d |}.

Definition set_message_transaction_history
    (rows : list MessageTransactionHistory) (d : DB) : DB :=
  {| users := users d; providers := providers d;
     user_providers := user_providers d;
     message_transactions := message_transactions d;
     message_transaction_history := rows |}.

(** AUTO_INCREMENT: the next primary key is one more than the largest in
    the table. *)
Definition next_id (ids : list Z) : Z := 1 + foldr Z.max 0 ids.

(** ** Repositories ([infrastructure/repository/mysql]) *)

Module UserRepository.
(** Modelled from the spec: [GetByID] of the user repository, which is not
    part of the sources at hand.  "Load user.  Fail if user does not
    exist." *)
Definition GetByID (id : Z) (d : DB) : User * option error :=
  match List.find (fun u => u_ID u =? id) (users d) with
  | Some u => (u, None)
  | None => (zeroUser, Some (AppError NotFound))
  end.
End UserRepository.

Module Repository.
(** [WHERE id = ?], first row. *)
Definition GetByID (id : Z) (d : DB) : Provider * option error :=
  match List.find (fun p => p_ID p =? id) (providers d) with
  | Some p => (p, None)
  | None => (zeroProvider, Some (AppError NotFound))
  end.
End Repository.

Module UserProviderRepository.
(** [WHERE user_id = ?]: every binding of the user, whatever its status,
    in table order. *)
Definition GetUserProviders (userID : Z) (d : DB)
  : list UserProvider * option error :=
  (List.filter (fun up => up_UserID up =? userID) (user_providers d), None).

Fixpoint insert_by_priority (x : UserProvider) (l : list UserProvider)
  : list UserProvider :=
  match l with
  | [] => [x]
  | y :: l' =>
      if up_Priority x <=? up_Priority y then x :: y :: l'
      else y :: insert_by_priority x l'
  end.

(** [ORDER BY priority ASC]; rows of equal priority keep the table order. *)
Definition order_by_priority (l : list UserProvider) : list UserProvider :=
  foldr insert_by_priority [] l.

(** [WHERE user_id = ? AND status = true ORDER BY priority ASC]. *)
Definition GetUserProvidersByPriority (userID : Z) (d : DB)
  : list UserProvider * option error :=
  (order_by_priority
     (List.filter (fun up => (up_UserID up =? userID) && Bool.eqb (up_Status up) true)
        (user_providers d)),
   None).
End UserProviderRepository.

Module MessageTransactionHistoryRepository.
Definition set_h_ID (id : Z) (h : MessageTransactionHistory)
  : MessageTransactionHistory :=
  {| h_ID := id; h_MessageID := h_MessageID h; h_UserID := h_UserID h;
     h_ProviderID := h_ProviderID h; h_Recipients := h_Recipients h;
     h_Message := h_Message h; h_RequestData := h_RequestData h;
     h_ResponseData := h_ResponseData h; h_Status := h_Status h;
     h_ErrorMessage := h_ErrorMessage h; h_RetryCount := h_RetryCount h;
     h_ProcessedAt := h_ProcessedAt h; h_CreatedAt := h_CreatedAt h;
     h_UpdatedAt := h_UpdatedAt h |}.

Definition zeroHistory : MessageTransactionHistory :=
  {| h_ID := 0; h_MessageID := 0; h_UserID := 0; h_ProviderID := 0;
     h_Recipients := ""; h_Message := ""; h_RequestData := "";
     h_ResponseData := ""; h_Status := ""; h_ErrorMessage := "";
     h_RetryCount := 0; h_ProcessedAt := zeroTime;
     h_CreatedAt := zeroTime; h_UpdatedAt := zeroTime |}.

(** INSERT: a zero primary key is assigned by the table, a duplicate one
    is refused. *)
Definition Create (historyDomain : MessageTransactionHistory) (d : DB)
  : DB * (MessageTransactionHistory * option error) :=
  let ids := map h_ID (message_transaction_history d) in
  let historyRepository :=
    if h_ID historyDomain =? 0 then set_h_ID (next_id ids) historyDomain
    else historyDomain in
  if existsb (Z.eqb (h_ID historyRepository)) ids
  then (d, (zeroHistory, Some (AppError UnknownError)))
  else (set_message_transaction_history
          (message_transaction_history d ++ [historyRepository]) d,
        (historyRepository, None)).

(** [WHERE message_id = ?]. *)
Definition GetByMessageID (messageID : Z) (d : DB)
  : list MessageTransactionHistory * option error :=
  (List.filter (fun h => h_MessageID h =? messageID)
     (message_transaction_history d), None).
End MessageTransactionHistoryRepository.

Module MessageTransactionRepository.

Definition ColumnsMessageTransactionMapping : gmap string string :=
  list_to_map
    [ ("id", "id"); ("userID", "user_id"); ("providerID", "provider_id");
      ("recipients", "recipients"); ("message", "message");
      ("requestData", "request_data"); ("responseData", "response_data");
      ("status", "status"); ("errorMessage", "error_message");
      ("retryCount", "retry_count"); ("nextRetryAt", "next_retry_at");
      ("processing", "processing"); ("processedAt", "processed_at");
      ("createdAt", "created_at"); ("updatedAt", "updated_at") ].

(** The columns of table [message_transactions]. *)
Definition columns : gset string :=
  list_to_set
    [ "id"; "user_id"; "provider_id"; "recipients"; "message";
      "request_data"; "response_data"; "status"; "error_message";
      "retry_count"; "next_retry_at"; "processing"; "processed_at";
      "created_at"; "updated_at" ].

(** The two mappers leave [NextRetryAt] and [ProcessedAt] out. *)
Definition toDomainMapper (mt : MessageTransaction) : MessageTransaction :=
  {| ID := ID mt; UserID := UserID mt; ProviderID := ProviderID mt;
     Recipients := Recipients mt; Message := Message mt;
     RequestData := RequestData mt; ResponseData := ResponseData mt;
     Status := Status mt; ErrorMessage := ErrorMessage mt;
     RetryCount := RetryCount mt;
     NextRetryAt := None;
     Processing := Processing mt;
     ProcessedAt := None;
     CreatedAt := CreatedAt mt; UpdatedAt := UpdatedAt mt |}.

Definition messageTransactionFromDomainMapper (mt : MessageTransaction)
  : MessageTransaction :=
  {| ID := ID mt; UserID := UserID mt; ProviderID := ProviderID mt;
     Recipients := Recipients mt; Message := Message mt;
     RequestData := RequestData mt; ResponseData := ResponseData mt;
     Status := Status mt; ErrorMessage := ErrorMessage mt;
     RetryCount := RetryCount mt;
     NextRetryAt := None;
     Processing := Processing mt;
     ProcessedAt := None;
     CreatedAt := CreatedAt mt; UpdatedAt := UpdatedAt mt |}.

Definition messageTransactionArrayToDomainMapper
    (rows : list MessageTransaction) : list MessageTransaction :=
  map toDomainMapper rows.

Definition set_ID (id : Z) (mt : MessageTransaction) : MessageTransaction :=
  {| ID := id; UserID := UserID mt; ProviderID := ProviderID mt;
     Recipients := Recipients mt; Message := Message mt;
     RequestData := RequestData mt; ResponseData := ResponseData mt;
     Status := Status mt; ErrorMessage := ErrorMessage mt;
     RetryCount := RetryCount mt; NextRetryAt := NextRetryAt mt;
     Processing := Processing mt; ProcessedAt := ProcessedAt mt;
     CreatedAt := CreatedAt mt; UpdatedAt := UpdatedAt mt |}.

(** INSERT: a zero primary key is assigned by the table, a duplicate one
    is refused.  The callers set [CreatedAt] and [UpdatedAt] to
    [time.Now()]; gorm's filling of a zero creation or update time is
    outside the model. *)
Definition Create (messageTransactionDomain : MessageTransaction) (d : DB)
  : DB * (MessageTransaction * option error) :=
  let ids := map ID (message_transactions d) in
  let mapped := messageTransactionFromDomainMapper messageTransactionDomain in
  let messageTransactionRepository :=
    if ID mapped =? 0 then set_ID (next_id ids) mapped else mapped in
  if existsb (Z.eqb (ID messageTransactionRepository)) ids
  then (d, (zeroMessageTransaction, Some (AppError UnknownError)))
  else (set_message_transactions
          (message_transactions d ++ [messageTransactionRepository]) d,
        (toDomainMapper messageTransactionRepository, None)).

Definition GetByID (id : Z) (d : DB) : MessageTransaction * option error :=
  match List.find (fun r => ID r =? id) (message_transactions d) with
  | Some r => (toDomainMapper r, None)
  | None => (zeroMessageTransaction, Some (AppError NotFound))
  end.

(** Column readers of an UPDATE's SET list: a column that is absent, or
    whose value has another type than the column, keeps the old value. *)
Definition col_string (u : gmap string Value) (c : string) (old : string) : string :=
  match u !! c with Some (VString s) => s | _ => old end.
Definition col_int (u : gmap string Value) (c : string) (old : Z) : Z :=
  match u !! c with Some (VInt n) => n | _ => old end.
Definition col_bool (u : gmap string Value) (c : string) (old : bool) : bool :=
  match u !! c with Some (VBool b) => b | _ => old end.
Definition col_time (u : gmap string Value) (c : string) (old : Time) : Time :=
  match u !! c with Some (VTime t) => t | _ => old end.
Definition col_time_null (u : gmap string Value) (c : string) (old : option Time)
  : option Time :=
  match u !! c with Some (VTime t) => Some t | _ => old end.

(** [UPDATE message_transactions SET ... , updated_at = now]: gorm's
    [Updates] with a map writes every column of the map and refreshes the
    auto-update time. *)
Definition apply_updates (now : Time) (u : gmap string Value)
    (r : MessageTransaction) : MessageTransaction :=
  {| ID := col_int u "id" (ID r);
     UserID := col_int u "user_id" (UserID r);
     ProviderID := col_int u "provider_id" (ProviderID r);
     Recipients := col_string u "recipients" (Recipients r);
     Message := col_string u "message" (Message r);
     RequestData := col_string u "request_data" (RequestData r);
     ResponseData := col_string u "response_data" (ResponseData r);
     Status := col_string u "status" (Status r);
     ErrorMessage := col_string u "error_message" (ErrorMessage r);
     RetryCount := col_int u "retry_count" (RetryCount r);
     NextRetryAt := col_time_null u "next_retry_at" (NextRetryAt r);
     Processing := col_bool u "processing" (Processing r);
     ProcessedAt := col_time_null u "processed_at" (ProcessedAt r);
     CreatedAt := col_time u "created_at" (CreatedAt r);
     UpdatedAt := col_time u "updated_at" now |}.

(** The loop that renames the keys of the caller's map to column names. *)
Definition to_columns (messageTransactionMap : gmap string Value)
  : gmap string Value :=
  map_fold
    (fun k v updateData =>
       match ColumnsMessageTransactionMapping !! k with
       | Some column => <[column := v]> updateData
       | None => <[k := v]> updateData
       end)
    ∅ messageTransactionMap.

(** [Model(&obj).Updates(updateData)] with [obj.ID = id], then [First] on
    the key.  Keys are positive and no caller passes key 0, for which gorm
    has no condition to put into the UPDATE and refuses it; that case is
    outside the model. *)
Definition Update (now : Time) (id : Z) (messageTransactionMap : gmap string Value)
    (d : DB) : DB * (MessageTransaction * option error) :=
  let updateData := to_columns messageTransactionMap in
  if bool_decide (dom updateData ⊆ columns) then
    let d' :=
      set_message_transactions
        (map (fun r => if ID r =? id then apply_updates now updateData r else r)
           (message_transactions d)) d in
    match List.find (fun r => ID r =? id) (message_transactions d') with
    | Some r => (d', (toDomainMapper r, None))
    | None => (d', (zeroMessageTransaction, Some ErrRecordNotFound))
    end
  else (d, (zeroMessageTransaction, Some (AppError UnknownError))).

Definition time_le_null (o : option Time) (t : Time) : bool :=
  match o with Some x => x <=? t | None => false end.

(** [WHERE status = 'failed' AND next_retry_at <= now]. *)
Definition GetFailedMessagesForRetry (now : Time) (d : DB)
  : list MessageTransaction * option error :=
  (messageTransactionArrayToDomainMapper
     (List.filter
        (fun r => String.eqb (Status r) "failed" && time_le_null (NextRetryAt r) now)
        (message_transactions d)),
   None).

(** [WHERE status = 'success' AND processing = false
    AND updated_at <= now - 5 min]. *)
Definition GetUndeliveredMessages (now : Time) (d : DB)
  : list MessageTransaction * option error :=
  let fiveMinutesAgo := Add now (- 5 * Minute) in
  (messageTransactionArrayToDomainMapper
     (List.filter
        (fun r => String.eqb (Status r) "success"
                  && Bool.eqb (Processing r) false
                  && (UpdatedAt r <=? fiveMinutesAgo))
        (message_transactions d)),
   None).

Definition MoveToHistory (now : Time) (id : Z) (d : DB) : DB * option error :=
  match GetByID id d with
  | (_, Some err) => (d, Some err)
  | (messageTransaction, None) =>
      let history :=
        {| h_ID := 0;
           h_MessageID := ID messageTransaction;
           h_UserID := UserID messageTransaction;
           h_ProviderID := ProviderID messageTransaction;
           h_Recipients := Recipients messageTransaction;
           h_Message := Message messageTransaction;
           h_RequestData := RequestData messageTransaction;
           h_ResponseData := ResponseData messageTransaction;
           h_Status := Status messageTransaction;
           h_ErrorMessage := ErrorMessage messageTransaction;
           h_RetryCount := RetryCount messageTransaction;
           h_ProcessedAt := UpdatedAt messageTransaction;
           h_CreatedAt := now;
           h_UpdatedAt := now |} in
      match MessageTransactionHistoryRepository.Create history d with
      | (d', (_, Some err)) => (d', Some err)
      | (d', (_, None)) => (d', None)
      end
  end.

(** [WHERE user_id = ? AND created_at >= startOfDay AND created_at < endOfDay]
    over the active table. *)
Definition CountUserMessagesForToday (now : Time) (userID : Z) (d : DB)
  : Z * option error :=
  let startOfDay := startOfDay now in
  let endOfDay := Add startOfDay (24 * Hour) in
  let count :=
    Z.of_nat
      (length
         (List.filter
            (fun r => (UserID r =? userID)
                      && (startOfDay <=? CreatedAt r)
                      && (CreatedAt r <? endOfDay))
            (message_transactions d))) in
  (* [int(count)]: from [int64] to the 64-bit [int], no change of value *)
  (count, None).

(** The SET list of the locking UPDATE of [GetPendingMessages]; its keys
    are column names already. *)
Definition pending_lock (now : Time) : gmap string Value :=
  <["processed_at" := VTime now]> (<["processing" := VBool true]> ∅).

(** In one database transaction: [WHERE status = 'pending' AND
    processing = false LIMIT 1000], in table order; when rows were found,
    [UPDATE ... SET processing = true, processed_at = now WHERE id IN
    (messageIDs)].  The rows returned are the ones the SELECT has read,
    as they were before the UPDATE. *)
Definition GetPendingMessages (now : Time) (d : DB)
  : DB * (list MessageTransaction * option error) :=
  let messageTransactions :=
    take 1000
      (List.filter
         (fun r => String.eqb (Status r) "pending" && Bool.eqb (Processing r) false)
         (message_transactions d)) in
  if (length messageTransactions =? 0)%nat then (d, ([], None))
  else
    let messageIDs := map ID messageTransactions in
    let d' :=
      set_message_transactions
        (map (fun r => if existsb (Z.eqb (ID r)) messageIDs
                       then apply_updates now (pending_lock now) r else r)
           (message_transactions d)) d in
    (d', (messageTransactionArrayToDomainMapper messageTransactions, None)).

End MessageTransactionRepository.

(** ** The world the services run in *)

(** [WebhookConfig] of the messaging package: the part of a binding's
    configuration that the notifier decodes. *)
Record WebhookConfig := {
  WebhookURL : string;   (* json:"webhook_url" *)
  Enabled : bool         (* json:"webhook_enabled" *)
}.

(** The HTTP request a webhook goroutine builds and sends. *)
Record HTTPRequest := {
  req_Method : string;
  req_URL : string;
  req_Header : list (string * string);
  req_Body : gmap string Value;
  req_Timeout : Duration
}.

(** What the code calls outside the repository. *)
Record Externals := {
  (** [json.Marshal] of a [[]string]. *)
  json_Marshal_strings : list string -> string;
  (** [json.Unmarshal] into a [[]string]; the callers drop its error. *)
  json_Unmarshal_strings : string -> list string;
  (** [json.Unmarshal] into a [WebhookConfig]; [None] is a decoding error. *)
  json_Unmarshal_WebhookConfig : string -> option WebhookConfig;
  (** [json.Marshal] of the Signal request built from number, message and
      recipients. *)
  json_Marshal_signalRequest : string -> string -> list string -> string;
  (** [os.Getenv("SIGNAL_FROM_NUMBER")]. *)
  SIGNAL_FROM_NUMBER : string;
  (** [utils.GetEnv("DEFAULT_SIGNAL_TEXT_MODE", "normal")]. *)
  DEFAULT_SIGNAL_TEXT_MODE : string;
  (** The Signal client's [SendV2] on number, message, recipients and text
      mode; the response, when there is one, already marshalled. *)
  SendV2 : string -> string -> list string -> option string
           -> option string * option error;
  (** The text of an application error. *)
  AppError_Error : ErrorType -> string
}.

(** [err.Error()]. *)
Definition Error_ (ext : Externals) (e : error) : string :=
  match e with
  | AppError t => AppError_Error ext t
  | ErrRecordNotFound => "record not found"
  | errors_New s => s
  end.

Record World := {
  db : DB;
  (** [messageQueue]: the buffered channel of the processor. *)
  messageQueue : list MessageTransaction;
  (** What the logger has received, oldest first. *)
  logs : list LogEntry;
  (** The requests of the webhook goroutines started so far, oldest first. *)
  webhook_posts : list HTTPRequest
}.

(** [make(chan *provider.MessageTransaction, 100)]. *)
Definition messageQueueCap : nat := 100.

Definition set_db (d : DB) (w : World) : World :=
  {| db := d; messageQueue := messageQueue w; logs := logs w;
     webhook_posts := webhook_posts w |}.
Definition set_messageQueue (q : list MessageTransaction) (w : World) : World :=
  {| db := db w; messageQueue := q; logs := logs w;
     webhook_posts := webhook_posts w |}.
Definition set_logs (l : list LogEntry) (w : World) : World :=
  {| db := db w; messageQueue := messageQueue w; logs := l;
     webhook_posts := webhook_posts w |}.
Definition set_webhook_posts (l : list HTTPRequest) (w : World) : World :=
  {| db := db w; messageQueue := messageQueue w; logs := logs w;
     webhook_posts := l |}.

(** A state monad over the world. *)
Definition M (A : Type) : Type := World -> A * World.

Definition ret {A : Type} (a : A) : M A := fun w => (a, w).

Definition bind {A B : Type} (m : M A) (k : A -> M B) : M B :=
  fun w => let (a, w') := m w in k a w'.

(** The monad is used through stdpp's notations [x ← c; k] and [c ;; k]. *)
#[export] Instance M_ret : MRet M := @ret.
#[export] Instance M_bind : MBind M := fun A B k m => bind m k.

(** A repository call that reads the store. *)
Definition readDB {A : Type} (f : DB -> A) : M A := fun w => (f (db w), w).

(** A repository call that writes the store. *)
Definition liftDB {A : Type} (f : DB -> DB * A) : M A :=
  fun w => let (d, a) := f (db w) in (a, set_db d w).

(** A call of the logger; the structured fields are not kept. *)
Definition log (lvl : Level) (msg : string) : M unit :=
  fun w => (tt, set_logs (logs w ++ [(lvl, msg)]) w).

(** [for _, x := range l { f x }]. *)
Fixpoint for_range {A : Type} (f : A -> M unit) (l : list A) : M unit :=
  match l with
  | [] => ret tt
  | x :: l' => f x ;; for_range f l'
  end.

(** Running a computation. *)
Definition exec {A : Type} (m : M A) (w : World) : World := snd (m w).
Definition eval {A : Type} (m : M A) (w : World) : A := fst (m w).

(** ** The message processor ([infrastructure/messaging]) *)

Module messaging.
Section processor.
Context (ext : Externals).

(** [select { case p.messageQueue <- msg: sent  default: full }]: the
    send goes through when the buffer has room, otherwise the default
    branch runs at once. *)
Definition select_send (msg : MessageTransaction) (sent full : M unit) : M unit :=
  fun w =>
    if (length (messageQueue w) <? messageQueueCap)%nat
    then sent (set_messageQueue (messageQueue w ++ [msg]) w)
    else full w.

Definition EnqueueMessage (msg : MessageTransaction) : M unit :=
  select_send msg
    (log Info "Message added to processing queue")
    (log Warn "Message queue is full, message not queued").

(** The goroutine body: the POST it builds from the URL and the payload. *)
Definition sendWebhookRequest (webhookURL : string) (payload : gmap string Value)
  : HTTPRequest :=
  {| req_Method := "POST";
     req_URL := webhookURL;
     req_Header := [ ("Content-Type", "application/json");
                     ("User-Agent", "go-multi-chat-api-Webhook") ];
     req_Body := payload;
     req_Timeout := 10 * Second |}.

(** [go p.sendWebhookRequest(url, payload)]. *)
Definition go_sendWebhookRequest (webhookURL : string)
    (payload : gmap string Value) : M unit :=
  fun w =>
    (tt, set_webhook_posts
           (webhook_posts w ++ [sendWebhookRequest webhookURL payload]) w).

Definition webhook_payload (now : Time) (userID messageID : Z)
    (status errorMessage : string) : gmap string Value :=
  let payload : gmap string Value :=
    <["timestamp" := VInt (Unix now)]>
      (<["status" := VString status]>
         (<["user_id" := VInt userID]>
            (<["message_id" := VInt messageID]> ∅))) in
  if negb (String.eqb errorMessage "")
  then <["error" := VString errorMessage]> payload
  else payload.

(** The body of the loop of [sendWebhookNotification]. *)
Definition notify_binding (now : Time) (userID messageID : Z)
    (status errorMessage : string) (up : UserProvider) : M unit :=
  if negb (String.eqb (up_Config up) "") then
    match json_Unmarshal_WebhookConfig ext (up_Config up) with
    | None => log Error "Error parsing user provider config"
    | Some config =>
        if Enabled config && negb (String.eqb (WebhookURL config) "")
        then go_sendWebhookRequest (WebhookURL config)
               (webhook_payload now userID messageID status errorMessage)
        else mret tt
    end
  else mret tt.

Definition sendWebhookNotification (now : Time) (userID messageID : Z)
    (status errorMessage : string) : M unit :=
  '(userProviders, err) ← readDB (UserProviderRepository.GetUserProviders userID);
  match err with
  | Some _ => log Error "Error getting user providers for webhook notification"
  | None =>
      for_range (notify_binding now userID messageID status errorMessage)
        userProviders
  end.

Definition updateMessageStatus (now : Time) (id : Z)
    (status errorMessage responseData : string) : M unit :=
  let updateData : gmap string Value :=
    <["processing" := VBool false]>
      (<["errorMessage" := VString errorMessage]>
         (<["status" := VString status]> ∅)) in
  let updateData :=
    if negb (String.eqb responseData "")
    then <["responseData" := VString responseData]> updateData
    else updateData in
  let updateData :=
    if String.eqb status "failed"
    then <["nextRetryAt" := VTime (Add now (3 * Minute))]> updateData
    else updateData in
  '(_, err) ← liftDB (MessageTransactionRepository.Update now id updateData);
  match err with
  | Some _ => log Error "Error updating message status"
  | None => mret tt
  end ;;
  if String.eqb status "success" || String.eqb status "failed" then
    err ← liftDB (MessageTransactionRepository.MoveToHistory now id);
    match err with
    | Some _ => log Error "Error moving message transaction to history"
    | None => mret tt
    end
  else mret tt.

(** The [switch] on the provider type: request data, response data and
    the [sendErr] of the enclosing function.  In the Signal case the
    result of [SendV2] is bound by [data, sendErr := ...], which declares
    a [sendErr] local to the case: the enclosing [sendErr] stays nil
    whatever [SendV2] returns, and the response is kept only when the
    local one is nil. *)
Definition dispatch (providerDetails : Provider) (msg : MessageTransaction)
  : string * string * option error :=
  let recipients := json_Unmarshal_strings ext (Recipients msg) in
  if String.eqb (p_Type providerDetails) "signal" then
    let number := SIGNAL_FROM_NUMBER ext in
    let textMode :=
      if String.eqb (DEFAULT_SIGNAL_TEXT_MODE ext) "styled"
      then Some "styled" else None in
    let requestData :=
      json_Marshal_signalRequest ext number (Message msg) recipients in
    let responseData :=
      match SendV2 ext number (Message msg) recipients textMode with
      | (Some data, None) => data
      | _ => ""
      end in
    (requestData, responseData, None)
  else if String.eqb (p_Type providerDetails) "email" then
    ("", "", Some (errors_New "email provider not implemented yet"))
  else
    ("", "",
     Some (errors_New ("unsupported provider type: " +:+ p_Type providerDetails))).

Definition processMessage (now : Time) (msg : MessageTransaction) : M unit :=
  log Info "Processing message" ;;
  '(providerDetails, err) ← readDB (Repository.GetByID (ProviderID msg));
  match err with
  | Some e =>
      log Error "Error getting provider details" ;;
      updateMessageStatus now (ID msg) "failed" (Error_ ext e) ""
  | None =>
      if negb (p_Status providerDetails) then
        log Warn "Provider is inactive" ;;
        updateMessageStatus now (ID msg) "failed" "provider is inactive" ""
      else
        let '(requestData, responseData, sendErr) := dispatch providerDetails msg in
        let updateData : gmap string Value :=
          <["processing" := VBool false]>
            (<["requestData" := VString requestData]> ∅) in
        match sendErr with
        | Some e =>
            let updateData :=
              <["nextRetryAt" := VTime (Add now (3 * Minute))]>
                (<["responseData" := VString ""]>
                   (<["errorMessage" := VString (Error_ ext e)]>
                      (<["status" := VString "failed"]> updateData))) in
            log Error "Error sending message" ;;
            '(_, err) ← liftDB (MessageTransactionRepository.Update now (ID msg) updateData);
            match err with
            | Some _ => log Error "Error updating message transaction"
            | None => mret tt
            end ;;
            err ← liftDB (MessageTransactionRepository.MoveToHistory now (ID msg));
            match err with
            | Some _ => log Error "Error moving message transaction to history"
            | None => mret tt
            end ;;
            sendWebhookNotification now (UserID msg) (ID msg) "failed" (Error_ ext e)
        | None =>
            let updateData :=
              <["errorMessage" := VString ""]>
                (<["responseData" := VString responseData]>
                   (<["status" := VString "success"]> updateData)) in
            '(_, err) ← liftDB (MessageTransactionRepository.Update now (ID msg) updateData);
            match err with
            | Some _ => log Error "Error updating message transaction"
            | None => mret tt
            end ;;
            err ← liftDB (MessageTransactionRepository.MoveToHistory now (ID msg));
            match err with
            | Some _ => log Error "Error moving message transaction to history"
            | None => mret tt
            end ;;
            log Info "Message sent successfully" ;;
            sendWebhookNotification now (UserID msg) (ID msg) "success" ""
        end
  end.

(** One turn of a worker: receive from the channel, process.  On an empty
    channel the worker waits: nothing changes. *)
Definition worker (now : Time) : M unit :=
  fun w =>
    match messageQueue w with
    | [] => (tt, w)
    | msg :: q => processMessage now msg (set_messageQueue q w)
    end.

(** The transaction Pass B creates for an undelivered message. *)
Definition fallback_transaction (now : Time) (msg : MessageTransaction)
    (nextProvider : UserProvider) : MessageTransaction :=
  {| ID := 0;
     UserID := UserID msg;
     ProviderID := up_ProviderID nextProvider;
     Recipients := Recipients msg;
     Message := Message msg;
     RequestData := ""; ResponseData := "";
     Status := "pending";
     ErrorMessage := "";
     RetryCount := 0;
     NextRetryAt := None;
     Processing := false;
     ProcessedAt := None;
     CreatedAt := now;
     UpdatedAt := now |}.

Definition fallback_updateData : gmap string Value :=
  <["processing" := VBool false]>
    (<["errorMessage" :=
         VString "Message not delivered within 5 minutes, fallback to alternative provider triggered"]>
       (<["status" := VString "fallback_triggered"]> ∅)).

(** The body of the loop of [checkUndeliveredMessages]. *)
Definition fallback (now : Time) (msg : MessageTransaction) : M unit :=
  '(userProviders, err) ←
    readDB (UserProviderRepository.GetUserProvidersByPriority (UserID msg));
  match err with
  | Some _ => log Error "Error getting user providers for fallback"
  | None =>
      match List.find (fun up => negb (up_ProviderID up =? ProviderID msg))
              userProviders with
      | None => log Warn "No alternative provider found for fallback"
      | Some nextProvider =>
          log Info "Found alternative provider for fallback" ;;
          '(newMsg, err) ←
            liftDB (MessageTransactionRepository.Create
                      (fallback_transaction now msg nextProvider));
          match err with
          | Some _ => log Error "Error creating fallback message transaction"
          | None =>
              '(_, err) ←
                liftDB (MessageTransactionRepository.Update now (ID msg)
                          fallback_updateData);
              match err with
              | Some _ => log Error "Error updating original message status"
              | None => mret tt
              end ;;
              err ← liftDB (MessageTransactionRepository.MoveToHistory now (ID msg));
              match err with
              | Some _ => log Error "Error moving original message to history"
              | None => mret tt
              end ;;
              select_send newMsg
                (log Info "Fallback message added to queue")
                (log Warn "Message queue is full, fallback message not queued")
          end
      end
  end.

Definition checkUndeliveredMessages (now : Time) : M unit :=
  '(undeliveredMessages, err) ←
    readDB (MessageTransactionRepository.GetUndeliveredMessages now);
  match err with
  | Some _ => log Error "Error getting undelivered messages"
  | None =>
      if (length undeliveredMessages =? 0)%nat then mret tt
      else
        log Info "Found undelivered messages to process" ;;
        for_range (fallback now) undeliveredMessages
  end.

(** The body of the loop of [checkPendingMessages].  The loop variable is
    a fresh one in every iteration (Go 1.22 and later), so [&msg] is the
    message of that iteration. *)
Definition enqueue_pending (msg : MessageTransaction) : M unit :=
  select_send msg
    (mret tt)
    (log Warn "Message queue is full, skipping message").

Definition checkPendingMessages (now : Time) : M unit :=
  '(pendingMessages, err) ←
    liftDB (MessageTransactionRepository.GetPendingMessages now);
  match err with
  | Some _ => log Error "Error getting pending messages"
  | None =>
      if (length pendingMessages =? 0)%nat then mret tt
      else
        log Info "Found pending messages to process" ;;
        for_range enqueue_pending pendingMessages
  end.

End processor.
End messaging.

(** ** The use case ([application/usecases/message]) *)

Module message.

Record MessageRequest := {
req_Type : string;
req_Message : string;
req_Recipients : list string;
req_UserID : Z
}.

Record MessageResponse := {
resp_ID : Z;
resp_Status : string;
resp_Message : string
}.

Record MessageStatusRequest := {
sreq_ID : Z
}.

Record MessageStatusResponse := {
sresp_ID : Z;
sresp_Status : string;
sresp_Message : string;
sresp_Recipients : string;
sresp_ErrorMessage : string;
sresp_RetryCount : Z;
sresp_CreatedAt : Time;
sresp_UpdatedAt : Time
}.

Section usecase.
Context (ext : Externals).

(** The test of the selection loops: the provider of the binding is found
    and both the provider and the binding are active. *)
Definition both_active (d : DB) (up : UserProvider) : bool :=
  match Repository.GetByID (up_ProviderID up) d with
  | (_, Some _) => false
  | (providerDetails, None) => p_Status providerDetails && up_Status up
  end.

(** The test of the loop that collects [matchingProviders]. *)
Definition matches_type (d : DB) (type : string) (up : UserProvider) : bool :=
  match Repository.GetByID (up_ProviderID up) d with
  | (_, Some _) => false
  | (providerDetails, None) =>
      String.eqb (p_Type providerDetails) type
      && p_Status providerDetails && up_Status up
  end.

(** [for ... { if providerDetails.Status && up.Status { selectedProvider =
    up; break } }]: the zero value stays when no binding passes. *)
Definition highest_priority (d : DB) (userProviders : list UserProvider)
  : UserProvider :=
  match List.find (both_active d) userProviders with
  | Some up => up
  | None => zeroUserProvider
  end.

(** The choice of [selectedProvider]: the first binding of the requested
    type when a type is requested and one matches, otherwise the first
    binding that passes [both_active]. *)
Definition select_provider (request : MessageRequest)
    (userProviders : list UserProvider) : M UserProvider :=
  d ← readDB (fun d => d);
  if negb (String.eqb (req_Type request) "") then
    let matchingProviders :=
      List.filter (matches_type d (req_Type request)) userProviders in
    match matchingProviders with
    | up :: _ => mret up
    | [] =>
        let selectedProvider := highest_priority d userProviders in
        log Warn "No matching providers found for requested type, using highest priority provider" ;;
        mret selectedProvider
    end
  else mret (highest_priority d userProviders).

Definition new_transaction (now : Time) (request : MessageRequest)
    (selectedProvider : UserProvider) : MessageTransaction :=
  {| ID := 0;
     UserID := req_UserID request;
     ProviderID := up_ProviderID selectedProvider;
     Recipients := json_Marshal_strings ext (req_Recipients request);
     Message := req_Message request;
     RequestData := ""; ResponseData := "";
     Status := "pending";
     ErrorMessage := "";
     RetryCount := 0;
     NextRetryAt := None;        (* the zero time; the mapper drops the field *)
     Processing := false;
     ProcessedAt := None;
     CreatedAt := now;
     UpdatedAt := now |}.

Definition SendMessage (now : Time) (request : MessageRequest)
  : M (option MessageResponse * option error) :=
  '(user, err) ← readDB (UserRepository.GetByID (req_UserID request));
  match err with
  | Some e => log Error "Error getting user" ;; mret (None, Some e)
  | None =>
  '(messageCount, err) ←
    readDB (MessageTransactionRepository.CountUserMessagesForToday now
              (req_UserID request));
  match err with
  | Some e =>
      log Error "Error counting user messages for today" ;; mret (None, Some e)
  | None =>
  if messageCount >=? MessageRateLimit user then
    log Warn "User has exceeded daily message rate limit" ;;
    mret (None, Some (errors_New "daily message rate limit exceeded"))
  else
  '(userProviders, err) ←
    readDB (UserProviderRepository.GetUserProvidersByPriority (req_UserID request));
  match err with
  | Some e => log Error "Error getting user providers" ;; mret (None, Some e)
  | None =>
  if (length userProviders =? 0)%nat then
    log Error "No providers configured for user" ;;
    (* [return nil, err], with the [err] tested just above *)
    mret (None, err)
  else
  selectedProvider ← select_provider request userProviders;
  '(_, err) ← readDB (Repository.GetByID (up_ProviderID selectedProvider));
  match err with
  | Some e => log Error "Error getting provider details" ;; mret (None, Some e)
  | None =>
  '(messageTransaction, err) ←
    liftDB (MessageTransactionRepository.Create
              (new_transaction now request selectedProvider));
  match err with
  | Some e => log Error "Error creating message transaction" ;; mret (None, Some e)
  | None =>
  messaging.EnqueueMessage messageTransaction ;;
  let response :=
    {| resp_ID := ID messageTransaction;
       resp_Status := "pending";
       resp_Message := "Message queued for processing" |} in
  log Info "Message queued for processing" ;;
  mret (Some response, None)
  end end end end end.

(** The transaction the retry planner creates for a failed one. *)
Definition retry_transaction (now : Time) (failedMsg : MessageTransaction)
    (nextProvider : UserProvider) : MessageTransaction :=
  {| ID := 0;
     UserID := UserID failedMsg;
     ProviderID := up_ProviderID nextProvider;
     Recipients := Recipients failedMsg;
     Message := Message failedMsg;
     RequestData := ""; ResponseData := "";
     Status := "pending";
     ErrorMessage := "";
     RetryCount := wrap_int (RetryCount failedMsg + 1);
     NextRetryAt := None;
     Processing := false;
     ProcessedAt := None;
     CreatedAt := now;
     UpdatedAt := now |}.

(** [for i, userProvider := range *userProviders { ... }] of
    [RetryFailedMessages], from index [i] on: [rest] is what is left of
    [userProviders] to visit.  The result is [nextProviderFound].  Each
    [continue] goes on with the next index, [break] leaves the loop. *)
Fixpoint next_provider_loop (now : Time) (failedMsg : MessageTransaction)
    (userProviders : list UserProvider) (i : nat) (rest : list UserProvider)
    (nextProviderFound : bool) : M bool :=
  match rest with
  | [] => mret nextProviderFound
  | userProvider :: rest' =>
      if up_ProviderID userProvider =? ProviderID failedMsg then
        if (i + 1 <? length userProviders)%nat then
          match userProviders !! (i + 1)%nat with
          | None => mret true (* not reached: the index is in range *)
          | Some nextProvider =>
              '(providerDetails, err) ←
                readDB (Repository.GetByID (up_ProviderID nextProvider));
              match err with
              | Some _ =>
                  log Error "Error getting provider details for retry" ;;
                  next_provider_loop now failedMsg userProviders (S i) rest' true
              | None =>
                  if negb (p_Status providerDetails) || negb (up_Status nextProvider)
                  then
                    log Warn "Next provider is inactive, skipping" ;;
                    next_provider_loop now failedMsg userProviders (S i) rest' true
                  else
                    '(newTransaction, err) ←
                      liftDB (MessageTransactionRepository.Create
                                (retry_transaction now failedMsg nextProvider));
                    match err with
                    | Some _ =>
                        log Error "Error creating message transaction for retry" ;;
                        next_provider_loop now failedMsg userProviders (S i) rest' true
                    | None =>
                        messaging.EnqueueMessage newTransaction ;;
                        log Info "Retry message queued for processing" ;;
                        mret true
                    end
              end
          end
        else next_provider_loop now failedMsg userProviders (S i) rest' nextProviderFound
      else next_provider_loop now failedMsg userProviders (S i) rest' nextProviderFound
  end.

(** The body of the loop over the failed messages. *)
Definition retry (now : Time) (failedMsg : MessageTransaction) : M unit :=
  '(userProviders, err) ←
    readDB (UserProviderRepository.GetUserProvidersByPriority (UserID failedMsg));
  match err with
  | Some _ => log Error "Error getting user providers for retry"
  | None =>
      if (length userProviders =? 0)%nat then
        log Error "No providers configured for user"
      else
        nextProviderFound ←
          next_provider_loop now failedMsg userProviders 0 userProviders false;
        if negb nextProviderFound
        then log Warn "No next provider found for retry"
        else mret tt
  end.

Definition RetryFailedMessages (now : Time) : M (option error) :=
  '(failedMessages, err) ←
    readDB (MessageTransactionRepository.GetFailedMessagesForRetry now);
  match err with
  | Some e => log Error "Error getting failed messages for retry" ;; mret (Some e)
  | None =>
      if (length failedMessages =? 0)%nat then
        log Debug "No failed messages to retry" ;; mret None
      else
        log Info "Found failed messages to retry" ;;
        for_range (retry now) failedMessages ;;
        mret None
  end.

Definition GetMessageStatus (request : MessageStatusRequest)
  : M (option MessageStatusResponse * option error) :=
  '(messageTransaction, err) ←
    readDB (MessageTransactionRepository.GetByID (sreq_ID request));
  match err with
  | Some e => log Error "Error getting message status" ;; mret (None, Some e)
  | None =>
      let response :=
        {| sresp_ID := ID messageTransaction;
           sresp_Status := Status messageTransaction;
           sresp_Message := Message messageTransaction;
           sresp_Recipients := Recipients messageTransaction;
           sresp_ErrorMessage := ErrorMessage messageTransaction;
           sresp_RetryCount := RetryCount messageTransaction;
           sresp_CreatedAt := CreatedAt messageTransaction;
           sresp_UpdatedAt := UpdatedAt messageTransaction |} in
      log Info "Retrieved message status" ;;
      mret (Some response, None)
  end.

End usecase.
End message.

(** ** The controller ([infrastructure/rest/controllers/send]) *)

Module send.

(** The request and response types of the controller, with their JSON
    names. *)
Record MessageRequest := {
dto_Type : string;               (* json:"type" *)
dto_Message : string;            (* json:"message" *)
dto_Recipients : list string;    (* json:"recipients" *)
dto_UserID : Z                   (* json:"user_id" *)
}.

Record MessageResponse := {
dto_ID : Z;                      (* json:"id" *)
dto_Status : string;             (* json:"status" *)
dto_Timestamp : string;          (* json:"timestamp,omitempty" *)
dto_ResponseMessage : string     (* json:"message,omitempty" *)
}.

Record MessageStatusRequest := {
dto_StatusID : Z                 (* uri:"id" *)
}.

Record MessageStatusResponse := {
dto_s_ID : Z;                    (* json:"id" *)
dto_s_Status : string;           (* json:"status" *)
dto_s_Message : string;          (* json:"message" *)
dto_s_Recipients : string;       (* json:"recipients" *)
dto_s_ErrorMessage : string;     (* json:"error_message,omitempty" *)
dto_s_RetryCount : Z;            (* json:"retry_count" *)
dto_s_CreatedAt : string;        (* json:"created_at" *)
dto_s_UpdatedAt : string         (* json:"updated_at" *)
}.

(** What a handler does to its context: it writes a JSON object with a
    status code, or it panics on a nil pointer before writing anything. *)
Inductive Reply :=
| JSON (code : Z) (obj : gmap string Value)
| nil_pointer_dereference.

Definition StatusOK : Z := 200.
Definition StatusAccepted : Z := 202.
Definition StatusInternalServerError : Z := 500.

(** [omitempty] on a string field. *)
Definition omitempty (key value : string) (obj : gmap string Value)
  : gmap string Value :=
  if String.eqb value "" then obj else <[key := VString value]> obj.

(** encoding/json on the two response types. *)
Definition json_MessageResponse (r : MessageResponse) : gmap string Value :=
  omitempty "message" (dto_ResponseMessage r)
    (omitempty "timestamp" (dto_Timestamp r)
       (<["status" := VString (dto_Status r)]>
          (<["id" := VInt (dto_ID r)]> ∅))).

Definition json_MessageStatusResponse (r : MessageStatusResponse)
  : gmap string Value :=
  <["updated_at" := VString (dto_s_UpdatedAt r)]>
    (<["created_at" := VString (dto_s_CreatedAt r)]>
       (<["retry_count" := VInt (dto_s_RetryCount r)]>
          (omitempty "error_message" (dto_s_ErrorMessage r)
             (<["recipients" := VString (dto_s_Recipients r)]>
                (<["message" := VString (dto_s_Message r)]>
                   (<["status" := VString (dto_s_Status r)]>
                      (<["id" := VInt (dto_s_ID r)]> ∅))))))).

Section controller.
Context (ext : Externals).
(** [t.Format(time.RFC3339)]. *)
Context (Format_RFC3339 : Time -> string).

(** [Message], from the point where the request has been bound. *)
Definition Message (now : Time) (request : MessageRequest) : M Reply :=
  let useCaseRequest :=
    {| message.req_Type := dto_Type request;
       message.req_Message := dto_Message request;
       message.req_Recipients := dto_Recipients request;
       message.req_UserID := dto_UserID request |} in
  '(useCaseResponse, err) ← message.SendMessage ext now useCaseRequest;
  match err with
  | Some _ =>
      log Error "Error sending message" ;;
      mret (JSON StatusInternalServerError
              (<["error" := VString "Error sending message"]> ∅))
  | None =>
      match useCaseResponse with
      | None =>
          (* [useCaseResponse.ID] with [useCaseResponse == nil] *)
          mret nil_pointer_dereference
      | Some useCaseResponse =>
          let response :=
            {| dto_ID := message.resp_ID useCaseResponse;
               dto_Status := message.resp_Status useCaseResponse;
               dto_Timestamp := "";
               dto_ResponseMessage := message.resp_Message useCaseResponse |} in
          log Info "Message queued for processing" ;;
          mret (JSON StatusAccepted (json_MessageResponse response))
      end
  end.

(** [GetMessageStatus], from the point where the request has been
    bound. *)
Definition GetMessageStatus (request : MessageStatusRequest) : M Reply :=
  let useCaseRequest := {| message.sreq_ID := dto_StatusID request |} in
  '(useCaseResponse, err) ← message.GetMessageStatus useCaseRequest;
  match err with
  | Some _ =>
      log Error "Error getting message status" ;;
      mret (JSON StatusInternalServerError
              (<["error" := VString "Error getting message status"]> ∅))
  | None =>
      match useCaseResponse with
      | None => mret nil_pointer_dereference
      | Some useCaseResponse =>
          let response :=
            {| dto_s_ID := message.sresp_ID useCaseResponse;
               dto_s_Status := message.sresp_Status useCaseResponse;
               dto_s_Message := message.sresp_Message useCaseResponse;
               dto_s_Recipients := message.sresp_Recipients useCaseResponse;
               dto_s_ErrorMessage := message.sresp_ErrorMessage useCaseResponse;
               dto_s_RetryCount := message.sresp_RetryCount useCaseResponse;
               dto_s_CreatedAt := Format_RFC3339 (message.sresp_CreatedAt useCaseResponse);
               dto_s_UpdatedAt := Format_RFC3339 (message.sresp_UpdatedAt useCaseResponse) |} in
          log Info "Retrieved message status" ;;
          mret (JSON StatusOK (json_MessageStatusResponse response))
      end
  end.

(** [RetryFailedMessages] of the controller. *)
Definition RetryFailedMessages (now : Time) : M unit :=
  log Info "Retrying failed messages" ;;
  err ← message.RetryFailedMessages now;
  match err with
  | Some _ => log Error "Error retrying failed messages"
  | None => mret tt
  end.

End controller.
End send.

(** ** Vocabulary of the properties *)

Import MessageTransactionRepository.
Import message.

(** The row an INSERT of a keyless transaction stores. *)
Definition inserted (mt : MessageTransaction) (d : DB) : MessageTransaction :=
  set_ID (next_id (map ID (message_transactions d)))
    (messageTransactionFromDomainMapper mt).

(** The binding [select_provider] returns, as a function of the store. *)
Definition selected_provider (d : DB) (request : MessageRequest)
    (userProviders : list UserProvider) : UserProvider :=
  if negb (String.eqb (req_Type request) "") then
    match List.filter (matches_type d (req_Type request)) userProviders with
    | up :: _ => up
    | [] => highest_priority d userProviders
    end
  else highest_priority d userProviders.

(** [err == nil]. *)
Definition is_nil {A : Type} (o : option A) : bool :=
  match o with None => true | _ => false end.

(** The submission passes every test of [SendMessage]: the user exists, is
    under the daily limit, has bindings, and the provider of the selected
    binding exists. *)
Definition accepts (now : Time) (request : MessageRequest) (d : DB) : bool :=
  let uid := req_UserID request in
  let ups := (UserProviderRepository.GetUserProvidersByPriority uid d).1 in
  is_nil (UserRepository.GetByID uid d).2
  && ((CountUserMessagesForToday now uid d).1 <? MessageRateLimit (UserRepository.GetByID uid d).1)
  && negb (length ups =? 0)%nat
  && is_nil (Repository.GetByID (up_ProviderID (selected_provider d request ups)) d).2.

(** The row an accepted submission stores. *)
Definition submitted (ext : Externals) (now : Time) (request : MessageRequest)
    (d : DB) : MessageTransaction :=
  inserted
    (new_transaction ext now request
       (selected_provider d request
          (UserProviderRepository.GetUserProvidersByPriority (req_UserID request) d).1))
    d.

(** The rows of the active table that count against the daily limit of
    user [uid] at instant [now]. *)
Definition counts_today (now : Time) (uid : Z) (r : MessageTransaction) : bool :=
  (UserID r =? uid)
  && (startOfDay now <=? CreatedAt r)
  && (CreatedAt r <? Add (startOfDay now) (24 * Hour)).

(** Some binding of the user can carry a message. *)
Definition usable (uid : Z) (d : DB) : bool :=
  existsb (both_active d) (UserProviderRepository.GetUserProvidersByPriority uid d).1.

(** The error of a refused submission. *)
Definition rateLimited : error := errors_New "daily message rate limit exceeded".

(** The binding the retry planner moves a failed message to: the binding
    that follows the first binding of provider [pid] whose successor passes
    [both_active]. *)
Fixpoint next_in_chain (d : DB) (pid : Z) (ups : list UserProvider)
  : option UserProvider :=
  match ups with
  | up :: rest =>
      match rest with
      | nb :: _ =>
          if (up_ProviderID up =? pid) && both_active d nb then Some nb
          else next_in_chain d pid rest
      | [] => None
      end
  | [] => None
  end.


(** The queue after a non-blocking send of [msg]. *)
Definition enqueued (msg : MessageTransaction) (q : list MessageTransaction)
  : list MessageTransaction :=
  if (length q <? messageQueueCap)%nat then q ++ [msg] else q.

(** The effect of the planner on the store and the queue for one failed
    message, according to [next_in_chain]. *)
Definition retry_effect (now : Time) (failedMsg : MessageTransaction)
    (ups : list UserProvider) (w w' : World) : Prop :=
  match next_in_chain (db w) (ProviderID failedMsg) ups with
  | Some nb =>
      let mt := inserted (retry_transaction now failedMsg nb) (db w) in
      db w' = set_message_transactions (message_transactions (db w) ++ [mt]) (db w)
      /\ messageQueue w' = enqueued (toDomainMapper mt) (messageQueue w)
  | None => db w' = db w /\ messageQueue w' = messageQueue w
  end.

(** What identifies a successor apart from its key and its timestamps. *)
Definition content (r : MessageTransaction) : Z * Z * string * string * string * Z :=
  (UserID r, ProviderID r, Recipients r, Message r, Status r, RetryCount r).

(** The successor the planner owes to a failed message, given the registry
    of [d]. *)
Definition owed (d : DB) (f : MessageTransaction)
  : option (Z * Z * string * string * string * Z) :=
  match next_in_chain d (ProviderID f)
          (UserProviderRepository.GetUserProvidersByPriority (UserID f) d).1 with
  | Some nb =>
      Some (UserID f, up_ProviderID nb, Recipients f, Message f, "pending",
            wrap_int (RetryCount f + 1))
  | None => None
  end.

(** The successors owed to a list of failed messages, in order. *)
Fixpoint planned (d : DB) (failedMessages : list MessageTransaction)
  : list (Z * Z * string * string * string * Z) :=
  match failedMessages with
  | [] => []
  | f :: l =>
      match owed d f with
      | Some c => c :: planned d l
      | None => planned d l
      end
  end.

(** The row after a worker or the scanner has settled it: status and error
    message are written, the reservation is released, the update time is
    refreshed; request data, response data and retry time are written when
    given. *)
Definition settle (now : Time) (status errorMessage : string)
    (requestData responseData : option string) (nextRetryAt : option Time)
    (r : MessageTransaction) : MessageTransaction :=
  {| ID := ID r; UserID := UserID r; ProviderID := ProviderID r;
     Recipients := Recipients r; Message := Message r;
     RequestData := default (RequestData r) requestData;
     ResponseData := default (ResponseData r) responseData;
     Status := status;
     ErrorMessage := errorMessage;
     RetryCount := RetryCount r;
     NextRetryAt := match nextRetryAt with Some t => Some t | None => NextRetryAt r end;
     Processing := false;
     ProcessedAt := ProcessedAt r;
     CreatedAt := CreatedAt r;
     UpdatedAt := now |}.

(** [UPDATE ... WHERE id = ?] with the row function [upd]. *)
Definition update_row (id : Z) (upd : MessageTransaction -> MessageTransaction)
    (d : DB) : DB :=
  set_message_transactions
    (map (fun r => if ID r =? id then upd r else r) (message_transactions d)) d.

(** The history row of an archived transaction. *)
Definition archived (now : Time) (d : DB) (r : MessageTransaction)
  : MessageTransactionHistory :=
  {| h_ID := next_id (map h_ID (message_transaction_history d));
     h_MessageID := ID r; h_UserID := UserID r; h_ProviderID := ProviderID r;
     h_Recipients := Recipients r; h_Message := Message r;
     h_RequestData := RequestData r; h_ResponseData := ResponseData r;
     h_Status := Status r; h_ErrorMessage := ErrorMessage r;
     h_RetryCount := RetryCount r; h_ProcessedAt := UpdatedAt r;
     h_CreatedAt := now; h_UpdatedAt := now |}.

(** The store after [MoveToHistory]. *)
Definition archive (now : Time) (id : Z) (d : DB) : DB :=
  match List.find (fun r => ID r =? id) (message_transactions d) with
  | Some r =>
      set_message_transaction_history
        (message_transaction_history d ++ [archived now d r]) d
  | None => d
  end.

(** The history rows of transaction [id]. *)
Definition history_of (id : Z) (d : DB) : list MessageTransactionHistory :=
  (MessageTransactionHistoryRepository.GetByMessageID id d).1.

(** The alternative Pass B picks for a message: the first binding of the
    user, in priority order, of another provider. *)
Definition alternative (d : DB) (msg : MessageTransaction) : option UserProvider :=
  List.find (fun up => negb (up_ProviderID up =? ProviderID msg))
    (UserProviderRepository.GetUserProvidersByPriority (UserID msg) d).1.

(** The error message Pass B writes to the row it falls back from. *)
Definition fallback_errorMessage : string :=
  "Message not delivered within 5 minutes, fallback to alternative provider triggered".

(** The store after Pass B has handled [msg] with alternative [np]. *)
Definition fallen_back (now : Time) (msg : MessageTransaction) (np : UserProvider)
    (d : DB) : DB :=
  let mt := inserted (messaging.fallback_transaction now msg np) d in
  archive now (ID msg)
    (update_row (ID msg)
       (settle now "fallback_triggered" fallback_errorMessage None None None)
       (set_message_transactions (message_transactions d ++ [mt]) d)).

(** What Pass B does to the store for one selected message. *)
Definition pass_B_step (now : Time) (d : DB) (msg : MessageTransaction) : DB :=
  match alternative d msg with
  | Some np => fallen_back now msg np d
  | None => d
  end.

(** The URL a binding is notified at, if any: the configuration is not
    empty, decodes, enables the webhook and names a URL. *)
Definition webhook_target (ext : Externals) (up : UserProvider) : option string :=
  if String.eqb (up_Config up) "" then None
  else match json_Unmarshal_WebhookConfig ext (up_Config up) with
       | Some config =>
           if Enabled config && negb (String.eqb (WebhookURL config) "")
           then Some (WebhookURL config) else None
       | None => None
       end.

(** The URLs notified for a list of bindings, in order. *)
Fixpoint webhook_targets (ext : Externals) (ups : list UserProvider) : list string :=
  match ups with
  | [] => []
  | up :: ups' =>
      match webhook_target ext up with
      | Some url => url :: webhook_targets ext ups'
      | None => webhook_targets ext ups'
      end
  end.

(** The POSTs a notification starts for user [userID]. *)
Definition notifications (ext : Externals) (now : Time) (userID messageID : Z)
    (status errorMessage : string) (d : DB) : list HTTPRequest :=
  map (fun url =>
         messaging.sendWebhookRequest url
           (messaging.webhook_payload now userID messageID status errorMessage))
    (webhook_targets ext (UserProviderRepository.GetUserProviders userID d).1).

(** [time.Now().Add(3 * time.Minute)]. *)
Definition retryAt (now : Time) : Time := Add now (3 * Minute).

(** The four ways a worker's turn on a message ends. *)
Inductive Outcome :=
| NoProvider (e : error)                             (* the provider lookup failed *)
| Inactive                                           (* the provider is inactive *)
| SendFailed (requestData : string) (e : error)      (* the dispatch set [sendErr] *)
| Sent (requestData responseData : string).          (* [sendErr] is nil *)

(** The outcome of a worker's turn on [msg], read off the store. *)
Definition outcome (ext : Externals) (d : DB) (msg : MessageTransaction) : Outcome :=
  match Repository.GetByID (ProviderID msg) d with
  | (_, Some e) => NoProvider e
  | (providerDetails, None) =>
      if negb (p_Status providerDetails) then Inactive
      else match messaging.dispatch ext providerDetails msg with
           | (requestData, _, Some e) => SendFailed requestData e
           | (requestData, responseData, None) => Sent requestData responseData
           end
  end.

(** What the worker writes to the row of the message. *)
Definition settled (ext : Externals) (now : Time) (o : Outcome)
  : MessageTransaction -> MessageTransaction :=
  match o with
  | NoProvider e => settle now "failed" (Error_ ext e) None None (Some (retryAt now))
  | Inactive => settle now "failed" "provider is inactive" None None (Some (retryAt now))
  | SendFailed requestData e =>
      settle now "failed" (Error_ ext e) (Some requestData) (Some "") (Some (retryAt now))
  | Sent requestData responseData =>
      settle now "success" "" (Some requestData) (Some responseData) None
  end.

(** The POSTs the worker starts. *)
Definition notified (ext : Externals) (now : Time) (o : Outcome)
    (msg : MessageTransaction) (d : DB) : list HTTPRequest :=
  match o with
  | NoProvider _ | Inactive => []
  | SendFailed _ e => notifications ext now (UserID msg) (ID msg) "failed" (Error_ ext e) d
  | Sent _ _ => notifications ext now (UserID msg) (ID msg) "success" "" d
  end.

(** A row Pass A may select: pending and not reserved. *)
Definition pending_unreserved (r : MessageTransaction) : bool :=
  String.eqb (Status r) "pending" && Bool.eqb (Processing r) false.

(** The row after the locking UPDATE of Pass A at instant [now]. *)
Definition reserve (now : Time) (r : MessageTransaction) : MessageTransaction :=
  {| ID := ID r; UserID := UserID r; ProviderID := ProviderID r;
     Recipients := Recipients r; Message := Message r;
     RequestData := RequestData r; ResponseData := ResponseData r;
     Status := Status r; ErrorMessage := ErrorMessage r;
     RetryCount := RetryCount r; NextRetryAt := NextRetryAt r;
     Processing := true;
     ProcessedAt := Some now;
     CreatedAt := CreatedAt r;
     UpdatedAt := now |}.

(** The primary keys of the active table and of the history table. *)
Definition keys (d : DB) : list Z := map ID (message_transactions d).
Definition history_keys (d : DB) : list Z := map h_ID (message_transaction_history d).

(** What a transaction keeps from its creation on, whatever is written to
    its row later. *)
Definition identity (r : MessageTransaction)
  : Z * Z * Z * string * string * Z * Time :=
  (ID r, UserID r, ProviderID r, Recipients r, Message r, RetryCount r, CreatedAt r).

(** The statuses a worker or Pass B leaves a row in. *)
Definition terminal (status : string) : Prop :=
  status = "success" \/ status = "failed" \/ status = "fallback_triggered".

(** The response of the Signal client a worker keeps for a message. *)
Definition kept_response (ext : Externals) (msg : MessageTransaction) : string :=
  match SendV2 ext (SIGNAL_FROM_NUMBER ext) (Message msg)
          (json_Unmarshal_strings ext (Recipients msg))
          (if String.eqb (DEFAULT_SIGNAL_TEXT_MODE ext) "styled"
           then Some "styled" else None) with
  | (Some data, None) => data
  | _ => ""
  end.

(** A list of bindings in ascending order of priority. *)
Fixpoint ascending (l : list UserProvider) : Prop :=
  match l with
  | [] => True
  | x :: l' => (forall y, In y l' -> up_Priority x <= up_Priority y) /\ ascending l'
  end.

(** The operations on the world: the calls of the use case, the two passes
    of the watcher and the turn of a worker, each at the instant it runs. *)
Inductive Op :=
| Submit (now : Time) (request : MessageRequest)   (* [SendMessage] *)
| Query (request : MessageStatusRequest)           (* [GetMessageStatus] *)
| Retry (now : Time)                               (* [RetryFailedMessages] *)
| PassA (now : Time)                               (* [checkPendingMessages] *)
| PassB (now : Time)                               (* [checkUndeliveredMessages] *)
| Turn (now : Time).                               (* one turn of a [worker] *)

Definition step (ext : Externals) (w : World) (o : Op) : World :=
  match o with
  | Submit now request => exec (SendMessage ext now request) w
  | Query request => exec (GetMessageStatus request) w
  | Retry now => exec (RetryFailedMessages now) w
  | PassA now => exec (messaging.checkPendingMessages now) w
  | PassB now => exec (messaging.checkUndeliveredMessages now) w
  | Turn now => exec (messaging.worker ext now) w
  end.

(** The world after a sequence of operations, one after the other. *)
Definition trace (ext : Externals) (w : World) (ops : list Op) : World :=
  foldl (step ext) w ops.

(** The elementary changes of store and queue the operations are made of:
    a row is created and offered to the queue; a worker takes a message
    from the queue, settles its row and archives it; Pass B marks a sent
    row as fallen back and archives it; Pass A reserves rows and offers
    them to the queue. *)
Inductive change (w w' : World) : Prop :=
| change_nothing :
    db w' = db w -> messageQueue w' = messageQueue w -> change w w'
| change_create (r : MessageTransaction) :
    ~ In (ID r) (keys (db w)) ->
    Status r = "pending" -> Processing r = false ->
    db w' = set_message_transactions (message_transactions (db w) ++ [r]) (db w) ->
    messageQueue w' = enqueued (toDomainMapper r) (messageQueue w) ->
    change w w'
| change_process (now : Time) (msg : MessageTransaction)
    (status errorMessage : string) (requestData responseData : option string)
    (nextRetryAt : option Time) :
    messageQueue w = msg :: messageQueue w' ->
    status = "success" \/ (status = "failed" /\ nextRetryAt <> None) ->
    db w' = archive now (ID msg)
              (update_row (ID msg)
                 (settle now status errorMessage requestData responseData nextRetryAt)
                 (db w)) ->
    change w w'
| change_fall_back (now : Time) (id : Z) :
    (exists r, In r (message_transactions (db w)) /\ ID r = id /\ Status r = "success") ->
    db w' = archive now id
              (update_row id
                 (settle now "fallback_triggered" fallback_errorMessage None None None)
                 (db w)) ->
    messageQueue w' = messageQueue w ->
    change w w'
| change_reserve (now : Time) :
    db w' = (GetPendingMessages now (db w)).1 ->
    messageQueue w' =
      messageQueue w
      ++ take (messageQueueCap - length (messageQueue w))
           (GetPendingMessages now (db w)).2.1 ->
    change w w'.

(** A sequence of elementary changes. *)
Inductive changes : World -> World -> Prop :=
| changes_refl w : changes w w
| changes_step w1 w2 w3 : changes w1 w2 -> change w2 w3 -> changes w1 w3.

(** ** Fixtures *)

Module fixtures.

(** The double quote character, for JSON text. *)
Definition dq : string :=
  String (Ascii.Ascii false true false false false true false false) "".

(** [{"webhook_url":"https://hooks.example/a","webhook_enabled":true}] *)
Definition config_on : string :=
  "{" +:+ dq +:+ "webhook_url" +:+ dq +:+ ":" +:+ dq
      +:+ "https://hooks.example/a" +:+ dq +:+ ","
      +:+ dq +:+ "webhook_enabled" +:+ dq +:+ ":true}".

(** [{"webhook_url":"https://hooks.example/b","webhook_enabled":false}] *)
Definition config_off : string :=
  "{" +:+ dq +:+ "webhook_url" +:+ dq +:+ ":" +:+ dq
      +:+ "https://hooks.example/b" +:+ dq +:+ ","
      +:+ dq +:+ "webhook_enabled" +:+ dq +:+ ":false}".

(** The externals of the examples.  The decoder of webhook configurations
    answers as encoding/json does on the two configurations above and on
    text that is not JSON; the Signal client accepts every message. *)
Definition ext : Externals :=
  {| json_Marshal_strings := fun l => String.concat "," l;
     json_Unmarshal_strings := fun s => [s];
     json_Unmarshal_WebhookConfig := fun s =>
       if String.eqb s config_on
       then Some {| WebhookURL := "https://hooks.example/a"; Enabled := true |}
       else if String.eqb s config_off
       then Some {| WebhookURL := "https://hooks.example/b"; Enabled := false |}
       else None;
     json_Marshal_signalRequest := fun n m r => m;
     SIGNAL_FROM_NUMBER := "+15550000";
     DEFAULT_SIGNAL_TEXT_MODE := "normal";
     SendV2 := fun _ _ _ _ => (Some "{}", None);
     AppError_Error := fun t =>
       match t with
       | NotFound => "not found"
       | UnknownError => "unknown error"
       | ResourceAlreadyExists => "resource already exists"
       end |}.

Definition mk_provider (id : Z) (type : string) (status : bool) : Provider :=
  {| p_ID := id; p_Name := type; p_Type := type; p_Description := "";
     p_Config := ""; p_Status := status;
     p_CreatedAt := 0; p_UpdatedAt := 0 |}.

Definition mk_binding (id userID providerID priority : Z) (config : string)
    (status : bool) : UserProvider :=
  {| up_ID := id; up_UserID := userID; up_ProviderID := providerID;
     up_Priority := priority; up_Config := config; up_Status := status;
     up_CreatedAt := 0; up_UpdatedAt := 0 |}.

Definition mk_transaction (id userID providerID : Z) (status : string)
    (retryCount : Z) (nextRetryAt : option Time) (updatedAt : Time)
  : MessageTransaction :=
  {| ID := id; UserID := userID; ProviderID := providerID;
     Recipients := "+15550100"; Message := "hi";
     RequestData := ""; ResponseData := "";
     Status := status; ErrorMessage := ""; RetryCount := retryCount;
     NextRetryAt := nextRetryAt; Processing := false; ProcessedAt := None;
     CreatedAt := updatedAt; UpdatedAt := updatedAt |}.

(** User 7 with a daily limit of 3, Signal at priority 1 and e-mail at
    priority 2. *)
Definition db0 : DB :=
  {| users := [ {| u_ID := 7; MessageRateLimit := 3 |} ];
     providers := [ mk_provider 1 "signal" true; mk_provider 2 "email" true ];
     user_providers := [ mk_binding 1 7 1 1 config_on true;
                         mk_binding 2 7 2 2 "" true ];
     message_transactions := [];
     message_transaction_history := [] |}.

Definition world (d : DB) : World :=
  {| db := d; messageQueue := []; logs := []; webhook_posts := [] |}.

Definition request : message.MessageRequest :=
  {| message.req_Type := ""; message.req_Message := "hi";
     message.req_Recipients := ["+15550100"]; message.req_UserID := 7 |}.

(** Noon of 2 January 1970, UTC. *)
Definition noon : Time := 36 * Hour.

Definition with_transactions (rows : list MessageTransaction) (d : DB) : DB :=
  set_message_transactions rows d.

(** A failed transaction of user 7 on Signal, due for retry at [noon]. *)
Definition failed_row : MessageTransaction :=
  mk_transaction 1 7 1 "failed" 0 (Some (noon - Minute)) (noon - 4 * Minute).

Definition db_failed : DB := with_transactions [failed_row] db0.

(** A transaction of user 7 sent through Signal ten minutes before [noon],
    after five earlier attempts. *)
Definition stale_row : MessageTransaction :=
  mk_transaction 1 7 1 "success" 5 None (noon - 10 * Minute).

Definition db_stale : DB := with_transactions [stale_row] db0.

(** User 7 without any binding. *)
Definition db_no_bindings : DB :=
  {| users := users db0; providers := providers db0; user_providers := [];
     message_transactions := []; message_transaction_history := [] |}.

(** A reserved transaction of user 7 for provider [providerID]. *)
Definition reserved_row (providerID : Z) : MessageTransaction :=
  {| ID := 1; UserID := 7; ProviderID := providerID;
     Recipients := "+15550100"; Message := "hi";
     RequestData := ""; ResponseData := "";
     Status := "pending"; ErrorMessage := ""; RetryCount := 0;
     NextRetryAt := None; Processing := true;
     ProcessedAt := Some (noon - Minute);
     CreatedAt := noon - Minute; UpdatedAt := noon - Minute |}.

(** Signal and e-mail are active, provider 3 is switched off, provider 9
    does not exist. *)
Definition db_providers : DB :=
  {| users := users db0;
     providers := [ mk_provider 1 "signal" true; mk_provider 2 "email" true;
                    mk_provider 3 "sms" false ];
     user_providers := user_providers db0;
     message_transactions := [];
     message_transaction_history := [] |}.

(** The world in which the reserved transaction for [providerID] waits in
    the queue. *)
Definition queued (providerID : Z) : World :=
  {| db := with_transactions [reserved_row providerID] db_providers;
     messageQueue := [MessageTransactionRepository.toDomainMapper (reserved_row providerID)];
     logs := []; webhook_posts := [] |}.

(** User 7 with an active binding to Signal that has no webhook, and a
    binding to e-mail that is switched off and has the webhook enabled. *)
Definition db_inactive_hook : DB :=
  {| users := users db0;
     providers := providers db0;
     user_providers := [ mk_binding 1 7 1 1 "" true;
                         mk_binding 2 7 2 2 config_on false ];
     message_transactions := [reserved_row 1];
     message_transaction_history := [] |}.

Definition queued_inactive_hook : World :=
  {| db := db_inactive_hook;
     messageQueue := [MessageTransactionRepository.toDomainMapper (reserved_row 1)];
     logs := []; webhook_posts := [] |}.

(** A world whose queue is full. *)
Definition full_world : World :=
  {| db := db0;
     messageQueue := repeat zeroMessageTransaction messageQueueCap;
     logs := []; webhook_posts := [] |}.

(** Externals as [ext], with a Signal client that refuses every message. *)
Definition ext_down : Externals :=
  {| json_Marshal_strings := json_Marshal_strings ext;
     json_Unmarshal_strings := json_Unmarshal_strings ext;
     json_Unmarshal_WebhookConfig := json_Unmarshal_WebhookConfig ext;
     json_Marshal_signalRequest := json_Marshal_signalRequest ext;
     SIGNAL_FROM_NUMBER := SIGNAL_FROM_NUMBER ext;
     DEFAULT_SIGNAL_TEXT_MODE := DEFAULT_SIGNAL_TEXT_MODE ext;
     SendV2 := fun _ _ _ _ => (None, Some (errors_New "connection refused"));
     AppError_Error := AppError_Error ext |}.

(** User 7 with 1001 pending transactions, keys 1 to 1001. *)
Definition db_backlog : DB :=
  with_transactions
    (map (fun i => mk_transaction (Z.of_nat i) 7 1 "pending" 0 None noon) (seq 1 1001))
    db0.

(** A day in the life of the service. *)
Definition day : list Op :=
  [ Submit noon request;
    Turn (noon + Second);
    PassA (noon + Minute);
    Submit (noon + 2 * Minute)
      {| message.req_Type := "email"; message.req_Message := "hello";
         message.req_Recipients := ["a@example.org"]; message.req_UserID := 7 |};
    Turn (noon + 3 * Minute);
    PassB (noon + 6 * Minute);
    Retry (noon + 7 * Minute);
    Turn (noon + 8 * Minute);
    Turn (noon + 9 * Minute);
    Query {| message.sreq_ID := 1 |} ].

(** A hundred pending transactions of user 8, keys 1 to 100, all of them
    waiting in the queue: the queue is full. *)
Definition jammed : World :=
  let rows :=
    map (fun i => mk_transaction (Z.of_nat i) 8 1 "pending" 0 None (noon - Minute))
      (seq 1 100) in
  {| db := with_transactions rows db0;
     messageQueue := map MessageTransactionRepository.toDomainMapper rows;
     logs := []; webhook_posts := [] |}.

(** User 7 has used up the limit of 3 at [noon]. *)
Definition db_spent : DB :=
  with_transactions
    [ mk_transaction 1 7 1 "success" 0 None (noon - 3 * Minute);
      mk_transaction 2 7 1 "success" 0 None (noon - 2 * Minute);
      mk_transaction 3 7 1 "success" 0 None (noon - Minute) ]
    db0.

(** The bindings of [db0], with both providers switched off. *)
Definition db_all_off : DB :=
  {| users := users db0;
     providers := [ mk_provider 1 "signal" false; mk_provider 2 "email" false ];
     user_providers := user_providers db0;
     message_transactions := [];
     message_transaction_history := [] |}.

(** The stale transaction of [db_stale], with the e-mail provider switched
    off. *)
Definition db_stale_off : DB :=
  {| users := users db0;
     providers := [ mk_provider 1 "signal" true; mk_provider 2 "email" false ];
     user_providers := user_providers db0;
     message_transactions := [stale_row];
     message_transaction_history := [] |}.

End fixtures.

Import fixtures.

(** * Properties *)

(** ** The monad *)

Lemma bind_run {A B : Type} (m : M A) (k : A -> M B) (w : World) :
  (m ≫= k) w = k (m w).1 (m w).2.
Proof. unfold mbind, M_bind, bind. by destruct (m w). Qed.

Lemma ret_run {A : Type} (a : A) (w : World) : mret (M := M) a w = (a, w).
Proof. reflexivity. Qed.

Lemma readDB_run {A : Type} (f : DB -> A) (w : World) :
  readDB f w = (f (db w), w).
Proof. reflexivity. Qed.

Lemma liftDB_run {A : Type} (f : DB -> DB * A) (w : World) :
  liftDB f w = ((f (db w)).2, set_db (f (db w)).1 w).
Proof. unfold liftDB. by destruct (f (db w)). Qed.

Lemma log_run (lvl : Level) (msg : string) (w : World) :
  log lvl msg w = (tt, set_logs (logs w ++ [(lvl, msg)]) w).
Proof. reflexivity. Qed.

(** Unfolds one layer of monadic plumbing in the goal. *)
Ltac run :=
  repeat (rewrite ?bind_run, ?readDB_run, ?liftDB_run, ?log_run, ?ret_run; cbn [fst snd]).

(** ** Primary keys *)

Lemma le_foldr_max (ids : list Z) (x : Z) : In x ids -> x <= foldr Z.max 0 ids.
Proof.
  induction ids as [|y ids IH]; cbn; [tauto|].
  intros [->|Hx]; [lia|]. specialize (IH Hx). lia.
Qed.

Lemma next_id_fresh (ids : list Z) : existsb (Z.eqb (next_id ids)) ids = false.
Proof.
  apply not_true_is_false. intros H. apply existsb_exists in H as (x & Hx & Heq).
  apply Z.eqb_eq in Heq. apply le_foldr_max in Hx. unfold next_id in Heq. lia.
Qed.

Lemma next_id_not_in (ids : list Z) : ~ In (next_id ids) ids.
Proof.
  intros H. apply le_foldr_max in H. unfold next_id in H. lia.
Qed.

Lemma next_id_pos (ids : list Z) : 0 < next_id ids.
Proof.
  unfold next_id. assert (0 <= foldr Z.max 0 ids); [|lia].
  induction ids; cbn; lia.
Qed.

(** ** Repository facts *)

Lemma Create_keyless (mt : MessageTransaction) (d : DB) :
  ID mt = 0 ->
  Create mt d =
    (set_message_transactions (message_transactions d ++ [inserted mt d]) d,
     (toDomainMapper (inserted mt d), None)).
Proof.
  intros H0. unfold Create, inserted. cbn [messageTransactionFromDomainMapper ID].
  rewrite H0. cbn [Z.eqb]. cbn [set_ID ID]. by rewrite next_id_fresh.
Qed.

Lemma select_provider_run request ups w :
  exists l, select_provider request ups w
            = (selected_provider (db w) request ups, set_logs (logs w ++ l) w).
Proof.
  unfold select_provider, selected_provider. run.
  destruct (negb _).
  - destruct (List.filter _ _).
    + run. by eexists.
    + exists []. rewrite app_nil_r. by destruct w.
  - exists []. rewrite app_nil_r. by destruct w.
Qed.

Lemma EnqueueMessage_run msg w :
  messaging.EnqueueMessage msg w =
    (tt, if (length (messageQueue w) <? messageQueueCap)%nat
         then set_logs (logs w ++ [(Info, "Message added to processing queue")])
                (set_messageQueue (messageQueue w ++ [msg]) w)
         else set_logs (logs w ++ [(Warn, "Message queue is full, message not queued")]) w).
Proof.
  unfold messaging.EnqueueMessage, messaging.select_send.
  by destruct (_ <? _)%nat.
Qed.

Lemma SendMessage_accepts ext now request w :
  accepts now request (db w) = true ->
  let mt := submitted ext now request (db w) in
  let r := SendMessage ext now request w in
  r.1 = (Some {| resp_ID := ID mt; resp_Status := "pending";
                 resp_Message := "Message queued for processing" |}, None)
  /\ db r.2 = set_message_transactions (message_transactions (db w) ++ [mt]) (db w)
  /\ messageQueue r.2 =
       (if (length (messageQueue w) <? messageQueueCap)%nat
        then messageQueue w ++ [toDomainMapper mt] else messageQueue w)
  /\ exists l,
       logs r.2 = logs w ++ l ++
         [ (if (length (messageQueue w) <? messageQueueCap)%nat
            then (Info, "Message added to processing queue")
            else (Warn, "Message queue is full, message not queued"));
           (Info, "Message queued for processing") ].
Proof.
  unfold accepts, submitted. cbn zeta. intros Hacc.
  repeat (apply andb_true_iff in Hacc as [Hacc ?]).
  remember (length (messageQueue w) <? messageQueueCap)%nat as room eqn:Hroom.
  unfold SendMessage. run.
  destruct (UserRepository.GetByID _ _) as [user [e|]]; [done|].
  run. cbn [fst snd] in *.
  destruct (CountUserMessagesForToday _ _ _) as [cnt [e|]] eqn:Hc; [done|].
  cbn [fst snd] in *. 
  destruct (cnt >=? _) eqn:Hge; [lia|].
  run.
  destruct (UserProviderRepository.GetUserProvidersByPriority _ _) as [ups [e|]] eqn:Hups; [done|].
  cbn [fst snd] in *.
  destruct (length ups =? 0)%nat; [done|].
  run.
  destruct (select_provider_run request ups w) as [l ->]. cbn [fst snd db].
  destruct (Repository.GetByID _ _) as [pd [e|]]; [done|].
  run. cbn [db set_logs]. rewrite Create_keyless by reflexivity. cbn [fst snd].
  run. rewrite EnqueueMessage_run. cbn [messageQueue set_db set_logs].
  rewrite <- Hroom.
  destruct room; run; cbn [db messageQueue logs set_logs set_db set_messageQueue fst snd];
    (split; [done|split; [done|split; [done|]]]); exists l; by rewrite <- !app_assoc.
Qed.

Lemma SendMessage_rejects ext now request w :
  accepts now request (db w) = false ->
  let r := SendMessage ext now request w in
  r.1.1 = None /\ db r.2 = db w /\ messageQueue r.2 = messageQueue w.
Proof.
  unfold accepts. cbn zeta. intros Hacc.
  unfold SendMessage. run.
  destruct (UserRepository.GetByID _ _) as [user [e|]]; [by run|].
  run. cbn [fst snd] in *.
  destruct (CountUserMessagesForToday _ _ _) as [cnt [e|]] eqn:Hc; [by run|].
  cbn [fst snd] in *.
  destruct (cnt >=? _) eqn:Hge; [by run|].
  run.
  destruct (UserProviderRepository.GetUserProvidersByPriority _ _) as [ups [e|]] eqn:Hups;
    [by run|].
  cbn [fst snd] in *.
  destruct (length ups =? 0)%nat; [by run|].
  run.
  destruct (select_provider_run request ups w) as [l ->]. cbn [fst snd db].
  destruct (Repository.GetByID _ _) as [pd [e|]]; [by run|].
  exfalso. cbn in Hacc. rewrite !andb_true_r in Hacc. lia.
Qed.

(** What [SendMessage] does when the user has no binding: no row, and a nil
    response next to a nil error. *)
Lemma SendMessage_no_bindings ext now request w :
  (UserRepository.GetByID (req_UserID request) (db w)).2 = None ->
  (CountUserMessagesForToday now (req_UserID request) (db w)).1
    < MessageRateLimit (UserRepository.GetByID (req_UserID request) (db w)).1 ->
  (UserProviderRepository.GetUserProvidersByPriority (req_UserID request) (db w)).1 = [] ->
  SendMessage ext now request w =
    ((None, None),
     set_logs (logs w ++ [(Error, "No providers configured for user")]) w).
Proof.
  intros Hu Hc Hups. unfold SendMessage. run.
  destruct (UserRepository.GetByID _ _) as [user [e|]]; [done|].
  run. cbn [fst snd] in *.
  destruct (CountUserMessagesForToday _ _ _) as [cnt [e|]] eqn:Hcnt; [done|].
  cbn [fst snd] in *.
  destruct (cnt >=? _) eqn:Hge; [lia|].
  run.
  destruct (UserProviderRepository.GetUserProvidersByPriority _ _) as [ups [e|]] eqn:Hg;
    [done|].
  cbn [fst snd] in *. subst ups. cbn [length Nat.eqb]. by run.
Qed.

(** Claim C9.  [SendMessage] is a total function of the world: its
    enqueue never waits.  It never lets the queue grow beyond its capacity,
    and whenever it has created a row (it has reached the enqueue step) it
    returns the acknowledgement with the key of the row and status pending;
    the row is appended to the queue when there is room, and when the queue
    is full the queue is left as it is and the warning is logged. *)
Theorem C9_enqueue_drops_when_full ext now request w :
  (length (messageQueue w) <= messageQueueCap)%nat ->
  let r := SendMessage ext now request w in
  (length (messageQueue r.2) <= messageQueueCap)%nat
  /\ (message_transactions (db r.2) <> message_transactions (db w) ->
      exists mt,
        message_transactions (db r.2) = message_transactions (db w) ++ [mt]
        /\ r.1 = (Some {| resp_ID := ID mt; resp_Status := "pending";
                         resp_Message := "Message queued for processing" |}, None)
        /\ ((length (messageQueue w) < messageQueueCap)%nat ->
            messageQueue r.2 = messageQueue w ++ [toDomainMapper mt])
        /\ (length (messageQueue w) = messageQueueCap ->
            messageQueue r.2 = messageQueue w
            /\ In (Warn, "Message queue is full, message not queued") (logs r.2))).
Proof.
  intros Hcap. cbn zeta.
  destruct (accepts now request (db w)) eqn:Hacc.
  - destruct (SendMessage_accepts ext now request w Hacc) as (Hres & Hdb & Hq & l & Hlog).
    rewrite Hq, Hdb. cbn [message_transactions set_message_transactions].
    split.
    + destruct (Nat.ltb_spec (length (messageQueue w)) messageQueueCap); [|done].
      rewrite length_app. cbn [length]. lia.
    + intros _. eexists. split; [reflexivity|]. split; [exact Hres|]. split.
      * intros Hlt. apply Nat.ltb_lt in Hlt. by rewrite Hlt.
      * intros Heq. rewrite Hlog.
        assert ((length (messageQueue w) <? messageQueueCap)%nat = false) as ->
          by (apply Nat.ltb_ge; lia).
        split; [done|]. rewrite !in_app_iff. right. right. cbn. tauto.
  - destruct (SendMessage_rejects ext now request w Hacc) as (_ & Hdb & Hq).
    rewrite Hq, Hdb. split; [done|]. intros H. by destruct H.
Qed.

(** ** The daily limit *)

Lemma Count_eq now uid d :
  CountUserMessagesForToday now uid d =
    (Z.of_nat (length (List.filter (counts_today now uid) (message_transactions d))), None).
Proof. reflexivity. Qed.

Lemma startOfDay_bounds (t : Time) :
  startOfDay t <= t < Add (startOfDay t) (24 * Hour).
Proof.
  unfold startOfDay, Add.
  pose proof (Z.mod_pos_bound t (24 * Hour) eq_refl). lia.
Qed.

Lemma counts_today_same_day t t' uid r :
  startOfDay t' = startOfDay t -> counts_today t' uid r = counts_today t uid r.
Proof. unfold counts_today. by intros ->. Qed.

Lemma counts_today_inserted ext t t' q sp d :
  startOfDay t' = startOfDay t ->
  counts_today t' (req_UserID q) (inserted (new_transaction ext t q sp) d) = true.
Proof.
  intros Hday. unfold counts_today. rewrite Hday. cbn.
  pose proof (startOfDay_bounds t). unfold Add in *.
  rewrite Z.eqb_refl. cbn. apply andb_true_iff. split; lia.
Qed.

Lemma usable_selected uid d request :
  req_UserID request = uid ->
  usable uid d = true ->
  let ups := (UserProviderRepository.GetUserProvidersByPriority uid d).1 in
  negb (length ups =? 0)%nat = true
  /\ is_nil (Repository.GetByID (up_ProviderID (selected_provider d request ups)) d).2 = true.
Proof.
  intros _ Hus. unfold usable in Hus. cbn zeta.
  set (ups := (UserProviderRepository.GetUserProvidersByPriority uid d).1) in *.
  apply existsb_exists in Hus as (up & Hin & Hact).
  split; [by destruct ups|].
  assert (Hhp : is_nil (Repository.GetByID (up_ProviderID (highest_priority d ups)) d).2 = true).
  { unfold highest_priority. destruct (List.find _ _) as [up'|] eqn:Hf.
    - apply find_some in Hf as [_ Hf]. unfold both_active in Hf.
      revert Hf. by destruct (Repository.GetByID _ _) as [? [?|]].
    - eapply find_none in Hf; [|exact Hin]. congruence. }
  unfold selected_provider. destruct (negb _); [|done].
  destruct (List.filter _ _) as [|up' l] eqn:Hfl; [done|].
  assert (In up' (List.filter (matches_type d (req_Type request)) ups)) as Hin'
    by (rewrite Hfl; by left).
  apply filter_In in Hin' as [_ Hm]. unfold matches_type in Hm.
  revert Hm. by destruct (Repository.GetByID (up_ProviderID up') d) as [? [?|]].
Qed.

Lemma accepts_iff now request d :
  accepts now request d = true <->
  (UserRepository.GetByID (req_UserID request) d).2 = None
  /\ (CountUserMessagesForToday now (req_UserID request) d).1
       < MessageRateLimit (UserRepository.GetByID (req_UserID request) d).1
  /\ (UserProviderRepository.GetUserProvidersByPriority (req_UserID request) d).1 <> []
  /\ (Repository.GetByID
        (up_ProviderID
           (selected_provider d request
              (UserProviderRepository.GetUserProvidersByPriority (req_UserID request) d).1))
        d).2 = None.
Proof.
  unfold accepts. cbn zeta. rewrite !andb_true_iff, Z.ltb_lt.
  assert (forall (A : Type) (o : option A), is_nil o = true <-> o = None) as Hnil
    by (intros A [?|]; cbn; split; congruence).
  rewrite !Hnil.
  assert (forall (A : Type) (l : list A), negb (length l =? 0)%nat = true <-> l <> []) as Hne
    by (intros A [|? ?]; cbn; split; congruence).
  rewrite Hne. tauto.
Qed.

(** One accepted submission: the registry is untouched and the user's count
    for the day grows by one. *)
Lemma SendMessage_step ext t q w uid user k :
  req_UserID q = uid ->
  UserRepository.GetByID uid (db w) = (user, None) ->
  usable uid (db w) = true ->
  CountUserMessagesForToday t uid (db w) = (k, None) ->
  k < MessageRateLimit user ->
  let r := SendMessage ext t q w in
  (exists id, r.1 = (Some {| resp_ID := id; resp_Status := "pending";
                             resp_Message := "Message queued for processing" |}, None))
  /\ length (message_transactions (db r.2)) = S (length (message_transactions (db w)))
  /\ UserRepository.GetByID uid (db r.2) = (user, None)
  /\ usable uid (db r.2) = true
  /\ forall t', startOfDay t' = startOfDay t ->
       CountUserMessagesForToday t' uid (db r.2) = (k + 1, None).
Proof.
  intros Hq Hu Hus Hc Hlt. cbn zeta.
  assert (Hacc : accepts t q (db w) = true).
  { apply accepts_iff. rewrite Hq, Hu, Hc. cbn [fst snd].
    destruct (usable_selected uid (db w) q Hq Hus) as [Hne Hsel].
    split; [done|]. split; [done|]. split.
    - by destruct (UserProviderRepository.GetUserProvidersByPriority uid (db w)).1.
    - by destruct (Repository.GetByID _ _).2. }
  destruct (SendMessage_accepts ext t q w Hacc) as (Hres & Hdb & _).
  rewrite Hdb. split; [by eexists|]. split.
  { cbn. rewrite length_app. cbn. lia. }
  split; [exact Hu|]. split; [exact Hus|].
  intros t' Hday. rewrite Count_eq in *. cbn [message_transactions set_message_transactions].
  rewrite List.filter_app, length_app. cbn [List.filter].
  unfold submitted.
  pose proof (counts_today_inserted ext t t' q
    (selected_provider (db w) q
       (UserProviderRepository.GetUserProvidersByPriority (req_UserID q) (db w)).1)
    (db w) Hday) as Hnew.
  rewrite Hq in Hnew. rewrite Hq. rewrite Hnew.
  cbn [length]. inversion Hc as [Hk].
  rewrite (List.filter_ext _ _ (fun r => counts_today_same_day t t' uid r Hday)).
  f_equal. lia.
Qed.

(** A submission of a known user is refused as rate limited exactly when
    the count of the day has reached the user's limit. *)
Lemma SendMessage_rate_limited_iff ext now request w user :
  UserRepository.GetByID (req_UserID request) (db w) = (user, None) ->
  (SendMessage ext now request w).1 = (None, Some rateLimited)
  <-> MessageRateLimit user
        <= (CountUserMessagesForToday now (req_UserID request) (db w)).1.
Proof.
  intros Hu. unfold SendMessage. run. rewrite Hu. run. cbn [fst snd].
  destruct (CountUserMessagesForToday _ _ _) as [cnt [e|]] eqn:Hc; [done|].
  cbn [fst snd].
  destruct (Z.geb_spec cnt (MessageRateLimit user)) as [Hge|Hlt].
  { run. split; [lia|done]. }
  run.
  destruct (UserProviderRepository.GetUserProvidersByPriority _ _) as [ups [e|]] eqn:Hups;
    [done|].
  destruct (length ups =? 0)%nat.
  { run. split; [done|lia]. }
  run.
  destruct (select_provider_run request ups w) as [l ->]. cbn [fst snd db].
  unfold Repository.GetByID at 1.
  destruct (List.find _ _).
  - run. cbn [db set_logs]. rewrite Create_keyless by reflexivity. run.
    split; [done|lia].
  - run. split; [done|lia].
Qed.

(** Claim C4, amended.  A user with a daily limit of 3, at least one
    binding that can carry a message and no row of the active table created
    yet on the current UTC day submits four times on that day, with no
    other operation in between.  The first three submissions are
    acknowledged as pending, the fourth is refused as rate limited and
    leaves the store as it was, so that three rows have been created.  In
    general a submission of a known user is refused as rate limited exactly
    when the number of rows of the active table that carry the user's id
    and were created on the current UTC day has reached the user's limit,
    whoever has created these rows: a submission, the retry planner or
    Pass B. *)
Theorem C4_daily_limit_of_three ext w user uid t1 t2 t3 t4 q1 q2 q3 q4 :
  UserRepository.GetByID uid (db w) = (user, None) ->
  MessageRateLimit user = 3 ->
  usable uid (db w) = true ->
  req_UserID q1 = uid -> req_UserID q2 = uid ->
  req_UserID q3 = uid -> req_UserID q4 = uid ->
  startOfDay t2 = startOfDay t1 ->
  startOfDay t3 = startOfDay t1 ->
  startOfDay t4 = startOfDay t1 ->
  CountUserMessagesForToday t1 uid (db w) = (0, None) ->
  let pending id :=
    (Some {| resp_ID := id; resp_Status := "pending";
             resp_Message := "Message queued for processing" |}, None) in
  let r1 := SendMessage ext t1 q1 w in
  let r2 := SendMessage ext t2 q2 r1.2 in
  let r3 := SendMessage ext t3 q3 r2.2 in
  let r4 := SendMessage ext t4 q4 r3.2 in
  (exists id1 id2 id3,
     r1.1 = pending id1 /\ r2.1 = pending id2 /\ r3.1 = pending id3)
  /\ r4.1 = (None, Some rateLimited)
  /\ db r4.2 = db r3.2
  /\ length (message_transactions (db r4.2)) = (length (message_transactions (db w)) + 3)%nat
  /\ (forall now request w' user',
        UserRepository.GetByID (req_UserID request) (db w') = (user', None) ->
        (SendMessage ext now request w').1 = (None, Some rateLimited)
        <-> MessageRateLimit user'
              <= Z.of_nat (length (List.filter (counts_today now (req_UserID request))
                                     (message_transactions (db w'))))).
Proof.
  intros Hu Hlim Hus Hq1 Hq2 Hq3 Hq4 Hd2 Hd3 Hd4 Hc. cbn zeta.
  destruct (SendMessage_step ext t1 q1 w uid user 0 Hq1 Hu Hus Hc ltac:(lia))
    as ([id1 Hr1] & Hl1 & Hu1 & Hus1 & Hc1).
  destruct (SendMessage_step ext t2 q2 _ uid user 1 Hq2 Hu1 Hus1 (Hc1 t2 Hd2) ltac:(lia))
    as ([id2 Hr2] & Hl2 & Hu2 & Hus2 & Hc2).
  assert (Hd32 : startOfDay t3 = startOfDay t2) by congruence.
  destruct (SendMessage_step ext t3 q3 _ uid user 2 Hq3 Hu2 Hus2 (Hc2 t3 Hd32) ltac:(lia))
    as ([id3 Hr3] & Hl3 & Hu3 & Hus3 & Hc3).
  assert (Hd43 : startOfDay t4 = startOfDay t3) by congruence.
  pose proof (Hc3 t4 Hd43) as Hc4.
  set (w3 := (SendMessage ext t3 q3 _).2) in *.
  assert (Hr4 : (SendMessage ext t4 q4 w3).1 = (None, Some rateLimited)).
  { rewrite <- Hq4 in Hu3, Hc4.
    apply (SendMessage_rate_limited_iff ext t4 q4 w3 user Hu3). rewrite Hc4. cbn. lia. }
  assert (Hrej : accepts t4 q4 (db w3) = false).
  { destruct (accepts t4 q4 (db w3)) eqn:Hacc; [|done].
    destruct (SendMessage_accepts ext t4 q4 w3 Hacc) as (Hres & _).
    rewrite Hres in Hr4. discriminate. }
  destruct (SendMessage_rejects ext t4 q4 w3 Hrej) as (_ & Hdb4 & _).
  split; [by exists id1, id2, id3|]. split; [exact Hr4|]. split; [exact Hdb4|].
  split.
  { rewrite Hdb4. subst w3. rewrite Hl3, Hl2, Hl1. lia. }
  intros now request w' user' Hu'.
  by rewrite (SendMessage_rate_limited_iff ext now request w' user' Hu'), Count_eq.
Qed.




Lemma next_provider_loop_effect now failedMsg ups rest :
  forall i found w,
    (forall j, rest !! j = ups !! (i + j)%nat) ->
    retry_effect now failedMsg rest w
      (next_provider_loop now failedMsg ups i rest found w).2.
Proof.
  unfold retry_effect.
  induction rest as [|up rest IH]; intros i found w Hsuf; [done|].
  cbn [next_provider_loop next_in_chain].
  assert (Hsuf' : forall j, rest !! j = ups !! (S i + j)%nat).
  { intros j. replace (S i + j)%nat with (i + S j)%nat by lia. by rewrite <- Hsuf. }
  destruct rest as [|nb rest'].
  { (* the last binding: the loop ends without a successor *)
    destruct (up_ProviderID up =? ProviderID failedMsg).
    - assert ((i + 1 <? length ups)%nat = false) as ->.
      { apply Nat.ltb_ge. apply lookup_ge_None. specialize (Hsuf 1%nat). by rewrite <- Hsuf. }
      by cbn.
    - by cbn. }
  specialize (IH (S i)).
  destruct (Z.eqb_spec (up_ProviderID up) (ProviderID failedMsg)) as [Hpid|Hpid];
    cbn [andb]; [|by apply IH].
  assert (Hnb : ups !! (i + 1)%nat = Some nb) by (by rewrite <- (Hsuf 1%nat)).
  assert ((i + 1 <? length ups)%nat = true) as ->
    by (apply Nat.ltb_lt; by eapply lookup_lt_Some).
  rewrite Hnb. run. unfold both_active.
  destruct (Repository.GetByID (up_ProviderID nb) (db w)) as [p [e|]] eqn:Hp.
  { run. specialize (IH true (set_logs (logs w ++ [(Error, "Error getting provider details for retry")]) w) Hsuf').
    exact IH. }
  destruct (p_Status p); cbn [negb orb andb].
  2:{ run. specialize (IH true (set_logs (logs w ++ [(Warn, "Next provider is inactive, skipping")]) w) Hsuf').
      exact IH. }
  destruct (up_Status nb); cbn [negb orb andb].
  2:{ run. specialize (IH true (set_logs (logs w ++ [(Warn, "Next provider is inactive, skipping")]) w) Hsuf').
      exact IH. }
  run. rewrite Create_keyless by reflexivity. run.
  rewrite EnqueueMessage_run. unfold enqueued. cbn [messageQueue set_db].
  by destruct (_ <? _)%nat.
Qed.

Lemma retry_effect_of now failedMsg w :
  retry_effect now failedMsg
    (UserProviderRepository.GetUserProvidersByPriority (UserID failedMsg) (db w)).1
    w (retry now failedMsg w).2.
Proof.
  unfold retry. run.
  destruct (UserProviderRepository.GetUserProvidersByPriority _ _) as [ups [e|]] eqn:Hups;
    [done|].
  cbn [fst snd].
  destruct ups as [|up ups']; [by cbn|].
  cbn [length Nat.eqb]. run.
  pose proof (next_provider_loop_effect now failedMsg (up :: ups') (up :: ups') 0 false w
                (fun j => eq_refl)) as H.
  unfold retry_effect in *.
  destruct (next_in_chain _ _ _); destruct (next_provider_loop _ _ _ _ _ _ _) as [[] w'];
    by cbn in *.
Qed.

(** ** The bindings in priority order *)

Lemma insert_by_priority_In x l y :
  In y (UserProviderRepository.insert_by_priority x l) <-> y = x \/ In y l.
Proof.
  induction l as [|z l IH]; cbn [UserProviderRepository.insert_by_priority In].
  - intuition.
  - destruct (up_Priority x <=? up_Priority z); cbn [In]; [intuition|].
    rewrite IH. intuition.
Qed.

Lemma order_by_priority_In l y :
  In y (UserProviderRepository.order_by_priority l) <-> In y l.
Proof.
  unfold UserProviderRepository.order_by_priority.
  induction l as [|x l IH]; [done|]. cbn [foldr In].
  rewrite insert_by_priority_In, IH. intuition.
Qed.

Lemma insert_by_priority_ascending x l :
  ascending l -> ascending (UserProviderRepository.insert_by_priority x l).
Proof.
  induction l as [|z l IH]; cbn [UserProviderRepository.insert_by_priority ascending].
  - intros _. split; [intros y []|done].
  - intros [Hz Hl]. destruct (Z.leb_spec (up_Priority x) (up_Priority z)) as [Hle|Hgt].
    + cbn [ascending]. split; [|by split].
      intros y [<-|Hy]; [done|]. specialize (Hz y Hy). lia.
    + cbn [ascending]. split; [|by apply IH].
      intros y Hy. apply insert_by_priority_In in Hy as [->|Hy]; [lia|by apply Hz].
Qed.

Lemma order_by_priority_ascending l :
  ascending (UserProviderRepository.order_by_priority l).
Proof.
  unfold UserProviderRepository.order_by_priority.
  induction l as [|x l IH]; [done|]. cbn [foldr]. by apply insert_by_priority_ascending.
Qed.

Lemma find_ascending (f : UserProvider -> bool) l x :
  ascending l -> List.find f l = Some x ->
  forall y, In y l -> f y = true -> up_Priority x <= up_Priority y.
Proof.
  induction l as [|z l IH]; [done|]. cbn [ascending List.find In].
  intros [Hz Hl]. destruct (f z) eqn:Hfz.
  - intros [= <-] y [<-|Hy] _; [lia|by apply Hz].
  - intros Hfind y [<-|Hy] Hfy; [congruence|by apply IH].
Qed.

Lemma GetUserProvidersByPriority_In uid d up :
  In up (UserProviderRepository.GetUserProvidersByPriority uid d).1 <->
  In up (user_providers d) /\ up_UserID up = uid /\ up_Status up = true.
Proof.
  unfold UserProviderRepository.GetUserProvidersByPriority. cbn [fst].
  rewrite order_by_priority_In, filter_In, andb_true_iff, Z.eqb_eq.
  destruct (up_Status up); cbn; intuition congruence.
Qed.

Lemma insert_by_priority_Permutation x l :
  UserProviderRepository.insert_by_priority x l ≡ₚ x :: l.
Proof.
  induction l as [|z l IH]; cbn [UserProviderRepository.insert_by_priority]; [done|].
  destruct (up_Priority x <=? up_Priority z); [done|].
  rewrite IH. apply Permutation_swap.
Qed.

Lemma order_by_priority_Permutation l :
  UserProviderRepository.order_by_priority l ≡ₚ l.
Proof.
  unfold UserProviderRepository.order_by_priority.
  induction l as [|x l IH]; [done|]. cbn [foldr].
  by rewrite insert_by_priority_Permutation, IH.
Qed.

(** What [GetUserProvidersByPriority] returns: the bindings of the user
    that are switched on, each of them once, in ascending order of their
    priority number. *)
Lemma GetUserProvidersByPriority_list uid d :
  let ups := (UserProviderRepository.GetUserProvidersByPriority uid d).1 in
  ups ≡ₚ List.filter (fun up => (up_UserID up =? uid) && up_Status up) (user_providers d)
  /\ (forall up, In up ups <->
        In up (user_providers d) /\ up_UserID up = uid /\ up_Status up = true)
  /\ ascending ups.
Proof.
  cbn zeta. split; [|split].
  - unfold UserProviderRepository.GetUserProvidersByPriority. cbn [fst].
    rewrite order_by_priority_Permutation.
    erewrite List.filter_ext; [reflexivity|].
    intros up. cbn. by destruct (up_Status up).
  - intros up. apply GetUserProvidersByPriority_In.
  - apply order_by_priority_ascending.
Qed.



Lemma next_in_chain_registry rows d pid ups :
  next_in_chain (set_message_transactions rows d) pid ups = next_in_chain d pid ups.
Proof.
  induction ups as [|up rest IH]; [done|]. cbn [next_in_chain].
  destruct rest as [|nb rest']; [done|]. by rewrite IH.
Qed.

Lemma planned_registry rows d l :
  planned (set_message_transactions rows d) l = planned d l.
Proof.
  induction l as [|f l IH]; [done|]. cbn [planned].
  rewrite IH. unfold owed. by rewrite next_in_chain_registry.
Qed.

Lemma for_range_retry now failedMessages :
  forall w,
  exists created,
    db (for_range (retry now) failedMessages w).2 =
      set_message_transactions (message_transactions (db w) ++ created) (db w)
    /\ map content created = planned (db w) failedMessages
    /\ Forall (fun r => Status r = "pending") created.
Proof.
  induction failedMessages as [|f l IH]; intros w.
  { exists []. cbn. rewrite app_nil_r. by destruct (db w). }
  cbn [for_range]. run.
  pose proof (retry_effect_of now f w) as H. unfold retry_effect in H.
  destruct (IH (retry now f w).2) as (created & Hdb & Hc & Hp).
  rewrite Hdb. cbn [planned]. unfold owed at 1.
  destruct (next_in_chain _ _ _) as [nb|] eqn:Hn.
  - destruct H as [H _]. rewrite H in *.
    exists (inserted (retry_transaction now f nb) (db w) :: created).
    cbn [message_transactions set_message_transactions]. rewrite <- app_assoc.
    split; [done|]. split.
    + cbn [map]. rewrite Hc. by rewrite planned_registry.
    + by constructor.
  - destruct H as [H _]. rewrite H in *. by exists created.
Qed.

Lemma RetryFailedMessages_creates now w :
  exists created,
    db (RetryFailedMessages now w).2 =
      set_message_transactions (message_transactions (db w) ++ created) (db w)
    /\ map content created = planned (db w) (GetFailedMessagesForRetry now (db w)).1
    /\ Forall (fun r => Status r = "pending") created.
Proof.
  unfold RetryFailedMessages. run.
  destruct (GetFailedMessagesForRetry now (db w)) as [failedMessages [e|]] eqn:Hf; [done|].
  cbn [fst snd]. destruct failedMessages as [|f l].
  - exists []. cbn [length Nat.eqb]. run. cbn. rewrite app_nil_r. by destruct (db w).
  - cbn [length Nat.eqb]. run.
    destruct (for_range_retry now (f :: l)
                (set_logs (logs w ++ [(Info, "Found failed messages to retry")]) w))
      as (created & Hdb & Hc & Hp).
    exists created. by rewrite Hdb.
Qed.

(** Rows that are pending are not selected for retry. *)
Lemma GetFailedMessagesForRetry_pending now created d :
  Forall (fun r => Status r = "pending") created ->
  GetFailedMessagesForRetry now
    (set_message_transactions (message_transactions d ++ created) d)
  = GetFailedMessagesForRetry now d.
Proof.
  intros Hp. unfold GetFailedMessagesForRetry. f_equal. f_equal.
  cbn [message_transactions set_message_transactions].
  rewrite List.filter_app.
  assert (List.filter
            (fun r => String.eqb (Status r) "failed" && time_le_null (NextRetryAt r) now)
            created = []) as ->; [|by rewrite app_nil_r].
  induction Hp as [|r l Hr _ IH]; [done|]. cbn [List.filter]. by rewrite Hr, IH.
Qed.

(** Claim C1, as the code has it.  [RetryFailedMessages] leaves the failed
    rows as they are, so a second invocation meets them again.  When the
    failed rows that are due are the same at both invocations, the second
    invocation creates its own successors, and they repeat those of the
    first: same user, provider, recipients, body, status and retry count,
    under fresh keys.  The successors of one invocation are those owed by
    [planned] to the due failed rows. *)
Theorem C1_retry_repeats_successors now1 now2 w :
  GetFailedMessagesForRetry now2 (db w) = GetFailedMessagesForRetry now1 (db w) ->
  let w1 := (RetryFailedMessages now1 w).2 in
  let w2 := (RetryFailedMessages now2 w1).2 in
  GetFailedMessagesForRetry now2 (db w1) = GetFailedMessagesForRetry now1 (db w)
  /\ exists first second,
       message_transactions (db w1) = message_transactions (db w) ++ first
       /\ message_transactions (db w2) = message_transactions (db w1) ++ second
       /\ map content second = map content first
       /\ map content first = planned (db w) (GetFailedMessagesForRetry now1 (db w)).1.
Proof.
  intros Hsteady. cbn zeta.
  destruct (RetryFailedMessages_creates now1 w) as (first & Hdb1 & Hc1 & Hp1).
  destruct (RetryFailedMessages_creates now2 (RetryFailedMessages now1 w).2)
    as (second & Hdb2 & Hc2 & Hp2).
  rewrite Hdb1 in Hc2.
  rewrite GetFailedMessagesForRetry_pending, planned_registry, Hsteady in Hc2 by done.
  split.
  - by rewrite Hdb1, GetFailedMessagesForRetry_pending.
  - exists first, second. rewrite Hdb2, Hdb1. repeat split; try done. congruence.
Qed.

Lemma Update_with now id m d upd :
  bool_decide (dom (to_columns m) ⊆ columns) = true ->
  (forall r, apply_updates now (to_columns m) r = upd r) ->
  (Update now id m d).1 = update_row id upd d.
Proof.
  intros Hcols Hupd. unfold Update, update_row. rewrite Hcols. cbn zeta.
  rewrite (map_ext _ (fun r => if ID r =? id then upd r else r)).
  2:{ intros r. by rewrite Hupd. }
  by destruct (List.find _ _).
Qed.

Lemma MoveToHistory_archive now id d :
  (MoveToHistory now id d).1 = archive now id d.
Proof.
  unfold MoveToHistory, archive, GetByID.
  destruct (List.find _ _) as [r|]; [|done].
  unfold MessageTransactionHistoryRepository.Create. cbn [h_ID Z.eqb].
  cbn [MessageTransactionHistoryRepository.set_h_ID h_ID].
  by rewrite next_id_fresh.
Qed.

Lemma Update_fallback now id d :
  (Update now id messaging.fallback_updateData d).1 =
    update_row id
      (settle now "fallback_triggered"
         "Message not delivered within 5 minutes, fallback to alternative provider triggered"
         None None None) d.
Proof.
  apply Update_with; [by vm_compute|]. intros r. by vm_compute.
Qed.

Lemma fallback_effect now msg w :
  let w' := (messaging.fallback now msg w).2 in
  match alternative (db w) msg with
  | Some np =>
      db w' = fallen_back now msg np (db w)
      /\ messageQueue w' =
           enqueued (toDomainMapper (inserted (messaging.fallback_transaction now msg np) (db w)))
             (messageQueue w)
  | None => db w' = db w /\ messageQueue w' = messageQueue w
  end
  /\ webhook_posts w' = webhook_posts w.
Proof.
  cbn zeta. unfold messaging.fallback, alternative. run.
  destruct (UserProviderRepository.GetUserProvidersByPriority _ _) as [ups [e|]] eqn:Hups;
    [done|].
  cbn [fst snd]. destruct (List.find _ _) as [np|]; [|done].
  run. rewrite Create_keyless by reflexivity. run.
  cbn [db set_db set_logs]. unfold fallen_back.
  rewrite <- Update_fallback, <- MoveToHistory_archive.
  set (d1 := set_message_transactions _ _).
  destruct (Update now (ID msg) messaging.fallback_updateData d1) as [d2 [r2 e2]].
  cbn [fst snd]. 
  destruct e2; run; cbn [db set_db set_logs];
    destruct (MoveToHistory now (ID msg) d2) as [d3 e3]; cbn [fst snd];
    destruct e3; run; unfold messaging.select_send, enqueued;
    cbn [messageQueue set_db set_logs];
    by destruct (_ <? _)%nat.
Qed.

Lemma archive_table now id d :
  message_transactions (archive now id d) = message_transactions d.
Proof. unfold archive. by destruct (List.find _ _). Qed.

Lemma archive_registry now id d :
  user_providers (archive now id d) = user_providers d
  /\ providers (archive now id d) = providers d
  /\ users (archive now id d) = users d.
Proof. unfold archive. by destruct (List.find _ _). Qed.

Lemma archive_history now id d r :
  List.find (fun r => ID r =? id) (message_transactions d) = Some r ->
  message_transaction_history (archive now id d) =
    message_transaction_history d ++ [archived now d r].
Proof. unfold archive. by intros ->. Qed.

Lemma find_update_row id upd rows :
  (forall r, ID (upd r) = ID r) ->
  List.find (fun r => ID r =? id)
    (map (fun r => if ID r =? id then upd r else r) rows)
  = upd <$> List.find (fun r => ID r =? id) rows.
Proof.
  intros Hid. induction rows as [|r rows IH]; [done|]. cbn [map List.find].
  destruct (ID r =? id) eqn:Hr.
  - by rewrite Hid, Hr.
  - by rewrite Hr.
Qed.

Lemma find_app_l {A : Type} (f : A -> bool) (l l' : list A) (x : A) :
  List.find f l = Some x -> List.find f (l ++ l') = Some x.
Proof.
  induction l as [|y l IH]; [done|]. cbn. by destruct (f y).
Qed.

Lemma find_ID_Some id rows :
  In id (map ID rows) ->
  exists r, List.find (fun r => ID r =? id) rows = Some r /\ ID r = id /\ In r rows.
Proof.
  induction rows as [|r rows IH]; [done|]. cbn [map In List.find].
  destruct (Z.eqb_spec (ID r) id) as [Heq|Hne].
  - intros _. exists r. by repeat split; [|left].
  - intros [?|Hin]; [done|]. destruct (IH Hin) as (r' & ? & ? & ?).
    exists r'. by repeat split; [| |right].
Qed.

Lemma fallen_back_table now msg np d :
  message_transactions (fallen_back now msg np d) =
    map (fun r => if ID r =? ID msg
                  then settle now "fallback_triggered" fallback_errorMessage None None None r
                  else r)
      (message_transactions d ++ [inserted (messaging.fallback_transaction now msg np) d]).
Proof. unfold fallen_back. by rewrite archive_table. Qed.

Lemma fallen_back_facts now msg np d :
  In (ID msg) (map ID (message_transactions d)) ->
  let d' := fallen_back now msg np d in
  let mt := inserted (messaging.fallback_transaction now msg np) d in
  (* the fresh transaction *)
  message_transactions d' =
    map (fun r => if ID r =? ID msg
                  then settle now "fallback_triggered" fallback_errorMessage None None None r
                  else r) (message_transactions d) ++ [mt]
  /\ ~ In (ID mt) (map ID (message_transactions d))
  /\ Status mt = "pending" /\ Processing mt = false
  /\ UserID mt = UserID msg /\ ProviderID mt = up_ProviderID np
  /\ Recipients mt = Recipients msg /\ Message mt = Message msg
  /\ RetryCount mt = 0
  (* the original row *)
  /\ (forall r, In r (message_transactions d') -> ID r = ID msg ->
        Status r = "fallback_triggered" /\ ErrorMessage r = fallback_errorMessage
        /\ Processing r = false)
  (* its archive, taken after the update *)
  /\ exists h,
       message_transaction_history d' = message_transaction_history d ++ [h]
       /\ h_MessageID h = ID msg /\ h_Status h = "fallback_triggered"
       /\ h_ErrorMessage h = fallback_errorMessage.
Proof.
  intros Hin. cbn zeta. rewrite fallen_back_table.
  set (mt := inserted _ d).
  assert (Hfresh : ~ In (ID mt) (map ID (message_transactions d))) by apply next_id_not_in.
  assert (Hne : (ID mt =? ID msg) = false).
  { apply Z.eqb_neq. intros Heq. apply Hfresh. by rewrite Heq. }
  rewrite map_app. cbn [map]. rewrite Hne.
  split; [done|]. split; [done|]. do 7 (split; [done|]). split.
  - intros r Hr Hid. apply in_app_iff in Hr as [Hr|[<-|[]]].
    + apply in_map_iff in Hr as (r0 & <- & _).
      destruct (ID r0 =? ID msg) eqn:Hr0; [done|].
      apply Z.eqb_neq in Hr0. done.
    + apply Z.eqb_neq in Hne. done.
  - destruct (find_ID_Some _ _ Hin) as (r0 & Hfind & Hid0 & _).
    unfold fallen_back. fold mt.
    erewrite archive_history.
    2:{ unfold update_row. cbn [message_transactions set_message_transactions].
        rewrite find_update_row by done.
        by rewrite (find_app_l _ _ _ _ Hfind). }
    eexists. split; [reflexivity|]. by cbn.
Qed.

Lemma for_range_fallback now l :
  forall w, db (for_range (messaging.fallback now) l w).2 = foldl (pass_B_step now) (db w) l.
Proof.
  induction l as [|msg l IH]; intros w; [done|]. cbn [for_range foldl]. run.
  rewrite IH. f_equal. unfold pass_B_step.
  pose proof (fallback_effect now msg w) as [H _]. cbn zeta in H.
  by destruct (alternative (db w) msg); destruct H as [-> _].
Qed.

Lemma checkUndeliveredMessages_db now w :
  db (messaging.checkUndeliveredMessages now w).2 =
    foldl (pass_B_step now) (db w) (GetUndeliveredMessages now (db w)).1.
Proof.
  unfold messaging.checkUndeliveredMessages. run.
  destruct (GetUndeliveredMessages now (db w)) as [l [e|]] eqn:Hl; [done|].
  cbn [fst snd]. destruct l as [|msg l]; [done|].
  cbn [length Nat.eqb]. run. by rewrite for_range_fallback.
Qed.

Lemma GetUndeliveredMessages_iff now d m :
  In m (GetUndeliveredMessages now d).1 <->
  exists r, In r (message_transactions d) /\ m = toDomainMapper r
            /\ Status r = "success" /\ Processing r = false
            /\ UpdatedAt r <= now - 5 * Minute.
Proof.
  unfold GetUndeliveredMessages, messageTransactionArrayToDomainMapper. cbn [fst].
  rewrite in_map_iff. split.
  - intros (r & <- & Hr). apply filter_In in Hr as [Hin Hc].
    apply andb_true_iff in Hc as [Hc Hu]. apply andb_true_iff in Hc as [Hs Hp].
    exists r. split; [done|]. split; [done|].
    apply String.eqb_eq in Hs. apply Bool.eqb_prop in Hp. apply Z.leb_le in Hu.
    unfold Add in Hu. repeat split; [done|done|lia].
  - intros (r & Hin & -> & Hs & Hp & Hu). exists r. split; [done|].
    apply filter_In. split; [done|]. rewrite Hs, Hp. cbn. apply Z.leb_le. unfold Add. lia.
Qed.

Lemma alternative_Some d msg np :
  alternative d msg = Some np <->
  exists i,
    (UserProviderRepository.GetUserProvidersByPriority (UserID msg) d).1 !! i = Some np
    /\ up_ProviderID np <> ProviderID msg
    /\ forall j up, (j < i)%nat ->
         (UserProviderRepository.GetUserProvidersByPriority (UserID msg) d).1 !! j = Some up ->
         up_ProviderID up = ProviderID msg.
Proof.
  unfold alternative.
  generalize (UserProviderRepository.GetUserProvidersByPriority (UserID msg) d).1 as ups.
  induction ups as [|up ups IH]; cbn [List.find].
  { split; [done|]. by intros (i & ? & _). }
  destruct (Z.eqb_spec (up_ProviderID up) (ProviderID msg)) as [Heq|Hne]; cbn [negb].
  - rewrite IH. split.
    + intros (i & Hi & Hd & Hmin). exists (S i). split; [done|]. split; [done|].
      intros [|j] up' Hj Hup'; [cbn in Hup'; congruence|].
      apply (Hmin j); [lia|done].
    + intros ([|i] & Hi & Hd & Hmin); [cbn in Hi; congruence|].
      exists i. split; [done|]. split; [done|].
      intros j up' Hj Hup'. apply (Hmin (S j)); [lia|done].
  - split.
    + intros [= <-]. exists 0%nat. split; [done|]. split; [done|]. lia.
    + intros ([|i] & Hi & Hd & Hmin); [cbn in Hi; congruence|].
      exfalso. apply Hne. apply (Hmin 0%nat); [lia|done].
Qed.

Lemma alternative_None d msg :
  alternative d msg = None <->
  forall up,
    In up (UserProviderRepository.GetUserProvidersByPriority (UserID msg) d).1 ->
    up_ProviderID up = ProviderID msg.
Proof.
  unfold alternative. split.
  - intros H up Hin. eapply find_none in H; [|exact Hin].
    apply negb_false_iff in H. by apply Z.eqb_eq.
  - intros H. destruct (List.find _ _) as [up|] eqn:Hf; [|done].
    apply find_some in Hf as [Hin Hd]. apply H in Hin.
    apply negb_true_iff, Z.eqb_neq in Hd. done.
Qed.

Lemma pass_B_step_ids now d msg id :
  In id (map ID (message_transactions d)) ->
  In id (map ID (message_transactions (pass_B_step now d msg))).
Proof.
  unfold pass_B_step. destruct (alternative d msg) as [np|]; [|done].
  rewrite fallen_back_table, map_map, map_app, in_app_iff. intros Hin. left.
  erewrite map_ext; [exact Hin|]. intros r. cbn. by destruct (ID r =? ID msg).
Qed.

(** Claim C6.  Pass B selects exactly the rows with status success, no
    reservation and an update time at least five minutes old, and handles
    them one after the other.  The list it walks for a message is the
    user's priority-ordered binding list: the bindings of the user of the
    message that are switched on, each of them once, in ascending order of
    their priority number.  A selected message whose user has bindings of
    its own provider only in that list is skipped.  Otherwise the first
    binding of the list whose provider differs is taken: a fresh pending
    transaction for that provider is created with the user, recipients and
    body of the message, the original row gets status fallback_triggered
    and the explanatory error message, and the history row appended for it
    already carries that status and message. *)
Theorem C6_pass_B_fallback now w :
  let selected := (GetUndeliveredMessages now (db w)).1 in
  (forall m,
      In m selected <->
      exists r, In r (message_transactions (db w)) /\ m = toDomainMapper r
                /\ Status r = "success" /\ Processing r = false
                /\ UpdatedAt r <= now - 5 * Minute)
  /\ db (messaging.checkUndeliveredMessages now w).2 = foldl (pass_B_step now) (db w) selected
  /\ forall d msg,
       let ups := (UserProviderRepository.GetUserProvidersByPriority (UserID msg) d).1 in
       let d' := pass_B_step now d msg in
       (* the list walked: the user's active bindings, by ascending priority *)
       (ups ≡ₚ List.filter (fun up => (up_UserID up =? UserID msg) && up_Status up)
                 (user_providers d)
        /\ (forall up, In up ups <->
              In up (user_providers d) /\ up_UserID up = UserID msg
              /\ up_Status up = true)
        /\ ascending ups)
       (* no binding of another provider: the row is skipped *)
       /\ ((forall up, In up ups -> up_ProviderID up = ProviderID msg) -> d' = d)
       (* otherwise the first such binding is taken *)
       /\ ((exists up, In up ups /\ up_ProviderID up <> ProviderID msg) ->
           In (ID msg) (map ID (message_transactions d)) ->
           exists i np mt h,
             ups !! i = Some np
             /\ up_ProviderID np <> ProviderID msg
             /\ (forall j up, (j < i)%nat -> ups !! j = Some up ->
                   up_ProviderID up = ProviderID msg)
             /\ message_transactions d' =
                  map (fun r => if ID r =? ID msg
                                then settle now "fallback_triggered" fallback_errorMessage
                                       None None None r
                                else r) (message_transactions d) ++ [mt]
             /\ ~ In (ID mt) (map ID (message_transactions d))
             /\ Status mt = "pending" /\ Processing mt = false
             /\ UserID mt = UserID msg /\ ProviderID mt = up_ProviderID np
             /\ Recipients mt = Recipients msg /\ Message mt = Message msg
             /\ (forall r, In r (message_transactions d') -> ID r = ID msg ->
                   Status r = "fallback_triggered"
                   /\ ErrorMessage r = fallback_errorMessage)
             /\ message_transaction_history d' = message_transaction_history d ++ [h]
             /\ h_MessageID h = ID msg /\ h_Status h = "fallback_triggered"
             /\ h_ErrorMessage h = fallback_errorMessage)
       (* the rows met on the way keep their keys *)
       /\ (forall id, In id (map ID (message_transactions d)) ->
              In id (map ID (message_transactions d'))).
Proof.
  cbn zeta. split; [apply GetUndeliveredMessages_iff|].
  split; [apply checkUndeliveredMessages_db|].
  intros d msg. split; [apply GetUserProvidersByPriority_list|].
  split; [|split; [|apply pass_B_step_ids]]; unfold pass_B_step.
  - intros Hall. apply alternative_None in Hall. by rewrite Hall.
  - intros (up & Hin & Hdiff) Hrow.
    destruct (alternative d msg) as [np|] eqn:Halt.
    2:{ exfalso. apply Hdiff. by apply (proj1 (alternative_None d msg) Halt). }
    apply alternative_Some in Halt as (i & Hi & Hd & Hmin).
    destruct (fallen_back_facts now msg np d Hrow)
      as (Htab & Hfresh & Hs & Hp & Hu & Hpr & Hrc & Hm & _ & Horig & h & Hh & Hh1 & Hh2 & Hh3).
    exists i, np, (inserted (messaging.fallback_transaction now msg np) d), h.
    repeat split; try done.
    all: intros; by destruct (Horig r) as (? & ? & ?).
Qed.

(** Pass B keeps the keys and the retry counts of the rows it finds. *)
Lemma pass_B_step_rows now d msg r' :
  In r' (message_transactions (pass_B_step now d msg)) ->
  (exists r, In r (message_transactions d) /\ ID r' = ID r /\ RetryCount r' = RetryCount r)
  \/ RetryCount r' = 0.
Proof.
  unfold pass_B_step. destruct (alternative d msg) as [np|].
  2:{ intros Hin. left. by exists r'. }
  rewrite fallen_back_table, in_map_iff. intros (r & <- & Hin).
  apply in_app_iff in Hin as [Hin|[<-|[]]].
  - left. exists r. split; [done|]. by destruct (ID r =? ID msg).
  - right. by destruct (_ =? _).
Qed.

(** Claim C10.  Every row that Pass B adds to the active table has retry
    count 0, whatever the retry count of the row it falls back from. *)
Theorem C10_fallback_restarts_retry_count now w r :
  In r (message_transactions (db (messaging.checkUndeliveredMessages now w).2)) ->
  ~ In (ID r) (map ID (message_transactions (db w))) ->
  RetryCount r = 0.
Proof.
  rewrite checkUndeliveredMessages_db.
  generalize (GetUndeliveredMessages now (db w)).1 as l.
  generalize (db w) as d. intros d l. revert d r.
  induction l as [|msg l IH] using rev_ind; intros d r; cbn [foldl].
  { intros Hin Hnew. exfalso. apply Hnew. by apply in_map. }
  rewrite foldl_app. cbn [foldl]. intros Hin Hnew.
  apply pass_B_step_rows in Hin as [(r0 & Hin0 & Hid & Hrc)|Hrc]; [|done].
  rewrite Hrc. apply (IH d r0); [done|]. by rewrite <- Hid.
Qed.

Lemma for_range_notify ext now uid mid status err ups :
  forall w,
    let w' := (for_range (messaging.notify_binding ext now uid mid status err) ups w).2 in
    db w' = db w /\ messageQueue w' = messageQueue w
    /\ webhook_posts w' =
         webhook_posts w ++
         map (fun url =>
                messaging.sendWebhookRequest url
                  (messaging.webhook_payload now uid mid status err))
           (webhook_targets ext ups).
Proof.
  induction ups as [|up ups IH]; intros w; cbn zeta.
  { cbn. by rewrite app_nil_r. }
  cbn [for_range webhook_targets]. run.
  destruct (IH (messaging.notify_binding ext now uid mid status err up w).2)
    as (Hdb & Hq & Hp).
  rewrite Hdb, Hq, Hp. clear IH Hdb Hq Hp.
  unfold messaging.notify_binding, webhook_target.
  destruct (String.eqb (up_Config up) ""); cbn [negb]; [by rewrite ret_run|].
  destruct (json_Unmarshal_WebhookConfig ext (up_Config up)) as [config|]; [|by run].
  destruct (Enabled config && negb (String.eqb (WebhookURL config) "")); [|by rewrite ret_run].
  unfold messaging.go_sendWebhookRequest. cbn. by rewrite <- app_assoc.
Qed.

Lemma sendWebhookNotification_effect ext now uid mid status err w :
  let w' := (messaging.sendWebhookNotification ext now uid mid status err w).2 in
  db w' = db w /\ messageQueue w' = messageQueue w
  /\ webhook_posts w' = webhook_posts w ++ notifications ext now uid mid status err (db w).
Proof.
  cbn zeta. unfold messaging.sendWebhookNotification, notifications. run.
  destruct (UserProviderRepository.GetUserProviders uid (db w)) as [ups [e|]] eqn:Hups;
    [done|].
  cbn [fst snd]. apply for_range_notify.
Qed.

Lemma updateMessageStatus_failed now id e w :
  let w' := (messaging.updateMessageStatus now id "failed" e "" w).2 in
  db w' = archive now id
            (update_row id (settle now "failed" e None None (Some (retryAt now))) (db w))
  /\ messageQueue w' = messageQueue w
  /\ webhook_posts w' = webhook_posts w.
Proof.
  cbn zeta. unfold messaging.updateMessageStatus.
  cbn [String.eqb Ascii.eqb Bool.eqb negb orb]. run.
  match goal with |- context [Update now id ?m (db w)] => set (updateData := m) end.
  assert (Hu : (Update now id updateData (db w)).1 =
               update_row id (settle now "failed" e None None (Some (retryAt now))) (db w)).
  { apply Update_with; [by vm_compute|intros r; by vm_compute]. }
  rewrite <- Hu, <- MoveToHistory_archive.
  destruct (Update _ _ _ _) as [d1 [r1 e1]]. cbn [fst snd].
  destruct e1; run; cbn [db set_db set_logs];
    destruct (MoveToHistory now id d1) as [d2 e2]; cbn [fst snd];
    by destruct e2.
Qed.

Lemma update_archive_run now id m upd (k : M unit) w :
  bool_decide (dom (to_columns m) ⊆ columns) = true ->
  (forall r, apply_updates now (to_columns m) r = upd r) ->
  exists l,
    (('(_, err) ← liftDB (Update now id m);
      match err with
      | Some _ => log Error "Error updating message transaction"
      | None => mret tt
      end ;;
      err ← liftDB (MoveToHistory now id);
      match err with
      | Some _ => log Error "Error moving message transaction to history"
      | None => mret tt
      end ;; k) w).2
    = (k (set_logs (logs w ++ l) (set_db (archive now id (update_row id upd (db w))) w))).2.
Proof.
  intros Hc Hu. run.
  rewrite <- (Update_with now id m (db w) upd Hc Hu), <- MoveToHistory_archive.
  destruct (Update _ _ _ _) as [d1 [r1 e1]]. cbn [fst snd].
  destruct e1; run; cbn [db set_db set_logs];
    destruct (MoveToHistory now id d1) as [d2 e2]; cbn [fst snd];
    destruct e2; run; cbn [db set_db set_logs logs].
  - eexists [_; _]. by rewrite <- app_assoc.
  - by eexists [_].
  - by eexists [_].
  - exists []. rewrite app_nil_r. by destruct w.
Qed.

Lemma processMessage_effect ext now msg w :
  let o := outcome ext (db w) msg in
  let w' := (messaging.processMessage ext now msg w).2 in
  db w' = archive now (ID msg) (update_row (ID msg) (settled ext now o) (db w))
  /\ messageQueue w' = messageQueue w
  /\ webhook_posts w' = webhook_posts w ++ notified ext now o msg (db w).
Proof.
  cbn zeta. unfold messaging.processMessage, outcome.
  rewrite bind_run, log_run. 
  rewrite bind_run, readDB_run. cbn [fst snd db set_logs].
  destruct (Repository.GetByID (ProviderID msg) (db w)) as [p [e|]] eqn:Hp.
  { rewrite bind_run, log_run. cbn [fst snd]. cbn [settled notified]. rewrite app_nil_r.
    match goal with |- context [messaging.updateMessageStatus _ _ _ _ _ ?w1] =>
      by destruct (updateMessageStatus_failed now (ID msg) (Error_ ext e) w1)
        as (-> & -> & ->) end. }
  destruct (p_Status p); cbn [negb].
  2:{ rewrite bind_run, log_run. cbn [fst snd]. cbn [settled notified]. rewrite app_nil_r.
      match goal with |- context [messaging.updateMessageStatus _ _ _ _ _ ?w1] =>
        by destruct (updateMessageStatus_failed now (ID msg) "provider is inactive" w1)
          as (-> & -> & ->) end. }
  destruct (messaging.dispatch ext p msg) as [[requestData responseData] [e|]].
  - cbn [settled notified]. rewrite bind_run, log_run. cbn [fst snd].
    match goal with |- context [Update now (ID msg) ?m] => set (updateData := m) end.
    match goal with |- context [(liftDB _ ≫= _) ?w0] => set (w1 := w0) end.
    assert (H1 : bool_decide (dom (to_columns updateData) ⊆ columns) = true)
      by (vm_compute; reflexivity).
    assert (H2 : forall r, apply_updates now (to_columns updateData) r =
                 settle now "failed" (Error_ ext e) (Some requestData) (Some "")
                    (Some (retryAt now)) r)
      by (intros r; vm_compute; reflexivity).
    destruct (update_archive_run now (ID msg) updateData
                 (settle now "failed" (Error_ ext e) (Some requestData) (Some "")
                    (Some (retryAt now)))
                 (messaging.sendWebhookNotification ext now (UserID msg) (ID msg) "failed"
                    (Error_ ext e)) w1 H1 H2) as [l Hrun].
    rewrite Hrun.
    match goal with |- context [messaging.sendWebhookNotification _ _ _ _ _ _ ?w2] =>
      destruct (sendWebhookNotification_effect ext now (UserID msg) (ID msg) "failed"
                  (Error_ ext e) w2) as (-> & -> & ->) end.
    cbn [db messageQueue webhook_posts set_db set_logs w1].
    split; [reflexivity|]. split; [reflexivity|].
    f_equal. unfold notifications.
    destruct (archive_registry now (ID msg)
                (update_row (ID msg)
                   (settle now "failed" (Error_ ext e) (Some requestData) (Some "")
                      (Some (retryAt now))) (db w))) as (Hups & _).
    unfold UserProviderRepository.GetUserProviders. cbn [fst].
    by rewrite Hups.
  - cbn [settled notified].
    match goal with |- context [Update now (ID msg) ?m] => set (updateData := m) end.
    match goal with |- context [(liftDB _ ≫= _) ?w0] => set (w1 := w0) end.
    assert (H1 : bool_decide (dom (to_columns updateData) ⊆ columns) = true)
      by (vm_compute; reflexivity).
    assert (H2 : forall r, apply_updates now (to_columns updateData) r =
                 settle now "success" "" (Some requestData) (Some responseData) None r)
      by (intros r; vm_compute; reflexivity).
    destruct (update_archive_run now (ID msg) updateData
                 (settle now "success" "" (Some requestData) (Some responseData) None)
                 (log Info "Message sent successfully" ;;
                  messaging.sendWebhookNotification ext now (UserID msg) (ID msg) "success" "")
                 w1 H1 H2) as [l Hrun].
    rewrite Hrun. rewrite bind_run, log_run. cbn [fst snd].
    match goal with |- context [messaging.sendWebhookNotification _ _ _ _ _ _ ?w2] =>
      destruct (sendWebhookNotification_effect ext now (UserID msg) (ID msg) "success"
                  "" w2) as (-> & -> & ->) end.
    cbn [db messageQueue webhook_posts set_db set_logs w1].
    split; [reflexivity|]. split; [reflexivity|].
    f_equal. unfold notifications.
    destruct (archive_registry now (ID msg)
                (update_row (ID msg)
                   (settle now "success" "" (Some requestData) (Some responseData) None)
                   (db w))) as (Hups & _).
    unfold UserProviderRepository.GetUserProviders. cbn [fst].
    by rewrite Hups.
Qed.
(** ** The history ledger *)

Lemma find_ID_eq id rows r :
  List.find (fun r => ID r =? id) rows = Some r -> ID r = id.
Proof. intros H. apply find_some in H as [_ H]. by apply Z.eqb_eq. Qed.


Lemma update_row_ids id upd d :
  (forall r, ID (upd r) = ID r) ->
  map ID (message_transactions (update_row id upd d)) = map ID (message_transactions d).
Proof.
  intros Hid. unfold update_row. cbn [message_transactions set_message_transactions].
  rewrite map_map. apply map_ext. intros r. destruct (ID r =? id); by rewrite ?Hid.
Qed.






(** ** Webhook notifications *)

Lemma webhook_payload_fields now uid mid status err :
  let payload := messaging.webhook_payload now uid mid status err in
  payload !! "message_id" = Some (VInt mid)
  /\ payload !! "user_id" = Some (VInt uid)
  /\ payload !! "status" = Some (VString status)
  /\ payload !! "timestamp" = Some (VInt (Unix now))
  /\ payload !! "error" = (if String.eqb err "" then None else Some (VString err))
  /\ dom payload =
       (if String.eqb err ""
        then {[ "message_id"; "user_id"; "status"; "timestamp" ]}
        else {[ "message_id"; "user_id"; "status"; "timestamp"; "error" ]} : gset string).
Proof.
  cbn zeta. unfold messaging.webhook_payload.
  generalize (Unix now) as ts. intros ts.
  destruct (String.eqb err ""); cbn [negb].
  - split; [vm_compute; reflexivity|]. split; [vm_compute; reflexivity|].
    split; [vm_compute; reflexivity|]. split; [vm_compute; reflexivity|].
    split; [vm_compute; reflexivity|]. vm_compute; reflexivity.
  - split; [vm_compute; reflexivity|]. split; [vm_compute; reflexivity|].
    split; [vm_compute; reflexivity|]. split; [vm_compute; reflexivity|].
    split; [vm_compute; reflexivity|]. vm_compute; reflexivity.
Qed.

Lemma webhook_target_iff ext up url :
  webhook_target ext up = Some url <->
  up_Config up <> ""
  /\ exists config,
       json_Unmarshal_WebhookConfig ext (up_Config up) = Some config
       /\ Enabled config = true /\ WebhookURL config = url /\ url <> "".
Proof.
  unfold webhook_target.
  destruct (String.eqb_spec (up_Config up) "") as [Hc|Hc].
  { split; [done|]. by intros [? _]. }
  destruct (json_Unmarshal_WebhookConfig ext (up_Config up)) as [config|].
  2:{ split; [done|]. by intros (_ & ? & ? & _). }
  destruct (Enabled config) eqn:He; cbn [andb].
  2:{ split; [done|]. intros (_ & c & [= <-] & ? & _). congruence. }
  destruct (String.eqb_spec (WebhookURL config) "") as [Hu|Hu]; cbn [negb].
  { split; [done|]. intros (_ & c & [= <-] & _ & <- & ?). done. }
  split.
  - intros [= <-]. split; [done|]. by exists config.
  - intros (_ & c & [= <-] & _ & <- & _). done.
Qed.

Lemma webhook_targets_length ext ups :
  length (webhook_targets ext ups)
  = length (List.filter (fun up => negb (is_nil (webhook_target ext up))) ups).
Proof.
  induction ups as [|up ups IH]; [done|]. cbn [webhook_targets List.filter].
  destruct (webhook_target ext up); cbn; by rewrite IH.
Qed.

(** Claim C8, as the code has it.  When the worker's turn reaches the
    dispatch (the provider exists and is active), its outcome starts one
    POST for each binding of the user, active or not, whose configuration is
    not empty, decodes, enables the webhook and gives a URL that is not
    empty, and for no other binding.  The body holds message_id, user_id,
    status and timestamp, and error exactly when the error message is not
    empty. *)
Theorem C8_webhook_fan_out ext now msg w p :
  Repository.GetByID (ProviderID msg) (db w) = (p, None) ->
  p_Status p = true ->
  let w' := (messaging.processMessage ext now msg w).2 in
  let status := match messaging.dispatch ext p msg with
                | (_, _, Some _) => "failed" | (_, _, None) => "success" end in
  let errorMessage := match messaging.dispatch ext p msg with
                      | (_, _, Some e) => Error_ ext e | (_, _, None) => "" end in
  let bindings :=
    List.filter (fun up => up_UserID up =? UserID msg) (user_providers (db w)) in
  let payload := messaging.webhook_payload now (UserID msg) (ID msg) status errorMessage in
  (* one POST for each binding of the user that names a target, in table order *)
  webhook_posts w' =
    webhook_posts w ++
    map (fun url => messaging.sendWebhookRequest url payload) (webhook_targets ext bindings)
  /\ length (webhook_targets ext bindings)
     = length (List.filter (fun up => negb (is_nil (webhook_target ext up))) bindings)
  (* a binding names a target exactly when its configuration is not empty,
     decodes, enables the webhook and gives a URL; its status plays no role *)
  /\ (forall up url,
        webhook_target ext up = Some url <->
        up_Config up <> ""
        /\ exists config,
             json_Unmarshal_WebhookConfig ext (up_Config up) = Some config
             /\ Enabled config = true /\ WebhookURL config = url /\ url <> "")
  (* the request and its body *)
  /\ (forall url,
        req_Method (messaging.sendWebhookRequest url payload) = "POST"
        /\ req_URL (messaging.sendWebhookRequest url payload) = url
        /\ req_Body (messaging.sendWebhookRequest url payload) = payload)
  /\ payload !! "message_id" = Some (VInt (ID msg))
  /\ payload !! "user_id" = Some (VInt (UserID msg))
  /\ payload !! "status" = Some (VString status)
  /\ payload !! "timestamp" = Some (VInt (Unix now))
  /\ payload !! "error" =
       (if String.eqb errorMessage "" then None else Some (VString errorMessage))
  /\ dom payload =
       (if String.eqb errorMessage ""
        then {[ "message_id"; "user_id"; "status"; "timestamp" ]}
        else {[ "message_id"; "user_id"; "status"; "timestamp"; "error" ]} : gset string).
Proof.
  intros Hp Hact. cbn zeta.
  destruct (processMessage_effect ext now msg w) as (_ & _ & Hposts).
  rewrite Hposts. clear Hposts. unfold outcome. rewrite Hp, Hact. cbn [negb].
  split.
  { destruct (messaging.dispatch ext p msg) as [[requestData responseData] [e|]];
      cbn [notified]; reflexivity. }
  split; [apply webhook_targets_length|].
  split; [apply webhook_target_iff|].
  split; [intros url; split; [reflexivity|split; reflexivity]|].
  apply webhook_payload_fields.
Qed.

(** * The claims on concrete runs *)

(** Claim C1 fails as stated: with one failed row that is due and a next
    binding that is active, the set of due failed rows is the same after the
    first invocation, and the second invocation creates one more successor
    row. *)
Lemma C1_second_retry_adds_successors :
  let w1 := (RetryFailedMessages noon (world db_failed)).2 in
  let w2 := (RetryFailedMessages noon w1).2 in
  GetFailedMessagesForRetry noon (db w1) = GetFailedMessagesForRetry noon db_failed
  /\ map content (message_transactions (db w1))
     = [ (7, 1, "+15550100", "hi", "failed", 0); (7, 2, "+15550100", "hi", "pending", 1) ]
  /\ map content (message_transactions (db w2))
     = [ (7, 1, "+15550100", "hi", "failed", 0); (7, 2, "+15550100", "hi", "pending", 1);
         (7, 2, "+15550100", "hi", "pending", 1) ]
  /\ message_transactions (db w2) <> message_transactions (db w1).
Proof.
  cbn zeta. split; [vm_compute; reflexivity|]. split; [vm_compute; reflexivity|].
  split; [vm_compute; reflexivity|].
  intros H. apply (f_equal length) in H. vm_compute in H. discriminate H.
Qed.

(** Claim C1: the amended statement on the failed row of [db_failed]. *)
Lemma C1_retry_repeats_successors_witness :
  let w1 := (RetryFailedMessages noon (world db_failed)).2 in
  let w2 := (RetryFailedMessages noon w1).2 in
  exists first second,
    message_transactions (db w1) = message_transactions db_failed ++ first
    /\ message_transactions (db w2) = message_transactions (db w1) ++ second
    /\ map content second = map content first
    /\ map content first = [ (7, 2, "+15550100", "hi", "pending", 1) ].
Proof.
  cbn zeta.
  destruct (C1_retry_repeats_successors noon noon (world db_failed) eq_refl)
    as (_ & first & second & H1 & H2 & H3 & H4).
  exists first, second. split; [exact H1|]. split; [exact H2|]. split; [exact H3|].
  rewrite H4. vm_compute. reflexivity.
Defined.



(** Claim C3, on the code: for a known user under the daily limit and
    without any binding, [SendMessage] creates no row and logs the missing
    providers, but what it returns is a nil response next to a nil error:
    the [err] it returns is the one the lookup of the bindings has just left
    nil.  The general statement is [SendMessage_no_bindings]. *)
Theorem C3_no_bindings_returns_nil_error :
  SendMessage ext noon request (world db_no_bindings)
  = ((None, None),
     {| db := db_no_bindings; messageQueue := [];
        logs := [ (Error, "No providers configured for user") ];
        webhook_posts := [] |}).
Proof. vm_compute. reflexivity. Qed.

(** Claim C4 fails as stated: four submissions on one UTC day need not
    give three acknowledgements.  User 7 has a limit of 3.  The first
    submission is sent with success by a worker and, six minutes later,
    Pass B falls back from it: the fallback row carries the user's id and
    the time of the day.  The second submission is acknowledged; the third
    is refused as rate limited, with two submissions accepted. *)
Lemma C4_third_submission_is_refused_after_a_fallback :
  let pending id :=
    (Some {| resp_ID := id; resp_Status := "pending";
             resp_Message := "Message queued for processing" |}, None) in
  let r1 := SendMessage ext noon request (world db0) in
  let w1 := trace ext r1.2 [Turn (noon + Second); PassB (noon + 6 * Minute)] in
  let r2 := SendMessage ext (noon + 7 * Minute) request w1 in
  let r3 := SendMessage ext (noon + 8 * Minute) request r2.2 in
  UserRepository.GetByID 7 db0 = ({| u_ID := 7; MessageRateLimit := 3 |}, None)
  /\ startOfDay (noon + 8 * Minute) = startOfDay noon
  /\ r1.1 = pending 1
  /\ map (fun r => (ID r, UserID r, Status r, CreatedAt r)) (message_transactions (db w1))
     = [ (1, 7, "fallback_triggered", noon); (2, 7, "pending", noon + 6 * Minute) ]
  /\ r2.1 = pending 3
  /\ r3.1 = (None, Some rateLimited)
  /\ r3.1 <> pending 4
  /\ db r3.2 = db r2.2.
Proof.
  cbn zeta. split; [reflexivity|]. split; [vm_compute; reflexivity|].
  split; [vm_compute; reflexivity|]. split; [vm_compute; reflexivity|].
  split; [vm_compute; reflexivity|]. split; [vm_compute; reflexivity|].
  split; [vm_compute; discriminate|]. vm_compute. reflexivity.
Qed.

(** Claim C4, amended, on user 7 of [db0]: four submissions from noon on,
    back to back. *)
Lemma C4_daily_limit_of_three_witness :
  let r1 := SendMessage ext noon request (world db0) in
  let r2 := SendMessage ext (noon + Second) request r1.2 in
  let r3 := SendMessage ext (noon + 2 * Second) request r2.2 in
  let r4 := SendMessage ext (noon + 3 * Second) request r3.2 in
  r4.1 = (None, Some rateLimited) /\ db r4.2 = db r3.2
  /\ length (message_transactions (db r4.2)) = 3%nat.
Proof.
  cbn zeta.
  destruct (C4_daily_limit_of_three ext (world db0) {| u_ID := 7; MessageRateLimit := 3 |} 7
              noon (noon + Second) (noon + 2 * Second) (noon + 3 * Second)
              request request request request
              eq_refl eq_refl eq_refl eq_refl eq_refl eq_refl eq_refl
              eq_refl eq_refl eq_refl eq_refl)
    as (_ & H4 & Hdb & Hlen & _).
  split; [exact H4|]. split; [exact Hdb|]. exact Hlen.
Defined.


(** Claim C6 on the stale row of [db_stale]: the row is flipped, archived
    with its new status, and a pending row for e-mail is created. *)
Lemma C6_pass_B_fallback_witness :
  let d' := db (messaging.checkUndeliveredMessages noon (world db_stale)).2 in
  map (fun r => (ID r, ProviderID r, Status r)) (message_transactions d')
  = [ (1, 1, "fallback_triggered"); (2, 2, "pending") ]
  /\ map (fun h => (h_MessageID h, h_Status h)) (message_transaction_history d')
     = [ (1, "fallback_triggered") ].
Proof.
  cbn zeta.
  destruct (C6_pass_B_fallback noon (world db_stale)) as (_ & -> & _).
  split; vm_compute; reflexivity.
Defined.

(** Claim C7, on the code: a queued transaction whose provider does not
    exist, or is switched off, is marked failed with the error message, gets
    its retry time three minutes ahead, loses its reservation and is
    archived, but no webhook request is started, although the user has a
    binding with an enabled webhook.  The path on which the dispatch itself
    fails notifies that same binding.  The general statement is
    [processMessage_without_provider]. *)
Theorem C7_no_webhook_when_provider_missing_or_inactive :
  let missing := (messaging.worker ext noon (queued 9)).2 in
  let inactive := (messaging.worker ext noon (queued 3)).2 in
  let unimplemented := (messaging.worker ext noon (queued 2)).2 in
  let view w :=
    (map (fun r => (Status r, ErrorMessage r, NextRetryAt r, Processing r))
       (message_transactions (db w)),
     map (fun h => (h_MessageID h, h_Status h)) (message_transaction_history (db w)),
     map req_URL (webhook_posts w)) in
  (* the provider of the queued transaction does not exist *)
  view missing
  = ([ ("failed", "not found", Some (noon + 3 * Minute), false) ], [ (1, "failed") ], [])
  (* it exists and is switched off *)
  /\ view inactive
     = ([ ("failed", "provider is inactive", Some (noon + 3 * Minute), false) ],
        [ (1, "failed") ], [])
  (* it is active and the dispatch fails: the same user is notified *)
  /\ view unimplemented
     = ([ ("failed", "email provider not implemented yet", Some (noon + 3 * Minute), false) ],
        [ (1, "failed") ], [ "https://hooks.example/a" ]).
Proof.
  cbn zeta. split; [vm_compute; reflexivity|]. split; vm_compute; reflexivity.
Qed.

(** Without its provider, or with it switched off, a worker's turn starts
    no webhook request at all. *)
Lemma processMessage_without_provider ext now msg w :
  outcome ext (db w) msg = Inactive \/ (exists e, outcome ext (db w) msg = NoProvider e) ->
  webhook_posts (messaging.processMessage ext now msg w).2 = webhook_posts w.
Proof.
  intros Ho. destruct (processMessage_effect ext now msg w) as (_ & _ & ->).
  destruct Ho as [->|[e ->]]; cbn [notified]; apply app_nil_r.
Qed.

(** Claim C8 fails as stated: a binding that is switched off and whose
    configuration enables the webhook receives the POST of a successful
    send. *)
Lemma C8_inactive_binding_is_notified :
  let w' := (messaging.worker ext noon queued_inactive_hook).2 in
  let binding := mk_binding 2 7 2 2 config_on false in
  In binding (user_providers (db queued_inactive_hook))
  /\ up_UserID binding = 7
  /\ up_Status binding = false
  /\ webhook_target ext binding = Some "https://hooks.example/a"
  /\ map (fun r => Status r) (message_transactions (db w')) = [ "success" ]
  /\ map req_URL (webhook_posts w') = [ "https://hooks.example/a" ].
Proof.
  cbn zeta. split; [right; left; reflexivity|]. split; [reflexivity|].
  split; [reflexivity|]. split; [vm_compute; reflexivity|].
  split; vm_compute; reflexivity.
Qed.

(** Claim C8: the amended statement on the queued transaction of
    [queued 2]. *)
Lemma C8_webhook_fan_out_witness :
  let msg := toDomainMapper (reserved_row 2) in
  let w' := (messaging.processMessage ext noon msg (queued 2)).2 in
  webhook_posts w'
  = [ messaging.sendWebhookRequest "https://hooks.example/a"
        (messaging.webhook_payload noon 7 1 "failed" "email provider not implemented yet") ].
Proof.
  cbn zeta.
  destruct (C8_webhook_fan_out ext noon (toDomainMapper (reserved_row 2)) (queued 2)
              (mk_provider 2 "email" true) eq_refl eq_refl) as (H & _).
  exact H.
Defined.

(** Claim C9 on a full queue. *)
Lemma C9_enqueue_drops_when_full_witness :
  let r := SendMessage ext noon request full_world in
  (length (messageQueue full_world) <= messageQueueCap)%nat
  /\ (length (messageQueue r.2) <= messageQueueCap)%nat
  /\ r.1 = (Some {| resp_ID := 1; resp_Status := "pending";
                    resp_Message := "Message queued for processing" |}, None)
  /\ messageQueue r.2 = messageQueue full_world
  /\ In (Warn, "Message queue is full, message not queued") (logs r.2).
Proof.
  cbn zeta.
  assert (Hcap : (length (messageQueue full_world) <= messageQueueCap)%nat)
    by (vm_compute; reflexivity).
  destruct (C9_enqueue_drops_when_full ext noon request full_world Hcap) as (Hlen & H).
  split; [exact Hcap|]. split; [exact Hlen|].
  destruct H as (mt & Htab & Hres & _ & Hfull).
  { intros Heq. apply (f_equal length) in Heq. vm_compute in Heq. discriminate Heq. }
  destruct (Hfull eq_refl) as (Hq & Hwarn).
  split; [|split; [exact Hq|exact Hwarn]].
  rewrite Hres.
  assert (Hid : ID mt = 1).
  { apply (f_equal (map ID)) in Htab. vm_compute in Htab.
    by injection Htab. }
  by rewrite Hid.
Defined.

(** Claim C10 on a stale row that had been retried five times. *)
Lemma C10_fallback_restarts_retry_count_witness :
  let w' := (messaging.checkUndeliveredMessages noon (world db_stale)).2 in
  let created := nth 1 (message_transactions (db w')) zeroMessageTransaction in
  map RetryCount (message_transactions db_stale) = [ 5 ]
  /\ In created (message_transactions (db w'))
  /\ ID created = 2 /\ Status created = "pending"
  /\ RetryCount created = 0.
Proof.
  cbn zeta. split; [reflexivity|].
  assert (Hin : In (nth 1 (message_transactions
                             (db (messaging.checkUndeliveredMessages noon (world db_stale)).2))
                      zeroMessageTransaction)
                  (message_transactions
                     (db (messaging.checkUndeliveredMessages noon (world db_stale)).2)))
    by (vm_compute; right; left; reflexivity).
  split; [exact Hin|]. split; [vm_compute; reflexivity|]. split; [vm_compute; reflexivity|].
  apply (C10_fallback_restarts_retry_count noon (world db_stale) _ Hin).
  vm_compute. intros [H|[]]. discriminate H.
Defined.

(** * Further properties *)

(** ** Pass A: the reservation of pending rows *)

Lemma apply_updates_pending_lock now r :
  apply_updates now (pending_lock now) r = reserve now r.
Proof. by vm_compute. Qed.

Lemma existsb_eqb_In (x : Z) (l : list Z) :
  existsb (Z.eqb x) l = true <-> In x l.
Proof.
  rewrite existsb_exists. split.
  - intros (y & Hy & Heq). apply Z.eqb_eq in Heq. by subst.
  - intros H. exists x. split; [done|]. apply Z.eqb_refl.
Qed.

(** The rows Pass A selects. *)
Lemma GetPendingMessages_eq now d :
  let sel := take 1000 (List.filter pending_unreserved (message_transactions d)) in
  GetPendingMessages now d =
    (set_message_transactions
       (map (fun r => if existsb (Z.eqb (ID r)) (map ID sel) then reserve now r else r)
          (message_transactions d)) d,
     (map toDomainMapper sel, None)).
Proof.
  cbn zeta. unfold GetPendingMessages.
  change (fun r => String.eqb (Status r) "pending" && Bool.eqb (Processing r) false)
    with pending_unreserved.
  destruct (take 1000 _) as [|x sel] eqn:Hsel.
  - cbn [length Nat.eqb map existsb]. rewrite map_id. by destruct d.
  - cbn [length Nat.eqb]. unfold messageTransactionArrayToDomainMapper.
    do 2 f_equal.
Qed.

Lemma filter_not_taken (n : nat) (l : list MessageTransaction) :
  NoDup (map ID l) ->
  List.filter (fun r => negb (existsb (Z.eqb (ID r)) (map ID (take n l)))) l = drop n l.
Proof.
  revert n. induction l as [|x l IH]; intros n Hnd; [by destruct n|].
  destruct n as [|n].
  - cbn [take map existsb negb]. rewrite drop_0.
    clear. induction l as [|y l IH] in x |- *; [done|]. cbn. f_equal.
    specialize (IH y). cbn in IH. injection IH. done.
  - cbn [take map drop List.filter existsb]. rewrite Z.eqb_refl. cbn [orb negb].
    inversion Hnd as [|? ? Hx Hnd']; subst.
    rewrite <- IH by done. apply List.filter_ext_in. intros y Hy.
    assert ((ID y =? ID x) = false) as ->; [|done].
    apply Z.eqb_neq. intros Heq. apply Hx. rewrite <- Heq.
    apply list_elem_of_In. by apply in_map.
Qed.

Lemma reserve_not_selectable now r : pending_unreserved (reserve now r) = false.
Proof. unfold pending_unreserved. cbn. apply andb_false_r. Qed.

Lemma filter_filter {A : Type} (f g : A -> bool) (l : list A) :
  List.filter f (List.filter g l) = List.filter (fun x => g x && f x) l.
Proof.
  induction l as [|x l IH]; [done|]. cbn. destruct (g x); cbn; [|done].
  destruct (f x); by rewrite IH.
Qed.

Lemma NoDup_keys_filter (f : MessageTransaction -> bool) (l : list MessageTransaction) :
  NoDup (map ID l) -> NoDup (map ID (List.filter f l)).
Proof.
  induction l as [|x l IH]; [done|]. cbn [map List.filter]. intros Hnd.
  inversion Hnd as [|? ? Hx Hnd']; subst. destruct (f x); [|by apply IH].
  cbn [map]. constructor; [|by apply IH].
  intros Hin. apply Hx. apply list_elem_of_In in Hin. apply list_elem_of_In.
  apply in_map_iff in Hin as (y & Hy & Hin). apply filter_In in Hin as [Hin _].
  apply in_map_iff. by exists y.
Qed.

(** After the reservation, the rows that can still be selected are the
    ones beyond the first thousand. *)
Lemma GetPendingMessages_rest now d :
  NoDup (keys d) ->
  List.filter pending_unreserved (message_transactions (GetPendingMessages now d).1)
  = drop 1000 (List.filter pending_unreserved (message_transactions d)).
Proof.
  intros Hnd. rewrite GetPendingMessages_eq. cbn [fst message_transactions set_message_transactions].
  set (F := List.filter pending_unreserved (message_transactions d)).
  rewrite <- (filter_not_taken 1000 F) by (by apply NoDup_keys_filter).
  set (S := map ID (take 1000 F)). unfold F. clearbody S. clear F Hnd.
  rewrite filter_filter.
  induction (message_transactions d) as [|x l IH]; [done|].
  cbn [map List.filter].
  destruct (existsb (Z.eqb (ID x)) _) eqn:Hsel.
  - rewrite reserve_not_selectable, andb_false_r. exact IH.
  - cbn [negb]. rewrite andb_true_r. destruct (pending_unreserved x); by rewrite IH.
Qed.

(** Property X1.  With unique keys, [GetPendingMessages] returns the first
    thousand rows that are pending and not reserved, in table order, and a
    second call returns the thousand after them: no row is handed out twice. *)
Theorem GetPendingMessages_twice now1 now2 d :
  NoDup (keys d) ->
  let pending := List.filter pending_unreserved (message_transactions d) in
  let first := GetPendingMessages now1 d in
  let second := GetPendingMessages now2 first.1 in
  first.2 = (map toDomainMapper (take 1000 pending), None)
  /\ second.2 = (map toDomainMapper (take 1000 (drop 1000 pending)), None).
Proof.
  intros Hnd. cbn zeta. split; [by rewrite GetPendingMessages_eq|].
  rewrite (GetPendingMessages_eq now2). cbn [snd].
  by rewrite GetPendingMessages_rest.
Qed.

Lemma enqueue_pending_run msg w :
  messaging.enqueue_pending msg w =
    (tt, if (length (messageQueue w) <? messageQueueCap)%nat
         then set_messageQueue (messageQueue w ++ [msg]) w
         else set_logs (logs w ++ [(Warn, "Message queue is full, skipping message")]) w).
Proof.
  unfold messaging.enqueue_pending, messaging.select_send.
  by destruct (_ <? _)%nat.
Qed.

Lemma for_range_enqueue_pending l :
  forall w,
    let w' := (for_range messaging.enqueue_pending l w).2 in
    db w' = db w
    /\ messageQueue w' =
         messageQueue w ++ take (messageQueueCap - length (messageQueue w)) l
    /\ webhook_posts w' = webhook_posts w.
Proof.
  induction l as [|x l IH]; intros w; cbn zeta.
  { cbn. by rewrite take_nil, app_nil_r. }
  cbn [for_range]. rewrite bind_run, enqueue_pending_run. cbn [fst snd].
  destruct (Nat.ltb_spec (length (messageQueue w)) messageQueueCap) as [Hlt|Hge].
  - destruct (IH (set_messageQueue (messageQueue w ++ [x]) w)) as (-> & -> & ->).
    cbn [db messageQueue webhook_posts set_messageQueue].
    split; [done|]. split; [|done].
    rewrite length_app. cbn [length]. rewrite <- app_assoc. f_equal.
    destruct (messageQueueCap - length (messageQueue w))%nat as [|k] eqn:Hk; [lia|].
    cbn [take app]. do 2 f_equal. lia.
  - destruct (IH (set_logs (logs w ++ [(Warn, "Message queue is full, skipping message")]) w))
      as (-> & -> & ->).
    cbn [db messageQueue webhook_posts set_logs].
    split; [done|]. split; [|done].
    assert ((messageQueueCap - length (messageQueue w))%nat = 0%nat) as -> by lia.
    by rewrite !take_0.
Qed.

Lemma checkPendingMessages_run now w :
  let w' := (messaging.checkPendingMessages now w).2 in
  db w' = (GetPendingMessages now (db w)).1
  /\ messageQueue w' =
       messageQueue w
       ++ take (messageQueueCap - length (messageQueue w)) (GetPendingMessages now (db w)).2.1
  /\ webhook_posts w' = webhook_posts w.
Proof.
  cbn zeta. unfold messaging.checkPendingMessages. rewrite bind_run, liftDB_run. cbn [fst snd].
  destruct (GetPendingMessages now (db w)) as [d' [l [e|]]] eqn:HG.
  { exfalso. rewrite GetPendingMessages_eq in HG. congruence. }
  cbn [fst snd]. destruct l as [|x l].
  { cbn. by rewrite take_nil, app_nil_r. }
  cbn [length Nat.eqb]. rewrite bind_run, log_run. cbn [fst snd].
  destruct (for_range_enqueue_pending (x :: l)
              (set_logs (logs (set_db d' w) ++ [(Info, "Found pending messages to process")])
                 (set_db d' w))) as (-> & -> & ->).
  done.
Qed.

(** Property X2.  Pass A reserves every row it selects and queues the
    selected rows only while the queue has room. *)
Theorem checkPendingMessages_effect now w :
  let sel := take 1000 (List.filter pending_unreserved (message_transactions (db w))) in
  let w' := exec (messaging.checkPendingMessages now) w in
  message_transactions (db w') =
    map (fun r => if existsb (Z.eqb (ID r)) (map ID sel) then reserve now r else r)
      (message_transactions (db w))
  /\ messageQueue w' =
       messageQueue w
       ++ take (messageQueueCap - length (messageQueue w)) (map toDomainMapper sel)
  /\ message_transaction_history (db w') = message_transaction_history (db w)
  /\ webhook_posts w' = webhook_posts w.
Proof.
  cbn zeta. unfold exec.
  destruct (checkPendingMessages_run now w) as (-> & -> & ->).
  rewrite GetPendingMessages_eq. cbn [fst snd]. by destruct (db w).
Qed.

Lemma submitted_selectable ext now request d :
  pending_unreserved (submitted ext now request d) = true.
Proof. reflexivity. Qed.

(** Property X3.  A submission that is still waiting when Pass A runs is
    queued a second time. *)
Theorem SendMessage_then_checkPendingMessages_queues_twice ext now now' request w :
  accepts now request (db w) = true ->
  let waiting := List.filter pending_unreserved (message_transactions (db w)) in
  (length (messageQueue w) + length waiting + 2 <= messageQueueCap)%nat ->
  let msg := toDomainMapper (submitted ext now request (db w)) in
  let w1 := exec (SendMessage ext now request) w in
  let w2 := exec (messaging.checkPendingMessages now') w1 in
  messageQueue w2 =
    messageQueue w ++ [msg] ++ map toDomainMapper waiting ++ [msg].
Proof.
  intros Hacc waiting Hroom msg. cbn zeta. unfold exec.
  destruct (SendMessage_accepts ext now request w Hacc) as (_ & Hdb & Hq & _).
  set (w1 := (SendMessage ext now request w).2) in *.
  assert ((length (messageQueue w) <? messageQueueCap)%nat = true) as Hlt
    by (apply Nat.ltb_lt; lia).
  rewrite Hlt in Hq.
  destruct (checkPendingMessages_run now' w1) as (_ & Hq2 & _).
  rewrite GetPendingMessages_eq in Hq2. cbn [fst snd] in Hq2. rewrite Hq2, Hq, Hdb.
  cbn [message_transactions set_message_transactions].
  rewrite List.filter_app. cbn [List.filter]. rewrite submitted_selectable.
  fold waiting. unfold messageQueueCap in *.
  rewrite (take_ge (waiting ++ _) 1000) by (rewrite length_app; cbn [length]; lia).
  rewrite map_app. cbn [map]. fold msg.
  rewrite take_ge by (rewrite !length_app, length_map; cbn [length]; lia).
  by rewrite <- !app_assoc.
Qed.
(** ** What every operation is made of *)

Lemma changes_once w w' : change w w' -> changes w w'.
Proof. intros H. eapply changes_step; [apply changes_refl|exact H]. Qed.

Lemma changes_trans w1 w2 w3 : changes w1 w2 -> changes w2 w3 -> changes w1 w3.
Proof.
  intros H12 H23. induction H23 as [|w2 w3 w4 _ IH Hc]; [done|].
  eapply changes_step; [by apply IH|exact Hc].
Qed.

Lemma keys_update_row id now s e rq rs nra d :
  keys (update_row id (settle now s e rq rs nra) d) = keys d.
Proof. unfold keys. by apply update_row_ids. Qed.

Lemma keys_archive now id d : keys (archive now id d) = keys d.
Proof. unfold keys. by rewrite archive_table. Qed.

Lemma keys_GetPendingMessages now d : keys (GetPendingMessages now d).1 = keys d.
Proof.
  rewrite GetPendingMessages_eq. unfold keys.
  cbn [fst message_transactions set_message_transactions].
  rewrite map_map. apply map_ext. intros r. by destruct (existsb _ _).
Qed.

Lemma change_keys w w' :
  change w w' ->
  keys (db w') = keys (db w) \/ exists r, ~ In (ID r) (keys (db w)) /\ keys (db w') = keys (db w) ++ [ID r].
Proof.
  intros [Hdb _|r Hfresh _ _ Hdb _|now msg s e rq rs nra _ _ Hdb|now id _ Hdb _|now Hdb _];
    rewrite Hdb.
  - by left.
  - right. exists r. split; [done|]. unfold keys. cbn. by rewrite map_app.
  - left. by rewrite keys_archive, keys_update_row.
  - left. by rewrite keys_archive, keys_update_row.
  - left. apply keys_GetPendingMessages.
Qed.

Lemma change_unique_keys w w' :
  change w w' -> NoDup (keys (db w)) -> NoDup (keys (db w')).
Proof.
  intros Hc Hnd. destruct (change_keys w w' Hc) as [->|(r & Hfresh & ->)]; [done|].
  apply NoDup_app. split; [done|]. split.
  - intros x Hx Hx'. apply list_elem_of_In in Hx. apply list_elem_of_singleton in Hx'.
    by subst.
  - apply NoDup_singleton.
Qed.

Lemma changes_unique_keys w w' :
  changes w w' -> NoDup (keys (db w)) -> NoDup (keys (db w')).
Proof.
  induction 1 as [|w1 w2 w3 _ IH Hc]; [done|].
  intros Hnd. eapply change_unique_keys; [exact Hc|by apply IH].
Qed.

(** An invariant of the elementary changes, in stores with unique keys, is
    an invariant of their sequences. *)
Lemma changes_invariant (P : World -> Prop) :
  (forall w w', NoDup (keys (db w)) -> P w -> change w w' -> P w') ->
  forall w w', changes w w' -> NoDup (keys (db w)) -> P w -> P w'.
Proof.
  intros HP w w' H. induction H as [|w1 w2 w3 H12 IH Hc]; [done|].
  intros Hnd Hw. eapply HP; [|by apply IH|exact Hc].
  by eapply changes_unique_keys.
Qed.
(** ** The operations as sequences of elementary changes *)

Lemma for_range_changes {A : Type} (f : A -> M unit) (l : list A) :
  (forall x w, NoDup (keys (db w)) -> changes w (f x w).2) ->
  forall w, NoDup (keys (db w)) -> changes w (for_range f l w).2.
Proof.
  intros Hf. induction l as [|x l IH]; intros w Hnd; [apply changes_refl|].
  cbn [for_range]. rewrite bind_run.
  eapply changes_trans; [by apply Hf|]. apply IH.
  eapply changes_unique_keys; [by apply Hf|done].
Qed.

Lemma inserted_fresh mt d : ~ In (ID (inserted mt d)) (keys d).
Proof. apply next_id_not_in. Qed.

Lemma SendMessage_changes ext now request w :
  changes w (SendMessage ext now request w).2.
Proof.
  apply changes_once.
  destruct (accepts now request (db w)) eqn:Hacc.
  - destruct (SendMessage_accepts ext now request w Hacc) as (_ & Hdb & Hq & _).
    eapply (change_create _ _ (submitted ext now request (db w)));
      [apply inserted_fresh|reflexivity|reflexivity|exact Hdb|exact Hq].
  - destruct (SendMessage_rejects ext now request w Hacc) as (_ & Hdb & Hq).
    by apply change_nothing.
Qed.

Lemma GetMessageStatus_run request w :
  exists l,
    GetMessageStatus request w =
      (match GetByID (sreq_ID request) (db w) with
       | (_, Some e) => (None, Some e)
       | (messageTransaction, None) =>
           (Some {| sresp_ID := ID messageTransaction;
                    sresp_Status := Status messageTransaction;
                    sresp_Message := Message messageTransaction;
                    sresp_Recipients := Recipients messageTransaction;
                    sresp_ErrorMessage := ErrorMessage messageTransaction;
                    sresp_RetryCount := RetryCount messageTransaction;
                    sresp_CreatedAt := CreatedAt messageTransaction;
                    sresp_UpdatedAt := UpdatedAt messageTransaction |}, None)
       end,
       set_logs (logs w ++ l) w).
Proof.
  unfold GetMessageStatus. run.
  destruct (GetByID _ _) as [mt [e|]]; run; by eexists.
Qed.

Lemma GetMessageStatus_changes request w :
  changes w (GetMessageStatus request w).2.
Proof.
  destruct (GetMessageStatus_run request w) as [l ->]. apply changes_once.
  by apply change_nothing.
Qed.

Lemma retry_changes now failedMsg w :
  changes w (retry now failedMsg w).2.
Proof.
  apply changes_once.
  pose proof (retry_effect_of now failedMsg w) as H. unfold retry_effect in H.
  destruct (next_in_chain _ _ _) as [nb|]; destruct H as [Hdb Hq].
  - eapply (change_create _ _ (inserted (retry_transaction now failedMsg nb) (db w)));
      [apply inserted_fresh|reflexivity|reflexivity|exact Hdb|exact Hq].
  - by apply change_nothing.
Qed.

Lemma RetryFailedMessages_changes now w :
  NoDup (keys (db w)) -> changes w (RetryFailedMessages now w).2.
Proof.
  intros Hnd. unfold RetryFailedMessages. run.
  destruct (GetFailedMessagesForRetry now (db w)) as [failedMessages [e|]].
  { run. apply changes_once. by apply change_nothing. }
  cbn [fst snd]. destruct (length failedMessages =? 0)%nat.
  - run. apply changes_once. by apply change_nothing.
  - run. eapply changes_trans; [|apply for_range_changes].
    + apply changes_once. by apply change_nothing.
    + intros x w' _. apply retry_changes.
    + done.
Qed.

Lemma checkPendingMessages_changes now w :
  changes w (messaging.checkPendingMessages now w).2.
Proof.
  apply changes_once.
  destruct (checkPendingMessages_run now w) as (Hdb & Hq & _).
  by apply (change_reserve _ _ now).
Qed.

Lemma settled_settle ext now o :
  exists s e rq rs nra,
    settled ext now o = settle now s e rq rs nra
    /\ (s = "success" \/ (s = "failed" /\ nra <> None)).
Proof.
  destruct o; cbn [settled]; do 5 eexists; (split; [reflexivity|]);
    first [by left | by right].
Qed.

Lemma worker_changes ext now w : changes w (messaging.worker ext now w).2.
Proof.
  apply changes_once. unfold messaging.worker.
  destruct (messageQueue w) as [|msg q] eqn:Hq; [by apply change_nothing|].
  destruct (processMessage_effect ext now msg (set_messageQueue q w)) as (Hdb & Hq' & _).
  destruct (settled_settle ext now (outcome ext (db (set_messageQueue q w)) msg))
    as (s & e & rq & rs & nra & Hs & Hc).
  rewrite Hs in Hdb.
  eapply (change_process _ _ now msg s e rq rs nra); [|exact Hc|exact Hdb].
  rewrite Hq'. by rewrite Hq.
Qed.
Lemma fallback_changes now msg w :
  (exists r, In r (message_transactions (db w)) /\ ID r = ID msg /\ Status r = "success") ->
  changes w (messaging.fallback now msg w).2.
Proof.
  intros (r & Hin & Hid & Hs).
  destruct (fallback_effect now msg w) as [H _].
  destruct (alternative (db w) msg) as [np|]; destruct H as [Hdb Hq].
  2:{ apply changes_once. by apply change_nothing. }
  set (mt := inserted (messaging.fallback_transaction now msg np) (db w)) in *.
  set (wm := set_messageQueue (enqueued (toDomainMapper mt) (messageQueue w))
               (set_db (set_message_transactions (message_transactions (db w) ++ [mt]) (db w))
                  w)).
  eapply changes_step; [apply changes_once|].
  - apply (change_create w wm mt);
      [apply inserted_fresh|reflexivity|reflexivity|reflexivity|reflexivity].
  - apply (change_fall_back wm _ now (ID msg)).
    + exists r. split; [|done]. cbn. apply in_or_app. by left.
    + exact Hdb.
    + exact Hq.
Qed.

Lemma fallen_back_keeps now msg np d r :
  In r (message_transactions d) -> ID r <> ID msg ->
  In r (message_transactions (fallen_back now msg np d)).
Proof.
  intros Hin Hne. rewrite fallen_back_table. apply in_map_iff. exists r.
  split.
  - apply Z.eqb_neq in Hne. by rewrite Hne.
  - apply in_or_app. by left.
Qed.

Lemma for_range_fallback_changes now l :
  NoDup (map ID l) ->
  forall w,
    (forall m, In m l ->
       exists r, In r (message_transactions (db w)) /\ ID r = ID m /\ Status r = "success") ->
    changes w (for_range (messaging.fallback now) l w).2.
Proof.
  induction l as [|m l IH]; intros Hnd w Hl; [apply changes_refl|].
  cbn [for_range]. rewrite bind_run.
  cbn [map] in Hnd. inversion Hnd as [|? ? Hm Hnd']; subst.
  eapply changes_trans; [apply fallback_changes; apply Hl; by left|].
  apply IH; [done|]. intros m' Hm'.
  destruct (Hl m' (or_intror Hm')) as (r & Hin & Hid & Hs).
  exists r. split; [|done].
  assert (ID r <> ID m) as Hne.
  { rewrite Hid. intros Heq. apply Hm. rewrite <- Heq.
    apply list_elem_of_In. by apply in_map. }
  destruct (fallback_effect now m w) as [H _].
  destruct (alternative (db w) m) as [np|]; destruct H as [-> _]; [|done].
  by apply fallen_back_keeps.
Qed.

Lemma checkUndeliveredMessages_changes now w :
  NoDup (keys (db w)) -> changes w (messaging.checkUndeliveredMessages now w).2.
Proof.
  intros Hnd. unfold messaging.checkUndeliveredMessages. run.
  pose proof (GetUndeliveredMessages_iff now (db w)) as Hiff.
  assert (Hkeys : NoDup (map ID (GetUndeliveredMessages now (db w)).1)).
  { unfold GetUndeliveredMessages, messageTransactionArrayToDomainMapper. cbn [fst].
    rewrite map_map. cbn [toDomainMapper ID].
    by apply (NoDup_keys_filter _ (message_transactions (db w))). }
  destruct (GetUndeliveredMessages now (db w)) as [l [e|]].
  { run. apply changes_once. by apply change_nothing. }
  cbn [fst snd] in *. destruct (length l =? 0)%nat.
  { run. apply changes_refl. }
  run.
  match goal with
  | |- changes w (for_range _ _ ?w1).2 => apply (changes_trans w w1)
  end; [apply changes_once; by apply change_nothing|].
  apply for_range_fallback_changes; [done|]. cbn [db set_logs].
  intros m Hm. apply Hiff in Hm as (r & Hin & -> & Hs & _). by exists r.
Qed.

(** Every operation is a sequence of elementary changes. *)
Lemma step_changes ext w o :
  NoDup (keys (db w)) -> changes w (step ext w o).
Proof.
  intros Hnd. destruct o; cbn [step]; unfold exec.
  - apply SendMessage_changes.
  - apply GetMessageStatus_changes.
  - by apply RetryFailedMessages_changes.
  - apply checkPendingMessages_changes.
  - by apply checkUndeliveredMessages_changes.
  - apply worker_changes.
Qed.

Lemma trace_changes ext ops :
  forall w, NoDup (keys (db w)) -> changes w (trace ext w ops).
Proof.
  induction ops as [|o ops IH]; intros w Hnd; [apply changes_refl|].
  cbn [trace foldl]. eapply changes_trans; [by apply step_changes|].
  apply IH. eapply changes_unique_keys; [by apply step_changes|done].
Qed.

(** An invariant of the elementary changes is an invariant of every
    sequence of operations. *)
Lemma trace_invariant ext (P : World -> Prop) :
  (forall w w', NoDup (keys (db w)) -> P w -> change w w' -> P w') ->
  forall ops w, NoDup (keys (db w)) -> P w -> P (trace ext w ops).
Proof.
  intros HP ops w Hnd Hw.
  eapply (changes_invariant P HP); [by apply trace_changes|done|done].
Qed.
(** ** Invariants of every sequence of operations *)

Lemma settle_archive_rows now id upd d :
  message_transactions (archive now id (update_row id upd d)) =
    map (fun r => if ID r =? id then upd r else r) (message_transactions d).
Proof. by rewrite archive_table. Qed.

Lemma settle_archive_history now id upd d :
  (forall r, ID (upd r) = ID r) ->
  message_transaction_history (archive now id (update_row id upd d)) =
    message_transaction_history d
    ++ match List.find (fun r => ID r =? id) (message_transactions d) with
       | Some r => [archived now d (upd r)]
       | None => []
       end.
Proof.
  intros Hid. unfold archive.
  change (message_transactions (update_row id upd d))
    with (map (fun r => if ID r =? id then upd r else r) (message_transactions d)).
  rewrite find_update_row by done.
  destruct (List.find _ (message_transactions d)) as [r|]; cbn [fmap option_fmap option_map].
  - reflexivity.
  - by rewrite app_nil_r.
Qed.

Lemma settle_archive_registry now id upd d :
  users (archive now id (update_row id upd d)) = users d
  /\ providers (archive now id (update_row id upd d)) = providers d
  /\ user_providers (archive now id (update_row id upd d)) = user_providers d.
Proof.
  destruct (archive_registry now id (update_row id upd d)) as (-> & -> & ->). done.
Qed.

Lemma GetPendingMessages_rows now d :
  message_transactions (GetPendingMessages now d).1 =
    map (fun r => if existsb (Z.eqb (ID r))
                       (map ID (take 1000 (List.filter pending_unreserved
                                             (message_transactions d))))
                  then reserve now r else r)
      (message_transactions d).
Proof. by rewrite GetPendingMessages_eq. Qed.

Lemma GetPendingMessages_others now d :
  message_transaction_history (GetPendingMessages now d).1 = message_transaction_history d
  /\ users (GetPendingMessages now d).1 = users d
  /\ providers (GetPendingMessages now d).1 = providers d
  /\ user_providers (GetPendingMessages now d).1 = user_providers d.
Proof. by rewrite GetPendingMessages_eq. Qed.

(** The registry of users, providers and bindings is read only. *)
Lemma change_registry w w' :
  change w w' ->
  users (db w') = users (db w) /\ providers (db w') = providers (db w)
  /\ user_providers (db w') = user_providers (db w).
Proof.
  intros [Hdb _|r _ _ _ Hdb _|now msg s e rq rs nra _ _ Hdb|now id _ Hdb _|now Hdb _];
    rewrite Hdb.
  - done.
  - done.
  - apply settle_archive_registry.
  - apply settle_archive_registry.
  - by destruct (GetPendingMessages_others now (db w)) as (_ & -> & -> & ->).
Qed.

Lemma registry_read_only ext ops w :
  NoDup (keys (db w)) ->
  users (db (trace ext w ops)) = users (db w)
  /\ providers (db (trace ext w ops)) = providers (db w)
  /\ user_providers (db (trace ext w ops)) = user_providers (db w).
Proof.
  intros Hnd.
  apply (trace_invariant ext
           (fun w' => users (db w') = users (db w) /\ providers (db w') = providers (db w)
                      /\ user_providers (db w') = user_providers (db w))); [|done|done].
  intros w1 w2 _ (Hu & Hp & Hb) Hc.
  destruct (change_registry w1 w2 Hc) as (-> & -> & ->). done.
Qed.

Lemma identity_settle now s e rq rs nra r :
  identity (settle now s e rq rs nra r) = identity r.
Proof. reflexivity. Qed.

Lemma change_identity w w' :
  change w w' ->
  exists created,
    map identity (message_transactions (db w')) =
      map identity (message_transactions (db w)) ++ created.
Proof.
  intros [Hdb _|r _ _ _ Hdb _|now msg s e rq rs nra _ _ Hdb|now id _ Hdb _|now Hdb _];
    rewrite Hdb.
  - exists []. by rewrite app_nil_r.
  - exists [identity r]. cbn. by rewrite map_app.
  - exists []. rewrite app_nil_r, settle_archive_rows, map_map. apply map_ext.
    intros r. by destruct (ID r =? ID msg).
  - exists []. rewrite app_nil_r, settle_archive_rows, map_map. apply map_ext.
    intros r. by destruct (ID r =? id).
  - exists []. rewrite app_nil_r, GetPendingMessages_rows, map_map. apply map_ext.
    intros r. by destruct (existsb _ _).
Qed.

Lemma identities_are_kept ext ops w :
  NoDup (keys (db w)) ->
  exists created,
    map identity (message_transactions (db (trace ext w ops))) =
      map identity (message_transactions (db w)) ++ created.
Proof.
  intros Hnd.
  apply (trace_invariant ext
           (fun w' => exists created,
                map identity (message_transactions (db w')) =
                  map identity (message_transactions (db w)) ++ created)); [|done|].
  - intros w1 w2 _ (c1 & H1) Hc. destruct (change_identity w1 w2 Hc) as (c2 & H2).
    exists (c1 ++ c2). by rewrite H2, H1, app_assoc.
  - exists []. by rewrite app_nil_r.
Qed.

(** Property X4.  In every sequence of operations on a store with unique
    keys, a transaction is never deleted from the active table, and its key,
    user, provider, recipients, text, retry count and creation time are
    never rewritten. *)
Theorem trace_transactions_are_kept ext ops w :
  NoDup (keys (db w)) ->
  exists created,
    map identity (message_transactions (db (trace ext w ops))) =
      map identity (message_transactions (db w)) ++ created.
Proof. apply identities_are_kept. Qed.

(** Property X5.  No sequence of operations writes to the registry of users,
    providers and bindings. *)
Theorem trace_registry_read_only ext ops w :
  NoDup (keys (db w)) ->
  users (db (trace ext w ops)) = users (db w)
  /\ providers (db (trace ext w ops)) = providers (db w)
  /\ user_providers (db (trace ext w ops)) = user_providers (db w).
Proof. apply registry_read_only. Qed.
Lemma change_history w w' :
  change w w' ->
  message_transaction_history (db w') = message_transaction_history (db w)
  \/ exists h,
       message_transaction_history (db w') = message_transaction_history (db w) ++ [h]
       /\ h_ID h = next_id (history_keys (db w))
       /\ terminal (h_Status h)
       /\ (forall r, In r (message_transactions (db w')) -> ID r = h_MessageID h ->
             Status r = h_Status h).
Proof.
  assert (Hgen : forall now id s e rq rs nra d,
            terminal s ->
            let d' := archive now id (update_row id (settle now s e rq rs nra) d) in
            message_transaction_history d' = message_transaction_history d
            \/ exists h,
                 message_transaction_history d' = message_transaction_history d ++ [h]
                 /\ h_ID h = next_id (history_keys d)
                 /\ terminal (h_Status h)
                 /\ (forall r, In r (message_transactions d') -> ID r = h_MessageID h ->
                       Status r = h_Status h)).
  { intros now id s e rq rs nra d Hs. cbn zeta.
    rewrite settle_archive_history by done. rewrite settle_archive_rows.
    destruct (List.find _ _) as [r0|] eqn:Hf; [|left; by rewrite app_nil_r].
    right. eexists. split; [reflexivity|].
    apply find_ID_eq in Hf. cbn [archived h_ID h_Status h_MessageID settle ID Status].
    split; [done|]. split; [done|].
    intros r Hin Hid. apply in_map_iff in Hin as (r1 & <- & _).
    destruct (Z.eqb_spec (ID r1) id) as [_|Hne]; [done|].
    exfalso. apply Hne. exact (eq_trans Hid Hf). }
  intros [Hdb _|r _ _ _ Hdb _|now msg s e rq rs nra _ Hs Hdb|now id _ Hdb _|now Hdb _];
    rewrite Hdb.
  - by left.
  - by left.
  - destruct (Hgen now (ID msg) s e rq rs nra (db w)) as [H|(h & H)].
    + unfold terminal. destruct Hs as [->|[-> _]]; tauto.
    + by left.
    + right. exists h. exact H.
  - destruct (Hgen now id "fallback_triggered" fallback_errorMessage None None None (db w))
      as [H|(h & H)].
    + unfold terminal. tauto.
    + by left.
    + right. exists h. exact H.
  - left. by destruct (GetPendingMessages_others now (db w)) as (-> & _).
Qed.
(** Property X6.  Every sequence of operations keeps the primary keys
    unique, in the active table and in the history. *)
Theorem trace_keys_stay_unique ext ops w :
  NoDup (keys (db w)) -> NoDup (history_keys (db w)) ->
  NoDup (keys (db (trace ext w ops)))
  /\ NoDup (history_keys (db (trace ext w ops))).
Proof.
  intros Hnd Hh. split.
  - eapply changes_unique_keys; [by apply trace_changes|done].
  - apply (trace_invariant ext (fun w' => NoDup (history_keys (db w')))); [|done|done].
    intros w1 w2 _ H1 Hc. unfold history_keys in *.
    destruct (change_history w1 w2 Hc) as [->|(h & -> & Hid & _)]; [done|].
    rewrite map_app. cbn [map]. apply NoDup_app. split; [done|]. split.
    + intros x Hx Hx'. apply list_elem_of_singleton in Hx'. subst x.
      apply list_elem_of_In in Hx. rewrite Hid in Hx. by apply next_id_not_in in Hx.
    + apply NoDup_singleton.
Qed.

(** Property X7.  In every sequence of operations the history is a ledger:
    rows are only ever appended to it, and every row appended records a
    settled status (success, failed or fallback_triggered). *)
Theorem trace_history_is_a_ledger ext ops w :
  NoDup (keys (db w)) ->
  exists appended,
    message_transaction_history (db (trace ext w ops)) =
      message_transaction_history (db w) ++ appended
    /\ Forall (fun h => terminal (h_Status h)) appended.
Proof.
  intros Hnd.
  apply (trace_invariant ext
           (fun w' => exists appended,
                message_transaction_history (db w') =
                  message_transaction_history (db w) ++ appended
                /\ Forall (fun h => terminal (h_Status h)) appended)); [|done|].
  - intros w1 w2 _ (a & H1 & Ha) Hc.
    destruct (change_history w1 w2 Hc) as [->|(h & -> & _ & Hs & _)]; [by exists a|].
    exists (a ++ [h]). rewrite H1, app_assoc. split; [done|].
    apply Forall_app. split; [done|]. by constructor.
  - exists []. by rewrite app_nil_r.
Qed.

(** Property X8.  In every sequence of operations, every row in a settled
    status has a history row that records it with that status. *)
Theorem trace_settled_rows_are_archived ext ops w :
  NoDup (keys (db w)) ->
  (forall r, In r (message_transactions (db w)) -> terminal (Status r) ->
     exists h, In h (message_transaction_history (db w))
               /\ h_MessageID h = ID r /\ h_Status h = Status r) ->
  forall r, In r (message_transactions (db (trace ext w ops))) -> terminal (Status r) ->
    exists h, In h (message_transaction_history (db (trace ext w ops)))
              /\ h_MessageID h = ID r /\ h_Status h = Status r.
Proof.
  intros Hnd H0.
  apply (trace_invariant ext
           (fun w' => forall r, In r (message_transactions (db w')) -> terminal (Status r) ->
              exists h, In h (message_transaction_history (db w'))
                        /\ h_MessageID h = ID r /\ h_Status h = Status r)); [|done|done].
  clear. intros w w' _ HP Hc.
  assert (Hsettle : forall now id s e rq rs nra,
            db w' = archive now id (update_row id (settle now s e rq rs nra) (db w)) ->
            forall r, In r (message_transactions (db w')) -> terminal (Status r) ->
              exists h, In h (message_transaction_history (db w'))
                        /\ h_MessageID h = ID r /\ h_Status h = Status r).
  { intros now id s e rq rs nra Hdb r Hin Ht. rewrite Hdb in *.
    rewrite settle_archive_history by done. rewrite settle_archive_rows in Hin.
    apply in_map_iff in Hin as (r0 & <- & Hin0).
    destruct (Z.eqb_spec (ID r0) id) as [Hid|Hne].
    - assert (In id (map ID (message_transactions (db w)))) as Hk
        by (rewrite <- Hid; by apply in_map).
      destruct (find_ID_Some _ _ Hk) as (r1 & -> & Hid1 & _).
      eexists. split; [apply in_or_app; right; by left|].
      cbn. by rewrite Hid1, Hid.
    - destruct (HP r0 Hin0 Ht) as (h & Hh & Hm & Hs).
      exists h. split; [|done]. apply in_or_app. by left. }
  destruct Hc as [Hdb _|r0 _ Hs _ Hdb _|now msg s e rq rs nra _ _ Hdb|now id _ Hdb _|now Hdb _].
  - by rewrite Hdb.
  - rewrite Hdb. cbn. intros r Hin Ht. apply in_app_iff in Hin as [Hin|[<-|[]]].
    + by apply HP.
    + exfalso. rewrite Hs in Ht. by destruct Ht as [?|[?|?]].
  - by eapply Hsettle.
  - by eapply Hsettle.
  - rewrite Hdb. destruct (GetPendingMessages_others now (db w)) as (-> & _).
    rewrite GetPendingMessages_rows. intros r Hin Ht.
    apply in_map_iff in Hin as (r0 & <- & Hin0).
    assert (Status (if existsb (Z.eqb (ID r0))
                         (map ID (take 1000 (List.filter pending_unreserved
                                               (message_transactions (db w)))))
                    then reserve now r0 else r0) = Status r0
            /\ ID (if existsb (Z.eqb (ID r0))
                         (map ID (take 1000 (List.filter pending_unreserved
                                               (message_transactions (db w)))))
                   then reserve now r0 else r0) = ID r0) as [Hs Hi]
      by (by destruct (existsb _ _)).
    rewrite Hs, Hi in *. by apply HP.
Qed.

(** Property X9.  In every sequence of operations the queue never holds more
    than its capacity. *)
Theorem trace_queue_is_bounded ext ops w :
  NoDup (keys (db w)) ->
  (length (messageQueue w) <= messageQueueCap)%nat ->
  (length (messageQueue (trace ext w ops)) <= messageQueueCap)%nat.
Proof.
  intros Hnd Hq.
  apply (trace_invariant ext (fun w' => (length (messageQueue w') <= messageQueueCap)%nat));
    [|done|done].
  clear. intros w w' _ HP
    [_ Hq|r _ _ _ _ Hq|now msg s e rq rs nra Hq _ _|now id _ _ Hq|now _ Hq].
  - by rewrite Hq.
  - rewrite Hq. unfold enqueued.
    destruct (Nat.ltb_spec (length (messageQueue w)) messageQueueCap); [|done].
    rewrite length_app. cbn [length]. lia.
  - rewrite Hq in HP. cbn [length] in HP. lia.
  - by rewrite Hq.
  - rewrite Hq, length_app, length_take. lia.
Qed.
Lemma NoDup_keys_inj (l : list MessageTransaction) (a b : MessageTransaction) :
  NoDup (map ID l) -> In a l -> In b l -> ID a = ID b -> a = b.
Proof.
  induction l as [|x l IH]; [done|]. cbn [map]. intros Hnd Ha Hb Heq.
  inversion Hnd as [|? ? Hx Hnd']; subst.
  destruct Ha as [->|Ha], Hb as [->|Hb]; [done| | |by apply IH].
  - exfalso. apply Hx. rewrite Heq. apply list_elem_of_In. by apply in_map.
  - exfalso. apply Hx. rewrite <- Heq. apply list_elem_of_In. by apply in_map.
Qed.

(** With unique keys, the rows Pass A reserves are rows it has selected. *)
Lemma reserved_was_selectable (n : nat) (l : list MessageTransaction) (r : MessageTransaction) :
  NoDup (map ID l) -> In r l ->
  existsb (Z.eqb (ID r)) (map ID (take n (List.filter pending_unreserved l))) = true ->
  pending_unreserved r = true.
Proof.
  intros Hnd Hin Hex. apply existsb_eqb_In in Hex.
  apply in_map_iff in Hex as (r' & Hid & Hin').
  apply list_elem_of_In, elem_of_take in Hin' as (i & Hi & _).
  apply list_elem_of_lookup_2, list_elem_of_In, filter_In in Hi as [Hin' Hp].
  by rewrite (NoDup_keys_inj l r r' Hnd Hin Hin' (eq_sym Hid)).
Qed.

Lemma pending_unreserved_iff r :
  pending_unreserved r = true <-> Status r = "pending" /\ Processing r = false.
Proof.
  unfold pending_unreserved. rewrite andb_true_iff, String.eqb_eq.
  destruct (Processing r); cbn; intuition congruence.
Qed.

(** Property X10.  In every sequence of operations a failed row carries the
    time of its next retry, and only pending rows are reserved. *)
Theorem trace_rows_stay_consistent ext ops w :
  NoDup (keys (db w)) ->
  (forall r, In r (message_transactions (db w)) ->
     (Status r = "failed" -> NextRetryAt r <> None)
     /\ (Status r <> "pending" -> Processing r = false)) ->
  forall r, In r (message_transactions (db (trace ext w ops))) ->
    (Status r = "failed" -> NextRetryAt r <> None)
    /\ (Status r <> "pending" -> Processing r = false).
Proof.
  intros Hnd H0.
  apply (trace_invariant ext
           (fun w' => forall r, In r (message_transactions (db w')) ->
              (Status r = "failed" -> NextRetryAt r <> None)
              /\ (Status r <> "pending" -> Processing r = false))); [|done|done].
  clear. intros w w' Hnd HP Hc.
  assert (Hsettle : forall now id s e rq rs nra,
            (s = "failed" -> nra <> None) ->
            db w' = archive now id (update_row id (settle now s e rq rs nra) (db w)) ->
            forall r, In r (message_transactions (db w')) ->
              (Status r = "failed" -> NextRetryAt r <> None)
              /\ (Status r <> "pending" -> Processing r = false)).
  { intros now id s e rq rs nra Hs Hdb r Hin. rewrite Hdb, settle_archive_rows in Hin.
    apply in_map_iff in Hin as (r0 & <- & Hin0).
    destruct (ID r0 =? id); [|by apply HP].
    cbn [settle Status NextRetryAt Processing]. split; [|done].
    intros Hf. specialize (Hs Hf). by destruct nra. }
  destruct Hc as [Hdb _|r0 _ Hs Hp Hdb _|now msg s e rq rs nra _ Hs Hdb|now id _ Hdb _|now Hdb _].
  - by rewrite Hdb.
  - rewrite Hdb. cbn. intros r Hin. apply in_app_iff in Hin as [Hin|[<-|[]]].
    + by apply HP.
    + rewrite Hs. split; [discriminate|done].
  - eapply Hsettle; [|exact Hdb]. by destruct Hs as [->|[_ ?]].
  - eapply Hsettle; [|exact Hdb]. discriminate.
  - rewrite Hdb, GetPendingMessages_rows. intros r Hin.
    apply in_map_iff in Hin as (r0 & <- & Hin0).
    destruct (existsb _ _) eqn:Hsel; [|by apply HP].
    apply (reserved_was_selectable 1000 _ r0 Hnd Hin0), pending_unreserved_iff in Hsel as [Hs _].
    cbn [reserve Status NextRetryAt Processing]. rewrite Hs. split; [discriminate|done].
Qed.

Lemma reservation_without_message ext ops w id :
  NoDup (keys (db w)) ->
  In id (keys (db w)) ->
  (forall r, In r (message_transactions (db w)) -> ID r = id ->
     Status r = "pending" /\ Processing r = true) ->
  ~ In id (map ID (messageQueue w)) ->
  In id (keys (db (trace ext w ops)))
  /\ (forall r, In r (message_transactions (db (trace ext w ops))) -> ID r = id ->
        Status r = "pending" /\ Processing r = true)
  /\ ~ In id (map ID (messageQueue (trace ext w ops))).
Proof.
  intros Hnd Hk Hr Hq.
  apply (trace_invariant ext
           (fun w' => In id (keys (db w'))
              /\ (forall r, In r (message_transactions (db w')) -> ID r = id ->
                    Status r = "pending" /\ Processing r = true)
              /\ ~ In id (map ID (messageQueue w')))); [|done|done].
  clear. intros w w' _ (Hk & Hr & Hq) Hc.
  assert (Hsettle : forall now id' upd,
            (forall r, ID (upd r) = ID r) ->
            id' <> id ->
            db w' = archive now id' (update_row id' upd (db w)) ->
            In id (keys (db w'))
            /\ forall r, In r (message_transactions (db w')) -> ID r = id ->
                 Status r = "pending" /\ Processing r = true).
  { intros now id' upd Hupd Hne Hdb. rewrite Hdb. split.
    { unfold keys in *. by rewrite archive_table, update_row_ids. }
    intros r Hin Hid. rewrite settle_archive_rows in Hin.
    apply in_map_iff in Hin as (r0 & <- & Hin0).
    destruct (Z.eqb_spec (ID r0) id') as [Heq|_]; [|by apply Hr].
    exfalso. apply Hne. by rewrite <- Heq, <- Hid, Hupd. }
  destruct Hc as [Hdb Hq'|r0 Hfresh Hs Hp Hdb Hq'|now msg s e rq rs nra Hq' _ Hdb
                 |now id' (r0 & Hin0 & Hid0 & Hs0) Hdb Hq'|now Hdb Hq'].
  - by rewrite Hdb, Hq'.
  - assert (ID r0 <> id) as Hne by (intros Heq; apply Hfresh; by rewrite Heq).
    rewrite Hdb, Hq'. unfold keys. cbn [message_transactions set_message_transactions].
    rewrite map_app, in_app_iff. split; [by left|]. split.
    + intros r Hin Hid. apply in_app_iff in Hin as [Hin|[<-|[]]]; [by apply Hr|done].
    + unfold enqueued. destruct (_ <? _)%nat; [|done].
      rewrite map_app, in_app_iff. cbn. tauto.
  - rewrite Hq' in Hq. cbn [map In] in Hq.
    destruct (Hsettle now (ID msg) (settle now s e rq rs nra)) as [Hk' Hr'];
      [done|tauto|done|].
    split; [done|]. split; [done|tauto].
  - assert (id' <> id) as Hne.
    { intros Heq. rewrite Heq in Hid0. destruct (Hr r0 Hin0 Hid0) as [Hs _]. congruence. }
    destruct (Hsettle now id'
                (settle now "fallback_triggered" fallback_errorMessage None None None))
      as [Hk' Hr']; [done|done|done|].
    rewrite Hq'. done.
  - rewrite Hdb, Hq'. rewrite keys_GetPendingMessages. split; [done|]. split.
    + rewrite GetPendingMessages_rows. intros r Hin Hid.
      apply in_map_iff in Hin as (r1 & <- & Hin1).
      destruct (existsb _ _).
      * cbn [reserve ID Status Processing] in *. by destruct (Hr r1 Hin1 Hid) as [-> _].
      * by apply Hr.
    + rewrite map_app, in_app_iff. intros [Hin|Hin]; [done|].
      apply in_map_iff in Hin as (m & Hid & Hin).
      apply list_elem_of_In, elem_of_take in Hin as (i & Hi & _).
      apply list_elem_of_lookup_2, list_elem_of_In in Hi.
      rewrite GetPendingMessages_eq in Hi. cbn [fst snd] in Hi.
      apply in_map_iff in Hi as (r1 & <- & Hin1).
      apply list_elem_of_In, elem_of_take in Hin1 as (j & Hj & _).
      apply list_elem_of_lookup_2, list_elem_of_In, filter_In in Hj as [Hin1 Hp1].
      apply pending_unreserved_iff in Hp1 as [_ Hp1].
      destruct (Hr r1 Hin1 Hid) as [_ Hp]. congruence.
Qed.

(** Property X11.  A row that is reserved while its message is not in the
    queue stays pending and reserved in every sequence of operations: no
    worker settles it, Pass A does not select it again, and no operation
    releases it. *)
Theorem trace_reservation_without_message_is_final ext ops w id :
  NoDup (keys (db w)) ->
  In id (keys (db w)) ->
  (forall r, In r (message_transactions (db w)) -> ID r = id ->
     Status r = "pending" /\ Processing r = true) ->
  ~ In id (map ID (messageQueue w)) ->
  let w' := trace ext w ops in
  (forall r, In r (message_transactions (db w')) -> ID r = id ->
     Status r = "pending" /\ Processing r = true)
  /\ ~ In id (map ID (messageQueue w')).
Proof.
  intros Hnd Hk Hr Hq. cbn zeta.
  destruct (reservation_without_message ext ops w id Hnd Hk Hr Hq) as (_ & H1 & H2).
  by split.
Qed.

Lemma queued_are_stored ext ops w :
  NoDup (keys (db w)) ->
  incl (map ID (messageQueue w)) (keys (db w)) ->
  incl (map ID (messageQueue (trace ext w ops))) (keys (db (trace ext w ops))).
Proof.
  intros Hnd H0.
  apply (trace_invariant ext
           (fun w' => incl (map ID (messageQueue w')) (keys (db w')))); [|done|done].
  clear. intros w w' _ HP Hc. pose proof (change_keys w w' Hc) as Hk.
  assert (Hsub : incl (keys (db w)) (keys (db w'))).
  { destruct Hk as [->|(r & _ & ->)]; [apply incl_refl|]. apply incl_appl, incl_refl. }
  destruct Hc as [Hdb Hq'|r0 Hfresh Hs Hp Hdb Hq'|now msg s e rq rs nra Hq' _ Hdb
                 |now id' _ Hdb Hq'|now Hdb Hq'].
  - rewrite Hq'. by eapply incl_tran.
  - rewrite Hq'. unfold enqueued. destruct (_ <? _)%nat; [|by eapply incl_tran].
    rewrite map_app. apply incl_app; [by eapply incl_tran|].
    rewrite Hdb. unfold keys. cbn. rewrite map_app. apply incl_appr, incl_refl.
  - rewrite Hq' in HP. cbn [map] in HP. eapply incl_tran; [|exact Hsub].
    intros x Hx. apply HP. by right.
  - rewrite Hq'. by eapply incl_tran.
  - rewrite Hq', map_app. apply incl_app; [by eapply incl_tran|].
    rewrite Hdb, keys_GetPendingMessages. intros x Hx.
    apply in_map_iff in Hx as (m & <- & Hin).
    apply list_elem_of_In, elem_of_take in Hin as (i & Hi & _).
    apply list_elem_of_lookup_2, list_elem_of_In in Hi.
    rewrite GetPendingMessages_eq in Hi. cbn [fst snd] in Hi.
    apply in_map_iff in Hi as (r1 & <- & Hin1).
    apply list_elem_of_In, elem_of_take in Hin1 as (j & Hj & _).
    apply list_elem_of_lookup_2, list_elem_of_In, filter_In in Hj as [Hin1 _].
    unfold keys. apply in_map_iff. by exists r1.
Qed.

(** Property X12.  A submission accepted while the queue is full is lost
    when Pass A runs before the queue has room: the submission is
    acknowledged, its row is reserved without being queued, and from then on
    the row stays pending and reserved whatever operations follow. *)
Theorem accepted_message_is_lost_when_queue_is_full ext now now' request w ops :
  NoDup (keys (db w)) ->
  incl (map ID (messageQueue w)) (keys (db w)) ->
  accepts now request (db w) = true ->
  length (messageQueue w) = messageQueueCap ->
  (length (List.filter pending_unreserved (message_transactions (db w))) < 1000)%nat ->
  let id := ID (submitted ext now request (db w)) in
  let w1 := exec (SendMessage ext now request) w in
  let w2 := exec (messaging.checkPendingMessages now') w1 in
  let w' := trace ext w2 ops in
  (SendMessage ext now request w).1 =
    (Some {| resp_ID := id; resp_Status := "pending";
             resp_Message := "Message queued for processing" |}, None)
  /\ In id (keys (db w'))
  /\ (forall r, In r (message_transactions (db w')) -> ID r = id ->
        Status r = "pending" /\ Processing r = true)
  /\ ~ In id (map ID (messageQueue w')).
Proof.
  intros Hnd Hinc Hacc Hfull Hsel. cbn zeta. unfold exec.
  destruct (SendMessage_accepts ext now request w Hacc) as (Hres & Hdb & Hq & _).
  split; [exact Hres|].
  set (mt := submitted ext now request (db w)) in *.
  set (w1 := (SendMessage ext now request w).2) in *.
  assert ((length (messageQueue w) <? messageQueueCap)%nat = false) as Hge
    by (apply Nat.ltb_ge; lia).
  rewrite Hge in Hq.
  assert (Hfresh : ~ In (ID mt) (keys (db w))) by apply inserted_fresh.
  destruct (checkPendingMessages_run now' w1) as (Hdb2 & Hq2 & _).
  set (w2 := (messaging.checkPendingMessages now' w1).2) in *.
  assert (Hnd1 : NoDup (keys (db w1))).
  { eapply changes_unique_keys; [apply SendMessage_changes|done]. }
  assert (Hnd2 : NoDup (keys (db w2))).
  { eapply changes_unique_keys; [apply checkPendingMessages_changes|done]. }
  assert (Hsel1 : take 1000 (List.filter pending_unreserved (message_transactions (db w1)))
                  = List.filter pending_unreserved (message_transactions (db w)) ++ [mt]).
  { rewrite Hdb. cbn [message_transactions set_message_transactions].
    rewrite List.filter_app. cbn [List.filter]. unfold mt at 1.
    rewrite submitted_selectable. fold mt.
    apply take_ge. rewrite length_app. cbn [length]. lia. }
  apply reservation_without_message; [done| | |].
  - rewrite Hdb2, keys_GetPendingMessages, Hdb. unfold keys. cbn.
    rewrite map_app, in_app_iff. right. by left.
  - intros r Hin Hid. rewrite Hdb2, GetPendingMessages_rows, Hsel1 in Hin.
    apply in_map_iff in Hin as (r0 & <- & Hin0).
    assert (r0 = mt) as ->.
    { rewrite Hdb in Hin0. cbn in Hin0. apply in_app_iff in Hin0 as [Hin0|[<-|[]]]; [|done].
      exfalso. apply Hfresh.
      assert (ID r0 = ID mt) as <- by (by destruct (existsb _ _)).
      by apply (in_map ID). }
    assert (existsb (Z.eqb (ID mt))
              (map ID (List.filter pending_unreserved (message_transactions (db w)) ++ [mt]))
            = true) as ->.
    { apply existsb_eqb_In. rewrite map_app, in_app_iff. right. by left. }
    done.
  - rewrite Hq2, Hq. rewrite Hfull, Nat.sub_diag, take_0, app_nil_r.
    intros Hin. apply Hfresh. by apply Hinc.
Qed.
(** ** The daily quota *)

Lemma count_by_identity now uid (l : list MessageTransaction) :
  length (List.filter (counts_today now uid) l) =
    length (List.filter
              (fun i : Z * Z * Z * string * string * Z * Time =>
                 let '(_, u, _, _, _, _, c) := i in
                 (u =? uid) && (startOfDay now <=? c)
                 && (c <? Add (startOfDay now) (24 * Hour)))
              (map identity l)).
Proof.
  induction l as [|r l IH]; [done|]. cbn [map List.filter]. unfold counts_today at 1.
  cbn [identity]. destruct (_ && _); cbn [length]; by rewrite IH.
Qed.

Lemma quota_is_never_freed ext ops now uid w :
  NoDup (keys (db w)) ->
  (CountUserMessagesForToday now uid (db w)).1
    <= (CountUserMessagesForToday now uid (db (trace ext w ops))).1.
Proof.
  intros Hnd. rewrite !Count_eq. cbn [fst].
  destruct (identities_are_kept ext ops w Hnd) as [created Hc].
  rewrite !count_by_identity, Hc, List.filter_app, length_app. lia.
Qed.

(** Property X13.  No operation gives quota back: a submission refused as
    rate limited is refused again after any sequence of operations, as long
    as the day is the same. *)
Theorem rate_limit_lasts_all_day ext ops now now' request w :
  NoDup (keys (db w)) ->
  startOfDay now' = startOfDay now ->
  (SendMessage ext now request w).1 = (None, Some rateLimited) ->
  (SendMessage ext now' request (trace ext w ops)).1 = (None, Some rateLimited).
Proof.
  intros Hnd Hday Hrl.
  destruct (UserRepository.GetByID (req_UserID request) (db w)) as [user [e|]] eqn:Hu.
  { exfalso. revert Hrl. unfold SendMessage. run. rewrite Hu. run.
    unfold UserRepository.GetByID in Hu. destruct (List.find _ _); [done|].
    injection Hu as _ <-. discriminate. }
  assert (Hu' : UserRepository.GetByID (req_UserID request) (db (trace ext w ops))
                = (user, None)).
  { unfold UserRepository.GetByID in *.
    by destruct (registry_read_only ext ops w Hnd) as (-> & _). }
  apply (SendMessage_rate_limited_iff ext now request w user Hu) in Hrl.
  apply (SendMessage_rate_limited_iff ext now' request _ user Hu').
  pose proof (quota_is_never_freed ext ops now (req_UserID request) w Hnd) as Hmono.
  assert (CountUserMessagesForToday now' (req_UserID request) (db (trace ext w ops))
          = CountUserMessagesForToday now (req_UserID request) (db (trace ext w ops))) as ->.
  { rewrite !Count_eq. do 3 f_equal. apply List.filter_ext. intros r.
    by apply counts_today_same_day. }
  lia.
Qed.

(** ** Workers *)

Lemma worker_queue ext now w :
  messageQueue (messaging.worker ext now w).2 = tl (messageQueue w).
Proof.
  unfold messaging.worker. destruct (messageQueue w) as [|msg q] eqn:Hq; [exact Hq|].
  by destruct (processMessage_effect ext now msg (set_messageQueue q w)) as (_ & -> & _).
Qed.

(** Property X14.  Workers take the messages in the order of their arrival,
    one a turn, and put nothing into the queue. *)
Theorem workers_drain_the_queue_in_order ext nows w :
  messageQueue (trace ext w (map Turn nows)) = drop (length nows) (messageQueue w).
Proof.
  revert w. induction nows as [|now nows IH]; intros w; [done|].
  cbn [map trace foldl length]. fold (trace ext (step ext w (Turn now)) (map Turn nows)).
  rewrite IH. cbn [step]. unfold exec. rewrite worker_queue.
  destruct (messageQueue w) as [|msg q]; [|done].
  cbn [tl]. by destruct (length nows).
Qed.
Lemma not_selected_not_reserved (n : nat) (l : list MessageTransaction) (r : MessageTransaction) :
  NoDup (map ID l) -> In r l -> pending_unreserved r = false ->
  existsb (Z.eqb (ID r)) (map ID (take n (List.filter pending_unreserved l))) = false.
Proof.
  intros Hnd Hin Hp. destruct (existsb _ _) eqn:Hex; [|done].
  apply (reserved_was_selectable n l r Hnd Hin) in Hex. congruence.
Qed.

Lemma settled_row_out_of_queue ext ops w r :
  NoDup (keys (db w)) ->
  In r (message_transactions (db w)) ->
  Status r = "failed" \/ Status r = "fallback_triggered" ->
  ~ In (ID r) (map ID (messageQueue w)) ->
  In r (message_transactions (db (trace ext w ops)))
  /\ ~ In (ID r) (map ID (messageQueue (trace ext w ops))).
Proof.
  intros Hnd Hin Hs Hq.
  assert (Hnp : pending_unreserved r = false).
  { unfold pending_unreserved. by destruct Hs as [-> | ->]. }
  apply (trace_invariant ext
           (fun w' => In r (message_transactions (db w'))
                      /\ ~ In (ID r) (map ID (messageQueue w')))); [|done|done].
  clear Hnd Hin Hq. intros w1 w2 Hnd [Hin Hq] Hc.
  assert (Hsettle : forall now id' upd,
            id' <> ID r ->
            db w2 = archive now id' (update_row id' upd (db w1)) ->
            In r (message_transactions (db w2))).
  { intros now id' upd Hne ->. rewrite settle_archive_rows. apply in_map_iff.
    exists r. split; [|done]. destruct (Z.eqb_spec (ID r) id'); [congruence|done]. }
  destruct Hc as [Hdb Hq'|r0 Hfresh Hs0 Hp0 Hdb Hq'|now msg s e rq rs nra Hq' _ Hdb
                 |now id' (r0 & Hin0 & Hid0 & Hs0) Hdb Hq'|now Hdb Hq'].
  - by rewrite Hdb, Hq'.
  - assert (ID r0 <> ID r) as Hne.
    { intros Heq. apply Hfresh. rewrite Heq. by apply (in_map ID). }
    rewrite Hdb, Hq'. split.
    + cbn. apply in_or_app. by left.
    + unfold enqueued. destruct (_ <? _)%nat; [|done].
      rewrite map_app, in_app_iff. cbn. tauto.
  - rewrite Hq' in Hq. cbn [map In] in Hq. split; [|tauto].
    eapply Hsettle; [|exact Hdb]. tauto.
  - rewrite Hq'. split; [|done]. eapply Hsettle; [|exact Hdb].
    intros Heq. rewrite <- Hid0 in Heq.
    rewrite (NoDup_keys_inj _ r0 r Hnd Hin0 Hin Heq) in Hs0.
    destruct Hs as [Hs|Hs]; rewrite Hs in Hs0; discriminate Hs0.
  - rewrite Hdb, Hq'. split.
    + rewrite GetPendingMessages_rows. apply in_map_iff. exists r. split; [|done].
      by rewrite (not_selected_not_reserved 1000 _ r Hnd Hin Hnp).
    + rewrite map_app, in_app_iff. intros [Hc|Hc]; [done|].
      apply in_map_iff in Hc as (m & Hid & Hm).
      apply list_elem_of_In, elem_of_take in Hm as (i & Hi & _).
      apply list_elem_of_lookup_2, list_elem_of_In in Hi.
      rewrite GetPendingMessages_eq in Hi. cbn [fst snd] in Hi.
      apply in_map_iff in Hi as (r1 & <- & Hin1).
      apply list_elem_of_In, elem_of_take in Hin1 as (j & Hj & _).
      apply list_elem_of_lookup_2, list_elem_of_In, filter_In in Hj as [Hin1 Hp1].
      cbn [toDomainMapper ID] in Hid.
      rewrite (NoDup_keys_inj _ r1 r Hnd Hin1 Hin Hid) in Hp1. congruence.
Qed.

(** Property X15.  Failed and fallback_triggered are final.  With unique
    keys, a row in one of these statuses whose message is not in the queue
    is never written again, whatever operations follow: retries and
    fallbacks create new rows and leave the old one as it is, so a status
    query for its key gives the same answer for ever. *)
Theorem failed_and_fallen_back_rows_are_final ext ops w r :
  NoDup (keys (db w)) ->
  In r (message_transactions (db w)) ->
  Status r = "failed" \/ Status r = "fallback_triggered" ->
  ~ In (ID r) (map ID (messageQueue w)) ->
  let w' := trace ext w ops in
  In r (message_transactions (db w'))
  /\ (forall r', In r' (message_transactions (db w')) -> ID r' = ID r -> r' = r)
  /\ (GetMessageStatus {| sreq_ID := ID r |} w').1
     = (GetMessageStatus {| sreq_ID := ID r |} w).1.
Proof.
  intros Hnd Hin Hs Hq. cbn zeta.
  destruct (settled_row_out_of_queue ext ops w r Hnd Hin Hs Hq) as [Hin' _].
  assert (Hnd' : NoDup (keys (db (trace ext w ops))))
    by (eapply changes_unique_keys; [by apply trace_changes|done]).
  split; [done|]. split.
  - intros r' Hr' Hid. by apply (NoDup_keys_inj _ r' r Hnd' Hr' Hin').
  - assert (Hfind : forall d, NoDup (keys d) -> In r (message_transactions d) ->
                      List.find (fun x => ID x =? ID r) (message_transactions d) = Some r).
    { intros d Hd Hi.
      destruct (find_ID_Some (ID r) (message_transactions d)) as (r1 & Hf & Hid1 & Hin1);
        [by apply (in_map ID)|].
      by rewrite Hf, (NoDup_keys_inj _ r1 r Hd Hin1 Hi Hid1). }
    destruct (GetMessageStatus_run {| sreq_ID := ID r |} (trace ext w ops)) as [l1 ->].
    destruct (GetMessageStatus_run {| sreq_ID := ID r |} w) as [l2 ->].
    cbn [fst sreq_ID]. unfold GetByID. by rewrite !Hfind.
Qed.
(** ** What a worker records *)

Lemma dispatch_signal ext p msg :
  p_Type p = "signal" ->
  messaging.dispatch ext p msg =
    (json_Marshal_signalRequest ext (SIGNAL_FROM_NUMBER ext) (Message msg)
       (json_Unmarshal_strings ext (Recipients msg)),
     match SendV2 ext (SIGNAL_FROM_NUMBER ext) (Message msg)
             (json_Unmarshal_strings ext (Recipients msg))
             (if String.eqb (DEFAULT_SIGNAL_TEXT_MODE ext) "styled"
              then Some "styled" else None) with
     | (Some data, None) => data
     | _ => ""
     end,
     None).
Proof. intros Ht. unfold messaging.dispatch. by rewrite Ht. Qed.

Lemma dispatch_other ext p msg :
  p_Type p <> "signal" ->
  messaging.dispatch ext p msg =
    ("", "",
     Some (errors_New (if String.eqb (p_Type p) "email"
                       then "email provider not implemented yet"
                       else "unsupported provider type: " +:+ p_Type p))).
Proof.
  intros Ht. unfold messaging.dispatch. apply String.eqb_neq in Ht. rewrite Ht.
  by destruct (String.eqb (p_Type p) "email").
Qed.

Lemma processMessage_rows ext now msg w r :
  In r (message_transactions (db (messaging.processMessage ext now msg w).2)) ->
  ID r = ID msg ->
  exists r0, In r0 (message_transactions (db w)) /\ ID r0 = ID msg
             /\ r = settled ext now (outcome ext (db w) msg) r0.
Proof.
  destruct (processMessage_effect ext now msg w) as (-> & _ & _).
  rewrite settle_archive_rows. intros Hin Hid.
  apply in_map_iff in Hin as (r0 & <- & Hin0).
  destruct (Z.eqb_spec (ID r0) (ID msg)) as [Heq|Hne]; [by exists r0|].
  by destruct Hne.
Qed.

(** Property X16.  A message handed to an active Signal provider is recorded
    and notified as a success whatever the Signal client answers; the answer
    is kept only when the client reports no error. *)
Theorem signal_send_is_always_recorded_as_success ext now msg w p :
  Repository.GetByID (ProviderID msg) (db w) = (p, None) ->
  p_Status p = true ->
  p_Type p = "signal" ->
  let w' := exec (messaging.processMessage ext now msg) w in
  (forall r, In r (message_transactions (db w')) -> ID r = ID msg ->
     Status r = "success" /\ ErrorMessage r = "" /\ Processing r = false
     /\ ResponseData r = kept_response ext msg /\ UpdatedAt r = now)
  /\ webhook_posts w' =
       webhook_posts w
       ++ notifications ext now (UserID msg) (ID msg) "success" "" (db w).
Proof.
  intros Hp Hs Ht. cbn zeta. unfold exec.
  assert (Ho : outcome ext (db w) msg =
               Sent (json_Marshal_signalRequest ext (SIGNAL_FROM_NUMBER ext) (Message msg)
                       (json_Unmarshal_strings ext (Recipients msg)))
                    (kept_response ext msg)).
  { unfold outcome. rewrite Hp, Hs. cbn [negb]. by rewrite dispatch_signal. }
  split.
  - intros r Hin Hid. apply processMessage_rows in Hin as (r0 & _ & _ & ->); [|done].
    by rewrite Ho.
  - destruct (processMessage_effect ext now msg w) as (_ & _ & ->). by rewrite Ho.
Qed.

(** Property X17.  A message handed to an active provider of another type
    than Signal always fails: the row is marked failed with the reason and a
    retry time three minutes ahead, and the failure is notified. *)
Theorem other_providers_always_fail ext now msg w p :
  Repository.GetByID (ProviderID msg) (db w) = (p, None) ->
  p_Status p = true ->
  p_Type p <> "signal" ->
  let reason :=
    if String.eqb (p_Type p) "email" then "email provider not implemented yet"
    else "unsupported provider type: " +:+ p_Type p in
  let w' := exec (messaging.processMessage ext now msg) w in
  (forall r, In r (message_transactions (db w')) -> ID r = ID msg ->
     Status r = "failed" /\ ErrorMessage r = reason /\ Processing r = false
     /\ RequestData r = "" /\ ResponseData r = ""
     /\ NextRetryAt r = Some (now + 3 * Minute))
  /\ webhook_posts w' =
       webhook_posts w
       ++ notifications ext now (UserID msg) (ID msg) "failed" reason (db w).
Proof.
  intros Hp Hs Ht. cbn zeta. unfold exec.
  assert (Ho : outcome ext (db w) msg =
               SendFailed ""
                 (errors_New (if String.eqb (p_Type p) "email"
                              then "email provider not implemented yet"
                              else "unsupported provider type: " +:+ p_Type p))).
  { unfold outcome. rewrite Hp, Hs. cbn [negb]. by rewrite dispatch_other. }
  split.
  - intros r Hin Hid. apply processMessage_rows in Hin as (r0 & _ & _ & ->); [|done].
    by rewrite Ho.
  - destruct (processMessage_effect ext now msg w) as (_ & _ & ->). by rewrite Ho.
Qed.

(** ** Status queries *)

Lemma find_fresh_last (rows : list MessageTransaction) (mt : MessageTransaction) :
  ~ In (ID mt) (map ID rows) ->
  List.find (fun r => ID r =? ID mt) (rows ++ [mt]) = Some mt.
Proof.
  induction rows as [|r rows IH]; cbn [map In app List.find]; intros Hf.
  - by rewrite Z.eqb_refl.
  - destruct (Z.eqb_spec (ID r) (ID mt)) as [Heq|_]; [tauto|]. apply IH. tauto.
Qed.

Lemma find_missing (rows : list MessageTransaction) (id : Z) :
  ~ In id (map ID rows) -> List.find (fun r => ID r =? id) rows = None.
Proof.
  induction rows as [|r rows IH]; [done|]. cbn [map In List.find]. intros Hf.
  destruct (Z.eqb_spec (ID r) id) as [Heq|_]; [tauto|]. apply IH. tauto.
Qed.

(** Property X18.  A status query for a key that is not in the active table
    fails with the application's not-found error and changes nothing. *)
Theorem GetMessageStatus_of_unknown_key request w :
  ~ In (sreq_ID request) (keys (db w)) ->
  let r := GetMessageStatus request w in
  r.1 = (None, Some (AppError NotFound))
  /\ db r.2 = db w /\ messageQueue r.2 = messageQueue w.
Proof.
  intros Hk. cbn zeta. destruct (GetMessageStatus_run request w) as [l ->].
  unfold GetByID. by rewrite find_missing.
Qed.

(** Property X19.  The key returned by an accepted submission can be queried
    at once: the answer shows the message as pending, with the text, the
    encoded recipients and the time of the submission. *)
Theorem submitted_message_can_be_queried ext now request w :
  accepts now request (db w) = true ->
  let r := SendMessage ext now request w in
  exists id,
    r.1 = (Some {| resp_ID := id; resp_Status := "pending";
                   resp_Message := "Message queued for processing" |}, None)
    /\ ~ In id (keys (db w))
    /\ (GetMessageStatus {| sreq_ID := id |} r.2).1 =
         (Some {| sresp_ID := id;
                  sresp_Status := "pending";
                  sresp_Message := req_Message request;
                  sresp_Recipients := json_Marshal_strings ext (req_Recipients request);
                  sresp_ErrorMessage := "";
                  sresp_RetryCount := 0;
                  sresp_CreatedAt := now;
                  sresp_UpdatedAt := now |}, None).
Proof.
  intros Hacc. cbn zeta.
  destruct (SendMessage_accepts ext now request w Hacc) as (Hres & Hdb & _).
  set (mt := submitted ext now request (db w)) in *.
  exists (ID mt). split; [exact Hres|]. split; [apply inserted_fresh|].
  destruct (GetMessageStatus_run {| sreq_ID := ID mt |} (SendMessage ext now request w).2)
    as [l ->].
  cbn [fst sreq_ID]. rewrite Hdb. unfold GetByID.
  cbn [message_transactions set_message_transactions].
  rewrite find_fresh_last by apply inserted_fresh. reflexivity.
Qed.
Lemma find_settled_last (rows : list MessageTransaction) (mt : MessageTransaction)
    (upd : MessageTransaction -> MessageTransaction) :
  (forall r, ID (upd r) = ID r) ->
  ~ In (ID mt) (map ID rows) ->
  List.find (fun r => ID r =? ID mt)
    (map (fun r => if ID r =? ID mt then upd r else r) (rows ++ [mt])) = Some (upd mt).
Proof.
  intros Hupd Hf. rewrite find_update_row by done. by rewrite find_fresh_last.
Qed.

(** Property X20.  From submission to answer.  A submission is accepted for
    an active Signal provider while the queue is empty; a worker takes its
    turn; the status query then reports success, whatever the Signal client
    has answered, and the history has got one more row for the message. *)
Theorem submission_to_signal_ends_as_success ext now now' request w p :
  accepts now request (db w) = true ->
  messageQueue w = [] ->
  Repository.GetByID (ProviderID (submitted ext now request (db w))) (db w) = (p, None) ->
  p_Status p = true ->
  p_Type p = "signal" ->
  let id := ID (submitted ext now request (db w)) in
  let w' := trace ext w [Submit now request; Turn now'] in
  (GetMessageStatus {| sreq_ID := id |} w').1 =
    (Some {| sresp_ID := id;
             sresp_Status := "success";
             sresp_Message := req_Message request;
             sresp_Recipients := json_Marshal_strings ext (req_Recipients request);
             sresp_ErrorMessage := "";
             sresp_RetryCount := 0;
             sresp_CreatedAt := now;
             sresp_UpdatedAt := now' |}, None)
  /\ messageQueue w' = []
  /\ exists h,
       history_of id (db w') = history_of id (db w) ++ [h]
       /\ h_Status h = "success" /\ h_ProcessedAt h = now'.
Proof.
  intros Hacc Hq Hp Hs Ht. cbn zeta. cbn [trace foldl step]. unfold exec.
  destruct (SendMessage_accepts ext now request w Hacc) as (_ & Hdb & Hq1 & _).
  set (mt := submitted ext now request (db w)) in *.
  set (w1 := (SendMessage ext now request w).2) in *.
  rewrite Hq in Hq1. cbn in Hq1.
  assert (Hfresh : ~ In (ID mt) (map ID (message_transactions (db w))))
    by apply inserted_fresh.
  unfold messaging.worker. rewrite Hq1.
  set (w1' := set_messageQueue [] w1).
  destruct (processMessage_effect ext now' (toDomainMapper mt) w1') as (Hdb2 & Hq2 & _).
  set (w2 := (messaging.processMessage ext now' (toDomainMapper mt) w1').2) in *.
  assert (Ho : outcome ext (db w1') (toDomainMapper mt) =
               Sent (json_Marshal_signalRequest ext (SIGNAL_FROM_NUMBER ext) (Message mt)
                       (json_Unmarshal_strings ext (Recipients mt)))
                    (kept_response ext (toDomainMapper mt))).
  { unfold outcome. cbn [db w1' set_messageQueue]. rewrite Hdb.
    change (Repository.GetByID (ProviderID (toDomainMapper mt))
              (set_message_transactions (message_transactions (db w) ++ [mt]) (db w)))
      with (Repository.GetByID (ProviderID mt) (db w)).
    rewrite Hp, Hs. cbn [negb]. by rewrite dispatch_signal. }
  rewrite Ho in Hdb2. cbn [settled ID toDomainMapper db w1' set_messageQueue] in Hdb2.
  rewrite Hdb in Hdb2.
  split; [|split].
  - destruct (GetMessageStatus_run {| sreq_ID := ID mt |} w2) as [l ->].
    cbn [fst sreq_ID]. unfold GetByID. rewrite Hdb2, settle_archive_rows.
    cbn [message_transactions set_message_transactions].
    rewrite find_settled_last by done. reflexivity.
  - by rewrite Hq2.
  - rewrite Hdb2. unfold history_of, MessageTransactionHistoryRepository.GetByMessageID.
    cbn [fst]. rewrite settle_archive_history by done.
    cbn [message_transactions set_message_transactions message_transaction_history].
    rewrite find_fresh_last by done. rewrite List.filter_app.
    cbn [List.filter archived h_MessageID settle ID]. rewrite Z.eqb_refl.
    eexists. split; [reflexivity|]. done.
Qed.
(** ** The choice of the provider *)

Lemma filter_head_find {A : Type} (f : A -> bool) (l : list A) :
  List.find f l = head (List.filter f l).
Proof.
  induction l as [|x l IH]; [done|]. cbn. by destruct (f x).
Qed.

Lemma first_in_priority ext now request d :
  usable (req_UserID request) d = true ->
  let uid := req_UserID request in
  let mine up := In up (user_providers d) /\ up_UserID up = uid in
  let wanted up := mine up /\ matches_type d (req_Type request) up = true in
  let fit up := mine up /\ both_active d up = true in
  exists up,
    ProviderID (submitted ext now request d) = up_ProviderID up
    /\ fit up
    /\ ((req_Type request <> "" /\ exists up', wanted up') ->
        wanted up /\ forall up', wanted up' -> up_Priority up <= up_Priority up')
    /\ (~ (req_Type request <> "" /\ exists up', wanted up') ->
        forall up', fit up' -> up_Priority up <= up_Priority up').
Proof.
  intros Hus. cbn zeta. unfold submitted.
  set (ups := (UserProviderRepository.GetUserProvidersByPriority (req_UserID request) d).1).
  assert (Hasc : ascending ups) by apply order_by_priority_ascending.
  assert (Hin : forall up, In up ups <->
                  In up (user_providers d) /\ up_UserID up = req_UserID request
                  /\ up_Status up = true) by apply GetUserProvidersByPriority_In.
  assert (Hmt : forall up, matches_type d (req_Type request) up = true ->
                  both_active d up = true /\ up_Status up = true).
  { intros up. unfold matches_type, both_active.
    destruct (Repository.GetByID _ _) as [pd [e|]]; [done|].
    rewrite !andb_true_iff. tauto. }
  assert (Hba : forall up, both_active d up = true -> up_Status up = true).
  { intros up. unfold both_active. destruct (Repository.GetByID _ _) as [pd [e|]]; [done|].
    rewrite andb_true_iff. tauto. }
  (* the first fit binding *)
  unfold usable in Hus. fold ups in Hus. apply existsb_exists in Hus as (u0 & Hu0 & Hf0).
  destruct (List.find (both_active d) ups) as [hp|] eqn:Hhp.
  2:{ eapply find_none in Hhp; [|exact Hu0]. congruence. }
  assert (Hhp_fit : (In hp (user_providers d) /\ up_UserID hp = req_UserID request)
                    /\ both_active d hp = true).
  { apply find_some in Hhp as [Hi Hb]. apply Hin in Hi. tauto. }
  assert (Hhp_min : forall up',
            (In up' (user_providers d) /\ up_UserID up' = req_UserID request)
            /\ both_active d up' = true ->
            up_Priority hp <= up_Priority up').
  { intros up' [[Hi Hu] Hb]. apply (find_ascending _ ups hp Hasc Hhp); [|done].
    apply Hin. split; [done|]. split; [done|]. by apply Hba. }
  unfold selected_provider, highest_priority. rewrite Hhp.
  destruct (String.eqb_spec (req_Type request) "") as [Hty|Hty]; cbn [negb].
  { exists hp. cbn [inserted new_transaction set_ID messageTransactionFromDomainMapper ProviderID].
    split; [done|]. split; [done|]. split; [intros [? _]; done|]. intros _. exact Hhp_min. }
  destruct (List.filter (matches_type d (req_Type request)) ups) as [|mp rest] eqn:Hfl.
  - exists hp. cbn [inserted new_transaction set_ID messageTransactionFromDomainMapper ProviderID].
    split; [done|]. split; [done|]. split.
    + intros [_ (up' & [Hi Hu] & Hm)]. exfalso.
      assert (In up' (List.filter (matches_type d (req_Type request)) ups)) as Hc.
      { apply filter_In. split; [|done]. apply Hin. destruct (Hmt up' Hm). tauto. }
      by rewrite Hfl in Hc.
    + intros _. exact Hhp_min.
  - assert (Hfind : List.find (matches_type d (req_Type request)) ups = Some mp)
      by (by rewrite filter_head_find, Hfl).
    pose proof (find_some _ _ Hfind) as [Hi Hm].
    exists mp. cbn [inserted new_transaction set_ID messageTransactionFromDomainMapper ProviderID].
    split; [done|]. apply Hin in Hi. destruct (Hmt mp Hm) as [Hb _].
    split; [tauto|]. split.
    + intros _. split; [tauto|]. intros up' [[Hi' Hu'] Hm'].
      apply (find_ascending _ ups mp Hasc Hfind); [|done].
      apply Hin. destruct (Hmt up' Hm'). tauto.
    + intros Hno. exfalso. apply Hno. split; [done|]. exists mp. tauto.
Qed.

(** Property X21.  The provider of an accepted submission.  When the request
    names a type and a binding of the user matches it, the binding of least
    priority number among the matching ones is taken.  Otherwise, with or
    without a type in the request, the binding of least priority number
    among those that are active and whose provider is active is taken. *)
Theorem SendMessage_takes_the_first_in_priority ext now request w :
  accepts now request (db w) = true ->
  usable (req_UserID request) (db w) = true ->
  let d := db w in
  let uid := req_UserID request in
  let mine up := In up (user_providers d) /\ up_UserID up = uid in
  let wanted up := mine up /\ matches_type d (req_Type request) up = true in
  let fit up := mine up /\ both_active d up = true in
  exists mt up,
    message_transactions (db (SendMessage ext now request w).2) =
      message_transactions d ++ [mt]
    /\ ProviderID mt = up_ProviderID up
    /\ fit up
    /\ ((req_Type request <> "" /\ exists up', wanted up') ->
        wanted up /\ forall up', wanted up' -> up_Priority up <= up_Priority up')
    /\ (~ (req_Type request <> "" /\ exists up', wanted up') ->
        forall up', fit up' -> up_Priority up <= up_Priority up').
Proof.
  intros Hacc Hus. cbn zeta.
  destruct (SendMessage_accepts ext now request w Hacc) as (_ & Hdb & _).
  destruct (first_in_priority ext now request (db w) Hus) as (up & H).
  exists (submitted ext now request (db w)), up. rewrite Hdb. split; [done|]. exact H.
Qed.

(** Property X22.  When the user has bindings but none that is active with
    an active provider, the submission fails on the lookup of provider 0,
    the provider of the empty binding, and stores nothing. *)
Theorem SendMessage_without_usable_binding ext now request w user :
  UserRepository.GetByID (req_UserID request) (db w) = (user, None) ->
  (CountUserMessagesForToday now (req_UserID request) (db w)).1 < MessageRateLimit user ->
  (UserProviderRepository.GetUserProvidersByPriority (req_UserID request) (db w)).1 <> [] ->
  usable (req_UserID request) (db w) = false ->
  ~ In 0 (map p_ID (providers (db w))) ->
  let r := SendMessage ext now request w in
  r.1 = (None, Some (AppError NotFound))
  /\ db r.2 = db w /\ messageQueue r.2 = messageQueue w.
Proof.
  intros Hu Hc Hne Hus H0. cbn zeta.
  set (ups := (UserProviderRepository.GetUserProvidersByPriority (req_UserID request) (db w)).1) in *.
  assert (Hsel : selected_provider (db w) request ups = zeroUserProvider).
  { assert (Hnone : List.find (both_active (db w)) ups = None).
    { destruct (List.find _ _) as [up|] eqn:Hf; [|done].
      apply find_some in Hf as [Hi Hb]. unfold usable in Hus. fold ups in Hus.
      assert (existsb (both_active (db w)) ups = true) as Hex
        by (apply existsb_exists; by exists up).
      congruence. }
    unfold selected_provider, highest_priority. rewrite Hnone.
    destruct (negb _); [|done].
    destruct (List.filter _ _) as [|mp rest] eqn:Hfl; [done|]. exfalso.
    assert (In mp (List.filter (matches_type (db w) (req_Type request)) ups)) as Hi
      by (rewrite Hfl; by left).
    apply filter_In in Hi as [Hi Hm].
    eapply find_none in Hnone; [|exact Hi].
    revert Hm Hnone. unfold matches_type, both_active.
    destruct (Repository.GetByID _ _) as [pd [e|]]; [done|].
    destruct (String.eqb _ _); cbn; [congruence|done]. }
  assert (Hp0 : Repository.GetByID 0 (db w) = (zeroProvider, Some (AppError NotFound))).
  { unfold Repository.GetByID. destruct (List.find _ _) as [p|] eqn:Hf; [|done].
    apply find_some in Hf as [Hi Hid]. apply Z.eqb_eq in Hid. exfalso. apply H0.
    rewrite <- Hid. by apply in_map. }
  unfold SendMessage. run. rewrite Hu. run. cbn [fst snd].
  destruct (CountUserMessagesForToday _ _ _) as [cnt [e|]] eqn:Hcnt; [done|].
  cbn [fst snd] in *. destruct (Z.geb_spec cnt (MessageRateLimit user)); [lia|].
  run. fold ups.
  destruct (UserProviderRepository.GetUserProvidersByPriority _ _) as [ups' [e|]] eqn:Hg;
    [done|].
  cbn [fst snd] in *. subst ups. destruct ups' as [|u0 ups']; [done|].
  cbn [length Nat.eqb]. run.
  destruct (select_provider_run request (u0 :: ups') w) as [l ->]. cbn [fst snd db].
  rewrite Hsel. cbn [up_ProviderID zeroUserProvider db set_logs]. rewrite Hp0. by run.
Qed.
(** ** The repository of transactions *)

(** Property X23.  A keyless transaction that comes with its creation and
    update times, as every transaction the callers create does, is stored
    under a fresh positive key and can be read back at once; what is read
    back is what was given, except for the key and for the retry time and
    the processing time, which the mappers drop. (A zero creation or update
    time would be filled in by gorm; that case is left out.) *)
Theorem Create_then_GetByID mt d :
  ID mt = 0 ->
  CreatedAt mt <> zeroTime ->
  UpdatedAt mt <> zeroTime ->
  let r := Create mt d in
  r.2.2 = None
  /\ 0 < ID r.2.1
  /\ ~ In (ID r.2.1) (keys d)
  /\ keys r.1 = keys d ++ [ID r.2.1]
  /\ GetByID (ID r.2.1) r.1 = (r.2.1, None)
  /\ r.2.1 = toDomainMapper (set_ID (ID r.2.1) mt)
  /\ NextRetryAt r.2.1 = None /\ ProcessedAt r.2.1 = None.
Proof.
  intros H0 _ _. cbn zeta. rewrite Create_keyless by done. cbn [fst snd].
  split; [done|]. split; [apply next_id_pos|]. split; [apply inserted_fresh|].
  split; [unfold keys; cbn; by rewrite map_app|].
  split; [|done]. unfold GetByID. cbn [message_transactions set_message_transactions].
  change (ID (toDomainMapper (inserted mt d))) with (ID (inserted mt d)).
  rewrite find_fresh_last by apply inserted_fresh. done.
Qed.

Lemma MoveToHistory_run now id d :
  MoveToHistory now id d =
    match List.find (fun r => ID r =? id) (message_transactions d) with
    | Some r => (archive now id d, None)
    | None => (d, Some (AppError NotFound))
    end.
Proof.
  unfold MoveToHistory, archive, GetByID.
  destruct (List.find _ _) as [r|]; [|done].
  unfold MessageTransactionHistoryRepository.Create. cbn [h_ID Z.eqb].
  cbn [MessageTransactionHistoryRepository.set_h_ID h_ID].
  by rewrite next_id_fresh.
Qed.

(** Property X24.  [MoveToHistory] copies: the row stays in the active table
    as it is, and the history gets one row under a fresh key that records
    the row and, as its processing time, the time of the row's last update. *)
Theorem MoveToHistory_copies now id d :
  In id (keys d) ->
  let r := MoveToHistory now id d in
  r.2 = None
  /\ message_transactions r.1 = message_transactions d
  /\ exists row h,
       In row (message_transactions d) /\ ID row = id
       /\ message_transaction_history r.1 = message_transaction_history d ++ [h]
       /\ ~ In (h_ID h) (history_keys d)
       /\ h_MessageID h = id
       /\ (h_UserID h, h_ProviderID h, h_Recipients h, h_Message h)
          = (UserID row, ProviderID row, Recipients row, Message row)
       /\ (h_RequestData h, h_ResponseData h, h_Status h, h_ErrorMessage h, h_RetryCount h)
          = (RequestData row, ResponseData row, Status row, ErrorMessage row, RetryCount row)
       /\ h_ProcessedAt h = UpdatedAt row
       /\ h_CreatedAt h = now /\ h_UpdatedAt h = now.
Proof.
  intros Hk. cbn zeta. rewrite MoveToHistory_run.
  destruct (find_ID_Some id (message_transactions d) Hk) as (row & Hf & Hid & Hin).
  rewrite Hf. cbn [fst snd]. split; [done|]. split; [apply archive_table|].
  exists row, (archived now d row). rewrite (archive_history now id d row Hf).
  cbn [archived h_ID h_MessageID h_UserID h_ProviderID h_Recipients h_Message
       h_RequestData h_ResponseData h_Status h_ErrorMessage h_RetryCount
       h_ProcessedAt h_CreatedAt h_UpdatedAt].
  repeat (split; [done|]). split; [apply next_id_not_in|]. by repeat split.
Qed.

(** Property X25.  A key that is not in the active table.  Reading and
    archiving fail with the application's not-found error; updating, for a
    key other than 0, fails with gorm's record-not-found error; none of them
    changes the store. (For key 0 gorm refuses the UPDATE for want of a
    condition; that case is left out.) *)
Theorem missing_key_is_reported now id m d :
  ~ In id (keys d) ->
  bool_decide (dom (to_columns m) ⊆ columns) = true ->
  GetByID id d = (zeroMessageTransaction, Some (AppError NotFound))
  /\ MoveToHistory now id d = (d, Some (AppError NotFound))
  /\ (id <> 0 ->
      Update now id m d = (d, (zeroMessageTransaction, Some ErrRecordNotFound))).
Proof.
  intros Hk Hcols. split; [|split].
  - unfold GetByID. by rewrite find_missing.
  - rewrite MoveToHistory_run. by rewrite find_missing.
  - intros _. unfold Update. rewrite Hcols.
    assert (Hmap : map (fun r => if ID r =? id then apply_updates now (to_columns m) r else r)
                     (message_transactions d) = message_transactions d).
    { unfold keys in Hk. induction (message_transactions d) as [|r l IH]; [done|].
      cbn [map In] in *. destruct (Z.eqb_spec (ID r) id) as [Heq|_]; [tauto|].
      f_equal. apply IH. tauto. }
    cbn zeta. rewrite Hmap.
    cbn [message_transactions set_message_transactions]. rewrite find_missing by done.
    by destruct d.
Qed.

(** ** Timers *)

Lemma GetFailedMessagesForRetry_iff now d m :
  In m (GetFailedMessagesForRetry now d).1 <->
  exists r, In r (message_transactions d) /\ m = toDomainMapper r
            /\ Status r = "failed"
            /\ exists t, NextRetryAt r = Some t /\ t <= now.
Proof.
  unfold GetFailedMessagesForRetry, messageTransactionArrayToDomainMapper. cbn [fst].
  rewrite in_map_iff. split.
  - intros (r & <- & Hr). apply filter_In in Hr as [Hin Hc].
    apply andb_true_iff in Hc as [Hs Ht]. apply String.eqb_eq in Hs.
    exists r. split; [done|]. split; [done|]. split; [done|].
    unfold time_le_null in Ht. destruct (NextRetryAt r) as [t|]; [|done].
    exists t. split; [done|]. by apply Z.leb_le.
  - intros (r & Hin & -> & Hs & t & Ht & Hle). exists r. split; [done|].
    apply filter_In. split; [done|]. rewrite Hs, Ht. cbn. by apply Z.leb_le.
Qed.

(** Property X26.  Settling starts the timers.  After a worker's turn at
    [now] on a message, a row of that message is either failed and selected
    by the retry planner exactly from three minutes after [now] on, or sent
    and selected by Pass B exactly from five minutes after [now] on. *)
Theorem settling_starts_the_timers ext now msg w r t :
  In r (message_transactions (db (messaging.processMessage ext now msg w).2)) ->
  ID r = ID msg ->
  let d' := db (messaging.processMessage ext now msg w).2 in
  (Status r = "failed"
   /\ (In (toDomainMapper r) (GetFailedMessagesForRetry t d').1 <-> now + 3 * Minute <= t))
  \/ (Status r = "success"
      /\ (In (toDomainMapper r) (GetUndeliveredMessages t d').1 <-> now + 5 * Minute <= t)).
Proof.
  intros Hin Hid. cbn zeta.
  pose proof (fun r' Hin' Hid' => processMessage_rows ext now msg w r' Hin' Hid') as Hrows.
  set (d' := db (messaging.processMessage ext now msg w).2) in *.
  destruct (Hrows r Hin Hid) as (r0 & _ & _ & Hr).
  assert (Hsame : forall r2, In r2 (message_transactions d') ->
                    toDomainMapper r = toDomainMapper r2 ->
                    exists r3, r2 = settled ext now (outcome ext (db w) msg) r3).
  { intros r2 Hin2 Heq. apply (f_equal ID) in Heq. cbn [toDomainMapper ID] in Heq.
    destruct (Hrows r2 Hin2) as (r3 & _ & _ & ->); [congruence|]. by exists r3. }
  destruct (outcome ext (db w) msg) as [e| |rq e|rq rs] eqn:Ho;
    [left|left|left|right]; (split; [by rewrite Hr|]).
  1-3: rewrite GetFailedMessagesForRetry_iff; split;
    [ intros (r2 & Hin2 & Heq & _ & t' & Ht' & Hle);
      destruct (Hsame r2 Hin2 Heq) as (r3 & ->);
      cbn [settled settle NextRetryAt] in Ht'; injection Ht' as <-;
      unfold retryAt, Add in Hle; lia
    | intros Hle; exists r; split; [done|]; split; [done|]; rewrite Hr;
      cbn [settled settle Status NextRetryAt]; split; [done|];
      eexists; split; [reflexivity|]; unfold retryAt, Add; lia ].
  rewrite GetUndeliveredMessages_iff. split.
  - intros (r2 & Hin2 & Heq & _ & _ & Hle). destruct (Hsame r2 Hin2 Heq) as (r3 & ->).
    cbn [settled settle UpdatedAt] in Hle. lia.
  - intros Hle. exists r. split; [done|]. split; [done|]. rewrite Hr.
    cbn [settled settle Status Processing UpdatedAt]. repeat split; [done..|lia].
Qed.
(** ** Retries and the quota *)

Lemma for_range_retry_created now failedMessages :
  forall w,
  exists created,
    db (for_range (retry now) failedMessages w).2 =
      set_message_transactions (message_transactions (db w) ++ created) (db w)
    /\ map content created = planned (db w) failedMessages
    /\ Forall (fun r => CreatedAt r = now) created.
Proof.
  induction failedMessages as [|f l IH]; intros w.
  { exists []. cbn. rewrite app_nil_r. by destruct (db w). }
  cbn [for_range]. run.
  pose proof (retry_effect_of now f w) as H. unfold retry_effect in H.
  destruct (IH (retry now f w).2) as (created & Hdb & Hc & Hp).
  rewrite Hdb. cbn [planned]. unfold owed at 1.
  destruct (next_in_chain _ _ _) as [nb|] eqn:Hn.
  - destruct H as [H _]. rewrite H in *.
    exists (inserted (retry_transaction now f nb) (db w) :: created).
    cbn [message_transactions set_message_transactions]. rewrite <- app_assoc.
    split; [done|]. split.
    + cbn [map]. rewrite Hc. by rewrite planned_registry.
    + by constructor.
  - destruct H as [H _]. rewrite H in *. by exists created.
Qed.

Lemma counts_today_created now uid r :
  CreatedAt r = now -> counts_today now uid r = (UserID r =? uid).
Proof.
  intros Hc. unfold counts_today. rewrite Hc.
  pose proof (startOfDay_bounds now) as [H1 H2].
  apply Z.leb_le in H1. apply Z.ltb_lt in H2. rewrite H1, H2.
  by rewrite !andb_true_r.
Qed.

(** Property X27.  Retries use up the quota.  The successors the planner
    creates are rows of the day like any other: the count that is held
    against the daily limit of a user grows by the number of successors
    created for that user. *)
Theorem retries_use_up_the_quota now uid w :
  exists created,
    message_transactions (db (RetryFailedMessages now w).2) =
      message_transactions (db w) ++ created
    /\ map content created = planned (db w) (GetFailedMessagesForRetry now (db w)).1
    /\ (CountUserMessagesForToday now uid (db (RetryFailedMessages now w).2)).1 =
         (CountUserMessagesForToday now uid (db w)).1
         + Z.of_nat (length (List.filter (fun r => UserID r =? uid) created)).
Proof.
  assert (Hgen : exists created,
            db (RetryFailedMessages now w).2 =
              set_message_transactions (message_transactions (db w) ++ created) (db w)
            /\ map content created = planned (db w) (GetFailedMessagesForRetry now (db w)).1
            /\ Forall (fun r => CreatedAt r = now) created).
  { unfold RetryFailedMessages. run.
    destruct (GetFailedMessagesForRetry now (db w)) as [failedMessages [e|]] eqn:Hf; [done|].
    cbn [fst snd]. destruct failedMessages as [|f l].
    - exists []. cbn [length Nat.eqb]. run. cbn. rewrite app_nil_r. by destruct (db w).
    - cbn [length Nat.eqb]. run.
      destruct (for_range_retry_created now (f :: l)
                  (set_logs (logs w ++ [(Info, "Found failed messages to retry")]) w))
        as (created & Hdb & Hc & Hp).
      exists created. by rewrite Hdb. }
  destruct Hgen as (created & Hdb & Hc & Hat). exists created.
  rewrite Hdb. cbn [message_transactions set_message_transactions].
  split; [done|]. split; [done|].
  rewrite !Count_eq. cbn [fst message_transactions set_message_transactions].
  rewrite List.filter_app, length_app, Nat2Z.inj_add. do 3 f_equal.
  apply List.filter_ext_in. intros r Hr. apply counts_today_created.
  by apply (proj1 (Forall_forall _ _) Hat), list_elem_of_In.
Qed.
(** ** Pass B and the provider of the alternative *)

Lemma fallen_back_providers now msg np d :
  providers (fallen_back now msg np d) = providers d.
Proof.
  unfold fallen_back.
  by destruct (archive_registry now (ID msg)
                 (update_row (ID msg)
                    (settle now "fallback_triggered" fallback_errorMessage None None None)
                    (set_message_transactions
                       (message_transactions d
                        ++ [inserted (messaging.fallback_transaction now msg np) d]) d)))
    as (_ & -> & _).
Qed.

(** Property X28.  Pass B does not look at the provider of the binding it
    falls back to.  When that provider is switched off, the fallback
    transaction is created all the same, and the worker that takes it marks
    it failed. *)
Theorem fallback_does_not_check_the_provider ext now now' msg w np p :
  In (ID msg) (keys (db w)) ->
  alternative (db w) msg = Some np ->
  Repository.GetByID (up_ProviderID np) (db w) = (p, None) ->
  p_Status p = false ->
  let w1 := exec (messaging.fallback now msg) w in
  exists mt,
    In mt (message_transactions (db w1))
    /\ ~ In (ID mt) (keys (db w))
    /\ ProviderID mt = up_ProviderID np
    /\ Status mt = "pending"
    /\ forall r,
         In r (message_transactions
                 (db (exec (messaging.processMessage ext now' (toDomainMapper mt)) w1))) ->
         ID r = ID mt ->
         Status r = "failed" /\ ErrorMessage r = "provider is inactive".
Proof.
  intros Hk Halt Hp Hs. cbn zeta. unfold exec.
  destruct (fallback_effect now msg w) as [H _]. rewrite Halt in H. destruct H as [Hdb _].
  set (w1 := (messaging.fallback now msg w).2) in *.
  set (mt := inserted (messaging.fallback_transaction now msg np) (db w)) in *.
  assert (Hfresh : ~ In (ID mt) (keys (db w))) by apply inserted_fresh.
  exists mt. split; [|split; [done|split; [done|split; [done|]]]].
  - rewrite Hdb, fallen_back_table. apply in_map_iff. exists mt. split.
    + destruct (Z.eqb_spec (ID mt) (ID msg)) as [Heq|_]; [|done].
      exfalso. apply Hfresh. by rewrite Heq.
    + apply in_or_app. right. by left.
  - intros r Hin Hid.
    apply processMessage_rows in Hin as (r0 & _ & _ & ->); [|done].
    assert (Ho : outcome ext (db w1) (toDomainMapper mt) = Inactive).
    { unfold outcome, Repository.GetByID. rewrite Hdb, fallen_back_providers.
      unfold Repository.GetByID in Hp.
      change (ProviderID (toDomainMapper mt)) with (up_ProviderID np).
      rewrite Hp, Hs. done. }
    by rewrite Ho.
Qed.
(** ** The controller *)

(** A refused submission comes with an error, except when the user has no
    binding. *)
Lemma SendMessage_refusal ext now request w :
  accepts now request (db w) = false ->
  ((UserRepository.GetByID (req_UserID request) (db w)).2 = None
   /\ (CountUserMessagesForToday now (req_UserID request) (db w)).1
        < MessageRateLimit (UserRepository.GetByID (req_UserID request) (db w)).1
   /\ (UserProviderRepository.GetUserProvidersByPriority (req_UserID request) (db w)).1 = []
   /\ (SendMessage ext now request w).1 = (None, None))
  \/ (~ ((UserRepository.GetByID (req_UserID request) (db w)).2 = None
         /\ (CountUserMessagesForToday now (req_UserID request) (db w)).1
              < MessageRateLimit (UserRepository.GetByID (req_UserID request) (db w)).1
         /\ (UserProviderRepository.GetUserProvidersByPriority (req_UserID request) (db w)).1
            = [])
      /\ exists e, (SendMessage ext now request w).1 = (None, Some e)).
Proof.
  unfold accepts. cbn zeta. intros Hacc.
  unfold SendMessage. run.
  destruct (UserRepository.GetByID _ _) as [user [e|]].
  { right. split; [intros [H _]; discriminate H|]. run. by eexists. }
  run. cbn [fst snd] in *.
  destruct (CountUserMessagesForToday _ _ _) as [cnt [e|]] eqn:Hc.
  { right. unfold CountUserMessagesForToday in Hc. discriminate Hc. }
  cbn [fst snd] in *.
  destruct (Z.geb_spec cnt (MessageRateLimit user)) as [Hge|Hlt].
  { right. split; [intros (_ & H & _); lia|]. run. by eexists. }
  run.
  destruct (UserProviderRepository.GetUserProvidersByPriority _ _) as [ups [e|]] eqn:Hups.
  { right. unfold UserProviderRepository.GetUserProvidersByPriority in Hups. discriminate Hups. }
  cbn [fst snd] in *.
  destruct ups as [|u0 ups].
  { left. cbn [length Nat.eqb]. run. done. }
  right. split; [intros (_ & _ & H); discriminate H|].
  cbn [length Nat.eqb]. run.
  destruct (select_provider_run request (u0 :: ups) w) as [l ->]. cbn [fst snd db set_logs].
  destruct (Repository.GetByID _ _) as [pd [e|]]; [run; by eexists|].
  exfalso. cbn in Hacc. apply Z.ltb_lt in Hlt. rewrite Hlt in Hacc. discriminate Hacc.
Qed.

(** Property X29.  What the client of [POST /send/message] gets, once the
    request is bound.  An accepted submission is answered 202 with the key,
    the status pending and the acknowledgement.  Every refusal that comes
    with an error, the daily limit included, is answered 500 with one and
    the same body.  When the user has no binding the handler dereferences
    the nil response and panics. *)
Theorem Message_replies ext now request w :
  let q := {| req_Type := send.dto_Type request;
              req_Message := send.dto_Message request;
              req_Recipients := send.dto_Recipients request;
              req_UserID := send.dto_UserID request |} in
  let no_binding :=
    (UserRepository.GetByID (req_UserID q) (db w)).2 = None
    /\ (CountUserMessagesForToday now (req_UserID q) (db w)).1
         < MessageRateLimit (UserRepository.GetByID (req_UserID q) (db w)).1
    /\ (UserProviderRepository.GetUserProvidersByPriority (req_UserID q) (db w)).1 = [] in
  let reply := (send.Message ext now request w).1 in
  (accepts now q (db w) = true ->
   reply = send.JSON send.StatusAccepted
             (send.json_MessageResponse
                {| send.dto_ID := ID (submitted ext now q (db w));
                   send.dto_Status := "pending";
                   send.dto_Timestamp := "";
                   send.dto_ResponseMessage := "Message queued for processing" |}))
  /\ (no_binding -> reply = send.nil_pointer_dereference)
  /\ (accepts now q (db w) = false -> ~ no_binding ->
      reply = send.JSON send.StatusInternalServerError
                (<["error" := VString "Error sending message"]> ∅)).
Proof.
  cbn zeta.
  set (q := {| req_Type := send.dto_Type request;
               req_Message := send.dto_Message request;
               req_Recipients := send.dto_Recipients request;
               req_UserID := send.dto_UserID request |}).
  unfold send.Message. fold q. rewrite bind_run.
  split; [|split].
  - intros Hacc. destruct (SendMessage_accepts ext now q w Hacc) as (Hres & _).
    destruct (SendMessage ext now q w) as [[resp err] w1]. cbn [fst snd] in *.
    injection Hres as -> ->. by run.
  - intros (Hu & Hc & Hups).
    rewrite (SendMessage_no_bindings ext now q w Hu Hc Hups). by run.
  - intros Hacc Hnb. destruct (SendMessage_refusal ext now q w Hacc) as [H|[_ [e He]]].
    { exfalso. apply Hnb. tauto. }
    destruct (SendMessage ext now q w) as [[resp err] w1]. cbn [fst snd] in *.
    injection He as -> ->. by run.
Qed.

(** Property X30.  What the client of [GET /send/message/:id/status] gets,
    once the request is bound.  A key that is not in the active table is
    answered 500, like any other error; a key that is there is answered 200
    with the row's status, text, recipients, error message, retry count and
    formatted times. *)
Theorem GetMessageStatus_replies fmt request w :
  let id := send.dto_StatusID request in
  let reply := (send.GetMessageStatus fmt request w).1 in
  (~ In id (keys (db w)) ->
   reply = send.JSON send.StatusInternalServerError
             (<["error" := VString "Error getting message status"]> ∅))
  /\ (forall r, List.find (fun r => ID r =? id) (message_transactions (db w)) = Some r ->
      reply = send.JSON send.StatusOK
                (send.json_MessageStatusResponse
                   {| send.dto_s_ID := ID r;
                      send.dto_s_Status := Status r;
                      send.dto_s_Message := Message r;
                      send.dto_s_Recipients := Recipients r;
                      send.dto_s_ErrorMessage := ErrorMessage r;
                      send.dto_s_RetryCount := RetryCount r;
                      send.dto_s_CreatedAt := fmt (CreatedAt r);
                      send.dto_s_UpdatedAt := fmt (UpdatedAt r) |})).
Proof.
  cbn zeta. unfold send.GetMessageStatus. rewrite bind_run.
  destruct (GetMessageStatus_run {| sreq_ID := send.dto_StatusID request |} w) as [l ->].
  cbn [fst snd sreq_ID]. unfold GetByID. split.
  - intros Hk. rewrite find_missing by done. by run.
  - intros r ->. by run.
Qed.

(** ** The further properties on concrete runs *)

Lemma GetPendingMessages_twice_witness :
  NoDup (keys db_backlog)
  /\ (GetPendingMessages (noon + Minute) (GetPendingMessages noon db_backlog).1).2
     = ([toDomainMapper (mk_transaction 1001 7 1 "pending" 0 None noon)], None).
Proof.
  assert (H : NoDup (keys db_backlog))
    by (apply (bool_decide_unpack _); vm_compute; exact I).
  split; [exact H|].
  etrans; [apply (GetPendingMessages_twice noon (noon + Minute) db_backlog H)|].
  vm_compute. reflexivity.
Defined.

Lemma SendMessage_then_checkPendingMessages_queues_twice_witness :
  accepts noon request (db (world db0)) = true
  /\ messageQueue
       (exec (messaging.checkPendingMessages (noon + Minute))
          (exec (SendMessage ext noon request) (world db0)))
     = [ toDomainMapper (submitted ext noon request db0);
         toDomainMapper (submitted ext noon request db0) ].
Proof.
  split; [reflexivity|].
  apply (SendMessage_then_checkPendingMessages_queues_twice
           ext noon (noon + Minute) request (world db0)).
  - reflexivity.
  - vm_compute. lia.
Defined.

Lemma trace_registry_read_only_witness :
  NoDup (keys (db (world db0)))
  /\ user_providers (db (trace ext (world db0) day)) = user_providers db0.
Proof.
  assert (H : NoDup (keys (db (world db0)))) by (vm_compute; constructor).
  split; [exact H|].
  by destruct (trace_registry_read_only ext day (world db0) H) as (_ & _ & ->).
Defined.

Lemma trace_transactions_are_kept_witness :
  NoDup (keys db_failed)
  /\ exists created,
       map identity (message_transactions (db (trace ext (world db_failed) day))) =
         identity failed_row :: created.
Proof.
  assert (H : NoDup (keys (db (world db_failed))))
    by (apply (bool_decide_unpack _); vm_compute; exact I).
  split; [exact H|].
  destruct (trace_transactions_are_kept ext day (world db_failed) H) as [created Hc].
  exists created. exact Hc.
Defined.

Lemma trace_keys_stay_unique_witness :
  NoDup (keys db0) /\ NoDup (history_keys db0)
  /\ NoDup (keys (db (trace ext (world db0) day)))
  /\ NoDup (history_keys (db (trace ext (world db0) day))).
Proof.
  assert (H1 : NoDup (keys (db (world db0)))) by (vm_compute; constructor).
  assert (H2 : NoDup (history_keys (db (world db0)))) by (vm_compute; constructor).
  split; [exact H1|]. split; [exact H2|].
  exact (trace_keys_stay_unique ext day (world db0) H1 H2).
Defined.

Lemma trace_history_is_a_ledger_witness :
  NoDup (keys db0)
  /\ exists appended,
       message_transaction_history (db (trace ext (world db0) day)) = appended
       /\ Forall (fun h => terminal (h_Status h)) appended.
Proof.
  assert (H : NoDup (keys (db (world db0)))) by (vm_compute; constructor).
  split; [exact H|].
  destruct (trace_history_is_a_ledger ext day (world db0) H) as (appended & Ha & Ht).
  exists appended. split; [exact Ha|exact Ht].
Defined.

Lemma trace_settled_rows_are_archived_witness :
  NoDup (keys db0)
  /\ forall r, In r (message_transactions (db (trace ext (world db0) day))) ->
       terminal (Status r) ->
       exists h, In h (message_transaction_history (db (trace ext (world db0) day)))
                 /\ h_MessageID h = ID r /\ h_Status h = Status r.
Proof.
  assert (H : NoDup (keys (db (world db0)))) by (vm_compute; constructor).
  split; [exact H|].
  apply (trace_settled_rows_are_archived ext day (world db0) H).
  intros r [].
Defined.

Lemma trace_queue_is_bounded_witness :
  (length (messageQueue jammed) <= messageQueueCap)%nat
  /\ (length (messageQueue (trace ext jammed day)) <= messageQueueCap)%nat.
Proof.
  assert (H : NoDup (keys (db jammed)))
    by (apply (bool_decide_unpack _); vm_compute; exact I).
  assert (Hq : (length (messageQueue jammed) <= messageQueueCap)%nat)
    by (vm_compute; reflexivity).
  split; [exact Hq|].
  exact (trace_queue_is_bounded ext day jammed H Hq).
Defined.

Lemma trace_rows_stay_consistent_witness :
  NoDup (keys db0)
  /\ forall r, In r (message_transactions (db (trace ext (world db0) day))) ->
       (Status r = "failed" -> NextRetryAt r <> None)
       /\ (Status r <> "pending" -> Processing r = false).
Proof.
  assert (H : NoDup (keys (db (world db0)))) by (vm_compute; constructor).
  split; [exact H|].
  apply (trace_rows_stay_consistent ext day (world db0) H).
  intros r [].
Defined.

Lemma trace_reservation_without_message_is_final_witness :
  let w := world (with_transactions [reserved_row 1] db0) in
  NoDup (keys (db w)) /\ In 1 (keys (db w)) /\ ~ In 1 (map ID (messageQueue w))
  /\ (forall r, In r (message_transactions (db (trace ext w day))) -> ID r = 1 ->
        Status r = "pending" /\ Processing r = true)
  /\ ~ In 1 (map ID (messageQueue (trace ext w day))).
Proof.
  cbn zeta.
  assert (H : NoDup (keys (db (world (with_transactions [reserved_row 1] db0)))))
    by (apply (bool_decide_unpack _); vm_compute; exact I).
  assert (Hk : In 1 (keys (db (world (with_transactions [reserved_row 1] db0)))))
    by (vm_compute; left; reflexivity).
  assert (Hq : ~ In 1 (map ID (messageQueue (world (with_transactions [reserved_row 1] db0)))))
    by (vm_compute; intros []).
  split; [exact H|]. split; [exact Hk|]. split; [exact Hq|].
  apply (trace_reservation_without_message_is_final ext day _ 1 H Hk); [|exact Hq].
  intros r [<-|[]] _. split; reflexivity.
Defined.

Lemma accepted_message_is_lost_when_queue_is_full_witness :
  let w2 := exec (messaging.checkPendingMessages (noon + Minute))
              (exec (SendMessage ext noon request) jammed) in
  accepts noon request (db jammed) = true
  /\ length (messageQueue jammed) = messageQueueCap
  /\ (SendMessage ext noon request jammed).1 =
       (Some {| resp_ID := 101; resp_Status := "pending";
                resp_Message := "Message queued for processing" |}, None)
  /\ In 101 (keys (db (trace ext w2 day)))
  /\ (forall r, In r (message_transactions (db (trace ext w2 day))) -> ID r = 101 ->
        Status r = "pending" /\ Processing r = true)
  /\ ~ In 101 (map ID (messageQueue (trace ext w2 day))).
Proof.
  cbn zeta.
  assert (H : NoDup (keys (db jammed)))
    by (apply (bool_decide_unpack _); vm_compute; exact I).
  assert (Hinc : incl (map ID (messageQueue jammed)) (keys (db jammed)))
    by (vm_compute; intros x Hx; exact Hx).
  assert (Hacc : accepts noon request (db jammed) = true) by (vm_compute; reflexivity).
  assert (Hfull : length (messageQueue jammed) = messageQueueCap) by (vm_compute; reflexivity).
  assert (Hsel : (length (List.filter pending_unreserved (message_transactions (db jammed)))
                  < 1000)%nat) by (vm_compute; lia).
  split; [exact Hacc|]. split; [exact Hfull|].
  assert (Hid : ID (submitted ext noon request (db jammed)) = 101)
    by (vm_compute; reflexivity).
  pose proof (accepted_message_is_lost_when_queue_is_full
                ext noon (noon + Minute) request jammed day H Hinc Hacc Hfull Hsel) as Hlost.
  cbn zeta in Hlost. rewrite Hid in Hlost. exact Hlost.
Defined.

Lemma rate_limit_lasts_all_day_witness :
  NoDup (keys db_spent)
  /\ startOfDay (noon + Hour) = startOfDay noon
  /\ (SendMessage ext noon request (world db_spent)).1 = (None, Some rateLimited)
  /\ (SendMessage ext (noon + Hour) request (trace ext (world db_spent) day)).1
     = (None, Some rateLimited).
Proof.
  assert (H : NoDup (keys (db (world db_spent))))
    by (apply (bool_decide_unpack _); vm_compute; exact I).
  assert (Hday : startOfDay (noon + Hour) = startOfDay noon) by (vm_compute; reflexivity).
  assert (Hrl : (SendMessage ext noon request (world db_spent)).1 = (None, Some rateLimited))
    by (vm_compute; reflexivity).
  split; [exact H|]. split; [exact Hday|]. split; [exact Hrl|].
  exact (rate_limit_lasts_all_day ext day noon (noon + Hour) request (world db_spent)
           H Hday Hrl).
Defined.

Lemma signal_send_is_always_recorded_as_success_witness :
  let msg := toDomainMapper (reserved_row 1) in
  let w' := exec (messaging.processMessage ext_down noon msg) (queued 1) in
  SendV2 ext_down (SIGNAL_FROM_NUMBER ext_down) (Message msg)
    (json_Unmarshal_strings ext_down (Recipients msg)) None
  = (None, Some (errors_New "connection refused"))
  /\ Repository.GetByID (ProviderID msg) (db (queued 1)) = (mk_provider 1 "signal" true, None)
  /\ forall r, In r (message_transactions (db w')) -> ID r = ID msg ->
       Status r = "success" /\ ErrorMessage r = "" /\ Processing r = false
       /\ ResponseData r = kept_response ext_down msg /\ UpdatedAt r = noon.
Proof.
  cbn zeta. split; [reflexivity|].
  assert (Hp : Repository.GetByID (ProviderID (toDomainMapper (reserved_row 1)))
                 (db (queued 1)) = (mk_provider 1 "signal" true, None))
    by (vm_compute; reflexivity).
  split; [exact Hp|].
  apply (signal_send_is_always_recorded_as_success ext_down noon
           (toDomainMapper (reserved_row 1)) (queued 1) (mk_provider 1 "signal" true) Hp);
    reflexivity.
Defined.

Lemma other_providers_always_fail_witness :
  let msg := toDomainMapper (reserved_row 2) in
  let w' := exec (messaging.processMessage ext noon msg) (queued 2) in
  Repository.GetByID (ProviderID msg) (db (queued 2)) = (mk_provider 2 "email" true, None)
  /\ forall r, In r (message_transactions (db w')) -> ID r = ID msg ->
       Status r = "failed" /\ ErrorMessage r = "email provider not implemented yet"
       /\ Processing r = false /\ RequestData r = "" /\ ResponseData r = ""
       /\ NextRetryAt r = Some (noon + 3 * Minute).
Proof.
  cbn zeta.
  assert (Hp : Repository.GetByID (ProviderID (toDomainMapper (reserved_row 2)))
                 (db (queued 2)) = (mk_provider 2 "email" true, None))
    by (vm_compute; reflexivity).
  split; [exact Hp|].
  apply (other_providers_always_fail ext noon
           (toDomainMapper (reserved_row 2)) (queued 2) (mk_provider 2 "email" true) Hp);
    [reflexivity|discriminate].
Defined.

Lemma GetMessageStatus_of_unknown_key_witness :
  ~ In 5 (keys db_failed)
  /\ (GetMessageStatus {| sreq_ID := 5 |} (world db_failed)).1
     = (None, Some (AppError NotFound)).
Proof.
  assert (H : ~ In 5 (keys (db (world db_failed))))
    by (vm_compute; intros [H|[]]; discriminate H).
  split; [exact H|].
  by destruct (GetMessageStatus_of_unknown_key {| sreq_ID := 5 |} (world db_failed) H)
    as (-> & _).
Defined.

Lemma submitted_message_can_be_queried_witness :
  accepts noon request db_failed = true
  /\ exists id,
       (SendMessage ext noon request (world db_failed)).1 =
         (Some {| resp_ID := id; resp_Status := "pending";
                  resp_Message := "Message queued for processing" |}, None)
       /\ (GetMessageStatus {| sreq_ID := id |}
             (SendMessage ext noon request (world db_failed)).2).1 =
            (Some {| sresp_ID := id; sresp_Status := "pending"; sresp_Message := "hi";
                     sresp_Recipients := "+15550100"; sresp_ErrorMessage := "";
                     sresp_RetryCount := 0; sresp_CreatedAt := noon;
                     sresp_UpdatedAt := noon |}, None).
Proof.
  assert (Hacc : accepts noon request (db (world db_failed)) = true)
    by (vm_compute; reflexivity).
  split; [exact Hacc|].
  destruct (submitted_message_can_be_queried ext noon request (world db_failed) Hacc)
    as (id & Hres & _ & Hq).
  exists id. split; [exact Hres|exact Hq].
Defined.

Lemma submission_to_signal_ends_as_success_witness :
  accepts noon request db0 = true
  /\ SendV2 ext_down "+15550000" "hi" ["+15550100"] None
     = (None, Some (errors_New "connection refused"))
  /\ (GetMessageStatus {| sreq_ID := 1 |}
        (trace ext_down (world db0) [Submit noon request; Turn (noon + Second)])).1
     = (Some {| sresp_ID := 1; sresp_Status := "success"; sresp_Message := "hi";
                sresp_Recipients := "+15550100"; sresp_ErrorMessage := "";
                sresp_RetryCount := 0; sresp_CreatedAt := noon;
                sresp_UpdatedAt := noon + Second |}, None).
Proof.
  assert (Hacc : accepts noon request (db (world db0)) = true) by (vm_compute; reflexivity).
  split; [exact Hacc|]. split; [reflexivity|].
  assert (Hp : Repository.GetByID (ProviderID (submitted ext_down noon request (db (world db0))))
                 (db (world db0)) = (mk_provider 1 "signal" true, None))
    by (vm_compute; reflexivity).
  destruct (submission_to_signal_ends_as_success ext_down noon (noon + Second) request
              (world db0) (mk_provider 1 "signal" true) Hacc eq_refl Hp eq_refl eq_refl)
    as (Hq & _).
  exact Hq.
Defined.

Lemma SendMessage_takes_the_first_in_priority_witness :
  let q := {| req_Type := "email"; req_Message := "hi";
              req_Recipients := ["a@example.org"]; req_UserID := 7 |} in
  accepts noon q db0 = true /\ usable 7 db0 = true
  /\ exists mt up,
       message_transactions (db (SendMessage ext noon q (world db0)).2) = [mt]
       /\ ProviderID mt = up_ProviderID up
       /\ matches_type db0 "email" up = true.
Proof.
  cbn zeta.
  set (q := {| req_Type := "email"; req_Message := "hi";
               req_Recipients := ["a@example.org"]; req_UserID := 7 |}).
  assert (Hacc : accepts noon q (db (world db0)) = true) by (vm_compute; reflexivity).
  assert (Hus : usable (req_UserID q) (db (world db0)) = true) by (vm_compute; reflexivity).
  split; [exact Hacc|]. split; [exact Hus|].
  destruct (SendMessage_takes_the_first_in_priority ext noon q (world db0) Hacc Hus)
    as (mt & up & Hrows & Hp & _ & Hw & _).
  exists mt, up. split; [exact Hrows|]. split; [exact Hp|].
  destruct Hw as [[_ Hm] _]; [|exact Hm].
  split; [discriminate|]. exists (mk_binding 2 7 2 2 "" true).
  split; [split; [right; left; reflexivity|reflexivity]|reflexivity].
Defined.

Lemma SendMessage_without_usable_binding_witness :
  usable 7 db_all_off = false
  /\ (UserProviderRepository.GetUserProvidersByPriority 7 db_all_off).1 <> []
  /\ (SendMessage ext noon request (world db_all_off)).1 = (None, Some (AppError NotFound))
  /\ db (SendMessage ext noon request (world db_all_off)).2 = db_all_off.
Proof.
  assert (Hu : UserRepository.GetByID (req_UserID request) (db (world db_all_off))
               = ({| u_ID := 7; MessageRateLimit := 3 |}, None)) by reflexivity.
  assert (Hc : (CountUserMessagesForToday noon (req_UserID request) (db (world db_all_off))).1
               < MessageRateLimit {| u_ID := 7; MessageRateLimit := 3 |})
    by (vm_compute; reflexivity).
  assert (Hne : (UserProviderRepository.GetUserProvidersByPriority (req_UserID request)
                   (db (world db_all_off))).1 <> []) by (vm_compute; discriminate).
  assert (Hus : usable (req_UserID request) (db (world db_all_off)) = false)
    by (vm_compute; reflexivity).
  assert (H0 : ~ In 0 (map p_ID (providers (db (world db_all_off)))))
    by (vm_compute; intros [H|[H|[]]]; discriminate H).
  split; [exact Hus|]. split; [exact Hne|].
  destruct (SendMessage_without_usable_binding ext noon request (world db_all_off) _
              Hu Hc Hne Hus H0) as (Hres & Hdb & _).
  split; [exact Hres|exact Hdb].
Defined.

Lemma failed_and_fallen_back_rows_are_final_witness :
  NoDup (keys db_failed) /\ Status failed_row = "failed"
  /\ In failed_row (message_transactions (db (trace ext (world db_failed) day)))
  /\ (GetMessageStatus {| sreq_ID := 1 |} (trace ext (world db_failed) day)).1
     = (GetMessageStatus {| sreq_ID := 1 |} (world db_failed)).1.
Proof.
  assert (H : NoDup (keys (db (world db_failed))))
    by (apply (bool_decide_unpack _); vm_compute; exact I).
  assert (Hin : In failed_row (message_transactions (db (world db_failed))))
    by (left; reflexivity).
  assert (Hq : ~ In (ID failed_row) (map ID (messageQueue (world db_failed))))
    by (intros []).
  split; [exact H|]. split; [reflexivity|].
  destruct (failed_and_fallen_back_rows_are_final ext day (world db_failed) failed_row
              H Hin (or_introl eq_refl) Hq) as (H1 & _ & H3).
  split; [exact H1|exact H3].
Defined.

Lemma Create_then_GetByID_witness :
  let mt := mk_transaction 0 7 2 "pending" 0 (Some noon) noon in
  let r := Create mt db_failed in
  ID mt = 0 /\ CreatedAt mt <> zeroTime /\ UpdatedAt mt <> zeroTime
  /\ ID r.2.1 = 2
  /\ GetByID 2 r.1 = (r.2.1, None)
  /\ NextRetryAt mt = Some noon /\ NextRetryAt r.2.1 = None.
Proof.
  cbn zeta.
  assert (Hc : CreatedAt (mk_transaction 0 7 2 "pending" 0 (Some noon) noon) <> zeroTime)
    by (vm_compute; discriminate).
  assert (Hu : UpdatedAt (mk_transaction 0 7 2 "pending" 0 (Some noon) noon) <> zeroTime)
    by (vm_compute; discriminate).
  destruct (Create_then_GetByID (mk_transaction 0 7 2 "pending" 0 (Some noon) noon)
              db_failed eq_refl Hc Hu) as (_ & _ & _ & _ & Hget & _ & Hn & _).
  split; [reflexivity|]. split; [exact Hc|]. split; [exact Hu|].
  split; [reflexivity|]. split; [exact Hget|].
  split; [reflexivity|exact Hn].
Defined.
Lemma MoveToHistory_copies_witness :
  In 1 (keys db_failed)
  /\ message_transactions (MoveToHistory noon 1 db_failed).1 = [failed_row]
  /\ exists h,
       message_transaction_history (MoveToHistory noon 1 db_failed).1 = [h]
       /\ h_MessageID h = 1 /\ h_ProcessedAt h = noon - 4 * Minute.
Proof.
  assert (Hk : In 1 (keys db_failed)) by (left; reflexivity).
  split; [exact Hk|].
  destruct (MoveToHistory_copies noon 1 db_failed Hk)
    as (_ & Hrows & row & h & Hin & _ & Hh & _ & Hm & _ & _ & Hp & _).
  split; [exact Hrows|]. exists h. split; [exact Hh|]. split; [exact Hm|].
  destruct Hin as [<-|[]]. exact Hp.
Defined.
Lemma missing_key_is_reported_witness :
  ~ In 5 (keys db_failed)
  /\ GetByID 5 db_failed = (zeroMessageTransaction, Some (AppError NotFound))
  /\ MoveToHistory noon 5 db_failed = (db_failed, Some (AppError NotFound))
  /\ Update noon 5 messaging.fallback_updateData db_failed
     = (db_failed, (zeroMessageTransaction, Some ErrRecordNotFound)).
Proof.
  assert (H : ~ In 5 (keys db_failed)) by (vm_compute; intros [H|[]]; discriminate H).
  assert (Hcols : bool_decide (dom (to_columns messaging.fallback_updateData) ⊆ columns)
                  = true) by (vm_compute; reflexivity).
  split; [exact H|].
  destruct (missing_key_is_reported noon 5 messaging.fallback_updateData db_failed H Hcols)
    as (Hget & Hmove & Hupd).
  split; [exact Hget|]. split; [exact Hmove|]. apply Hupd. discriminate.
Defined.
Lemma settling_starts_the_timers_witness :
  let msg := toDomainMapper (reserved_row 2) in
  let d' := db (messaging.processMessage ext noon msg (queued 2)).2 in
  let r := nth 0 (message_transactions d') zeroMessageTransaction in
  In r (message_transactions d') /\ ID r = ID msg
  /\ Status r = "failed"
  /\ ~ In (toDomainMapper r) (GetFailedMessagesForRetry (noon + 2 * Minute) d').1
  /\ In (toDomainMapper r) (GetFailedMessagesForRetry (noon + 3 * Minute) d').1.
Proof.
  cbn zeta.
  assert (Hin : In (nth 0 (message_transactions
                             (db (messaging.processMessage ext noon
                                    (toDomainMapper (reserved_row 2)) (queued 2)).2))
                      zeroMessageTransaction)
                  (message_transactions
                     (db (messaging.processMessage ext noon
                            (toDomainMapper (reserved_row 2)) (queued 2)).2)))
    by (vm_compute; left; reflexivity).
  assert (Hid : ID (nth 0 (message_transactions
                             (db (messaging.processMessage ext noon
                                    (toDomainMapper (reserved_row 2)) (queued 2)).2))
                      zeroMessageTransaction)
                = ID (toDomainMapper (reserved_row 2))) by (vm_compute; reflexivity).
  assert (Hs : Status (nth 0 (message_transactions
                                (db (messaging.processMessage ext noon
                                       (toDomainMapper (reserved_row 2)) (queued 2)).2))
                         zeroMessageTransaction) = "failed") by (vm_compute; reflexivity).
  split; [exact Hin|]. split; [exact Hid|]. split; [exact Hs|]. split.
  - destruct (settling_starts_the_timers ext noon _ (queued 2) _ (noon + 2 * Minute)
                Hin Hid) as [[_ [Hto _]]|[Hs' _]].
    + intros Hc. specialize (Hto Hc). vm_compute in Hto. by apply Hto.
    + rewrite Hs in Hs'. discriminate Hs'.
  - destruct (settling_starts_the_timers ext noon _ (queued 2) _ (noon + 3 * Minute)
                Hin Hid) as [[_ [_ Hfrom]]|[Hs' _]].
    + apply Hfrom. vm_compute. discriminate.
    + rewrite Hs in Hs'. discriminate Hs'.
Defined.
Lemma fallback_does_not_check_the_provider_witness :
  let msg := toDomainMapper stale_row in
  let w1 := exec (messaging.fallback noon msg) (world db_stale_off) in
  alternative db_stale_off msg = Some (mk_binding 2 7 2 2 "" true)
  /\ Repository.GetByID 2 db_stale_off = (mk_provider 2 "email" false, None)
  /\ exists mt,
       In mt (message_transactions (db w1))
       /\ ProviderID mt = 2 /\ Status mt = "pending"
       /\ forall r,
            In r (message_transactions
                    (db (exec (messaging.processMessage ext (noon + Minute)
                                 (toDomainMapper mt)) w1))) ->
            ID r = ID mt ->
            Status r = "failed" /\ ErrorMessage r = "provider is inactive".
Proof.
  cbn zeta.
  assert (Hk : In (ID (toDomainMapper stale_row)) (keys (db (world db_stale_off))))
    by (left; reflexivity).
  assert (Halt : alternative (db (world db_stale_off)) (toDomainMapper stale_row)
                 = Some (mk_binding 2 7 2 2 "" true)) by (vm_compute; reflexivity).
  assert (Hp : Repository.GetByID (up_ProviderID (mk_binding 2 7 2 2 "" true))
                 (db (world db_stale_off)) = (mk_provider 2 "email" false, None))
    by (vm_compute; reflexivity).
  split; [exact Halt|]. split; [exact Hp|].
  destruct (fallback_does_not_check_the_provider ext noon (noon + Minute)
              (toDomainMapper stale_row) (world db_stale_off) _ _ Hk Halt Hp eq_refl)
    as (mt & Hin & _ & Hpid & Hs & Hfail).
  exists mt. split; [exact Hin|]. split; [exact Hpid|]. split; [exact Hs|exact Hfail].
Defined.

Lemma Message_replies_witness :
  let dto := {| send.dto_Type := "signal"; send.dto_Message := "hi";
                send.dto_Recipients := ["+15550100"]; send.dto_UserID := 7 |} in
  (send.Message ext noon dto (world db0)).1
  = send.JSON 202
      (send.json_MessageResponse
         {| send.dto_ID := 1; send.dto_Status := "pending"; send.dto_Timestamp := "";
            send.dto_ResponseMessage := "Message queued for processing" |})
  /\ (send.Message ext noon dto (world db_spent)).1
     = send.JSON 500 (<["error" := VString "Error sending message"]> ∅)
  /\ (send.Message ext noon dto (world db_no_bindings)).1 = send.nil_pointer_dereference.
Proof.
  cbn zeta. split; [|split].
  - destruct (Message_replies ext noon
                {| send.dto_Type := "signal"; send.dto_Message := "hi";
                   send.dto_Recipients := ["+15550100"]; send.dto_UserID := 7 |}
                (world db0)) as (H & _ & _).
    apply H. vm_compute. reflexivity.
  - destruct (Message_replies ext noon
                {| send.dto_Type := "signal"; send.dto_Message := "hi";
                   send.dto_Recipients := ["+15550100"]; send.dto_UserID := 7 |}
                (world db_spent)) as (_ & _ & H).
    apply H.
    + vm_compute. reflexivity.
    + intros (_ & Hc & _). vm_compute in Hc. discriminate Hc.
  - destruct (Message_replies ext noon
                {| send.dto_Type := "signal"; send.dto_Message := "hi";
                   send.dto_Recipients := ["+15550100"]; send.dto_UserID := 7 |}
                (world db_no_bindings)) as (_ & H & _).
    apply H. split; [reflexivity|]. split; [vm_compute; reflexivity|reflexivity].
Defined.

Lemma GetMessageStatus_replies_witness :
  let fmt := fun t : Time => if t =? noon - 4 * Minute then "1970-01-02T11:56:00Z" else "" in
  (send.GetMessageStatus fmt {| send.dto_StatusID := 5 |} (world db_failed)).1
  = send.JSON 500 (<["error" := VString "Error getting message status"]> ∅)
  /\ (send.GetMessageStatus fmt {| send.dto_StatusID := 1 |} (world db_failed)).1
     = send.JSON 200
         (send.json_MessageStatusResponse
            {| send.dto_s_ID := 1; send.dto_s_Status := "failed"; send.dto_s_Message := "hi";
               send.dto_s_Recipients := "+15550100"; send.dto_s_ErrorMessage := "";
               send.dto_s_RetryCount := 0;
               send.dto_s_CreatedAt := "1970-01-02T11:56:00Z";
               send.dto_s_UpdatedAt := "1970-01-02T11:56:00Z" |}).
Proof.
  cbn zeta. split.
  - destruct (GetMessageStatus_replies
                (fun t : Time => if t =? noon - 4 * Minute then "1970-01-02T11:56:00Z" else "")
                {| send.dto_StatusID := 5 |} (world db_failed)) as (H & _).
    apply H. vm_compute. intros [Hc|[]]. discriminate Hc.
  - destruct (GetMessageStatus_replies
                (fun t : Time => if t =? noon - 4 * Minute then "1970-01-02T11:56:00Z" else "")
                {| send.dto_StatusID := 1 |} (world db_failed)) as (_ & H).
    apply (H failed_row). reflexivity.
Defined.
